(** * DMUR analysis: downtown boundary detection and mixed-use readiness scoring

    A shallow embedding of [dmur_analysis.core.dmur_calculator] and
    [dmur_analysis.core.downtown_analyzer].

    Numbers: Python/numpy floats are modelled by the real numbers [R]
    (exact arithmetic, no NaN, no infinities except where a field is
    documented to hold [float('inf')]).  Containers: JSON objects are
    [gmap string PyVal], data frames are lists of typed rows, numpy arrays
    are lists.  Exceptions: every fallible function returns an [Outcome].
    The geometry library (shapely) and the numerical libraries (sklearn,
    scipy) are interfaces, given as type classes. *)

From Stdlib Require Import Reals Lra Lia ZArith List Ascii String.
From stdpp Require Import base gmap strings list pretty sorting.

Local Open Scope R_scope.
Local Open Scope string_scope.

(** ** Python exceptions and outcomes *)

Inductive PyExn : Type :=
| ValueError (msg : string)
| KeyError (key : string)
| TypeError (msg : string)
| IndexError (msg : string)
| ZeroDivisionError (msg : string)
| QhullError (msg : string).

(** The name of the exception's class, as [type(e).__name__] gives it. *)
Definition exn_class (e : PyExn) : string :=
  match e with
  | ValueError _ => "ValueError"
  | KeyError _ => "KeyError"
  | TypeError _ => "TypeError"
  | IndexError _ => "IndexError"
  | ZeroDivisionError _ => "ZeroDivisionError"
  | QhullError _ => "QhullError"
  end.

Inductive Outcome (A : Type) : Type :=
| Returned (a : A)
| Raised (e : PyExn).
Arguments Returned {A} a.
Arguments Raised {A} e.

#[export] Instance Outcome_ret : MRet Outcome := fun A a => Returned a.
#[export] Instance Outcome_bind : MBind Outcome := fun A B f m =>
  match m with
  | Returned a => f a
  | Raised e => Raised e
  end.
#[export] Instance Outcome_fmap : FMap Outcome := fun A B f m =>
  match m with
  | Returned a => Returned (f a)
  | Raised e => Raised e
  end.

(** [try: body  except Exception as e: handler e] *)
Definition try_except {A} (body : Outcome A) (handler : PyExn -> Outcome A) : Outcome A :=
  match body with
  | Returned a => Returned a
  | Raised e => handler e
  end.

(** Sequential [for] loop whose body may raise: the first exception stops it. *)
Fixpoint for_each {A B} (f : A -> Outcome B) (l : list A) : Outcome (list B) :=
  match l with
  | [] => Returned []
  | x :: t => y ← f x; ys ← for_each f t; Returned (y :: ys)
  end.

(** ** JSON values *)

Inductive PyVal : Type :=
| PyNone
| PyNum (r : R)
| PyStr (s : string).

(** Python truthiness: [None], [0], [0.0] and the empty string are false. *)
Definition truthy (v : PyVal) : bool :=
  match v with
  | PyNone => false
  | PyNum r => if Req_dec_T r 0 then false else true
  | PyStr s => negb (String.eqb s "")
  end.

(** [not d.get(k)]: an absent key gives [None]. *)
Definition not_get (d : gmap string PyVal) (k : string) : bool :=
  match d !! k with
  | Some v => negb (truthy v)
  | None => true
  end.

(** [d[k]] *)
Definition getitem (d : gmap string PyVal) (k : string) : Outcome PyVal :=
  match d !! k with
  | Some v => Returned v
  | None => Raised (KeyError k)
  end.

(** [d.get(k, default)] *)
Definition get_default (d : gmap string PyVal) (k : string) (dflt : PyVal) : PyVal :=
  default dflt (d !! k).

(** A numeric column entry; arithmetic on anything else is a [TypeError]. *)
Definition as_num (v : PyVal) : Outcome R :=
  match v with
  | PyNum r => Returned r
  | _ => Raised (TypeError "unsupported operand type(s)")
  end.

(** ** numpy / builtins on reals *)

Definition Rleb (x y : R) : bool := if Rle_dec x y then true else false.
Definition Rltb (x y : R) : bool := if Rlt_dec x y then true else false.

Definition np_sum (l : list R) : R := fold_right Rplus 0 l.

(** [np.mean] *)
Definition np_mean (l : list R) : R := np_sum l / INR (length l).

(** [np.min] / [Series.min]; callers guard the empty case. *)
Definition np_min (l : list R) : R :=
  match l with
  | [] => 0
  | x :: t => fold_left Rmin t x
  end.

(** [np.max] / [Series.max]; callers guard the empty case. *)
Definition np_max (l : list R) : R :=
  match l with
  | [] => 0
  | x :: t => fold_left Rmax t x
  end.

Definition log10 (x : R) : R := ln x / ln 10.

Definition radians (x : R) : R := x * PI / 180.

(** Round half to even, the tie rule of Python's [round]. *)
Definition round_half_even (y : R) : Z :=
  let f := Zfloor y in
  let r := y - IZR f in
  if Rlt_dec r (1/2) then f
  else if Rlt_dec (1/2) r then (f + 1)%Z
  else if Z.even f then f else (f + 1)%Z.

(** [round(x, ndigits)] *)
Definition py_round (x : R) (ndigits : nat) : R :=
  IZR (round_half_even (x * 10 ^ ndigits)) / 10 ^ ndigits.

(** [scipy.spatial.distance.cdist(A, B, metric='euclidean')] on 2-column arrays. *)
Definition euclidean (a b : R * R) : R :=
  sqrt ((a.1 - b.1) ^ 2 + (a.2 - b.2) ^ 2).

Definition cdist (A B : list (R * R)) : list (list R) :=
  map (fun a => map (euclidean a) B) A.

(** [l[i]] on a list or array with a non-negative index. *)
Definition index {A} (l : list A) (i : nat) : Outcome A :=
  match l !! i with
  | Some x => Returned x
  | None => Raised (IndexError "index out of range")
  end.

(** [str.lower()] on ASCII letters. *)
Definition lower_ascii (c : ascii) : ascii :=
  let n := nat_of_ascii c in
  if Nat.leb 65 n && Nat.leb n 90 then ascii_of_nat (n + 32) else c.

Fixpoint lower (s : string) : string :=
  match s with
  | EmptyString => EmptyString
  | String c t => String (lower_ascii c) (lower t)
  end.

(** [repr] of a list of strings, as an f-string prints it. *)
Definition py_repr_list (l : list string) : string :=
  "[" ++ String.concat ", " (map (fun s => "'" ++ s ++ "'") l) ++ "]".

(** [np.linspace(start, stop, num)]: [num] evenly spaced samples, end points
    included. *)
Definition np_linspace (start stop : R) (num : nat) : list R :=
  map (fun i => start + INR i * ((stop - start) / INR (num - 1))) (seq 0 num).

(** [np.arange(start, stop, step)] *)
Definition np_arange (start stop step : R) : Outcome (list R) :=
  if Req_dec_T step 0 then Raised (ZeroDivisionError "division by zero")
  else
    let n := Z.to_nat (Zceil ((stop - start) / step)) in
    Returned (map (fun i => start + INR i * step) (seq 0 n)).

(** [np.meshgrid(x, y)]: the first result repeats [x] along the rows, the
    second repeats each entry of [y] along its row. *)
Definition np_meshgrid (x y : list R) : list (list R) * list (list R) :=
  (map (fun _ => x) y, map (fun yi => map (fun _ => yi) x) y).

(** [a.ravel()] of a 2-D array *)
Definition ravel {A} (a : list (list A)) : list A := concat a.

(** [a.shape] of a 2-D array *)
Definition shape2 {A} (a : list (list A)) : nat * nat :=
  (length a, length (List.hd [] a)).

Fixpoint chunks {A} (ncols : nat) (nrows : nat) (l : list A) : list (list A) :=
  match nrows with
  | O => []
  | S k => take ncols l :: chunks ncols k (drop ncols l)
  end.

(** [a.reshape((nrows, ncols))] *)
Definition reshape {A} (l : list A) (nrows ncols : nat) : Outcome (list (list A)) :=
  if Nat.eqb (length l) (nrows * ncols) then Returned (chunks ncols nrows l)
  else Raised (ValueError "cannot reshape array").

#[export] Instance Rle_decision (x y : R) : Decision (x <= y) := Rle_dec x y.

(** [np.sort] *)
Definition np_sort (a : list R) : list R := merge_sort Rle a.

(** Linear interpolation in a sorted array at a fractional (virtual)
    index: between the entry at its floor and the next one. *)
Definition interp (arr : list R) (v : R) : R :=
  let previous := Z.to_nat (Zfloor v) in
  let next := Nat.min (previous + 1) (length arr - 1) in
  let gamma := v - INR previous in
  let lo := nth previous arr 0 in
  let hi := nth next arr 0 in
  lo + gamma * (hi - lo).

(** [np.percentile(a, q)] with numpy's default linear interpolation.  On an
    empty array numpy gives [nan]; the model gives [0] there, and the only
    caller compares the entries of the same empty array against it. *)
Definition np_percentile (a : list R) (q : R) : Outcome R :=
  if Rleb 0 q && Rleb q 100 then
    let arr := np_sort a in
    let n := length arr in
    let virtual_index := q / 100 * INR (n - 1) in
    Returned (interp arr virtual_index)
  else Raised (ValueError "Percentiles must be in the range [0, 100]").

Fixpoint argmax_from (l : list nat) (i best_i best : nat) : nat :=
  match l with
  | [] => best_i
  | x :: t =>
      if Nat.ltb best x then argmax_from t (S i) i x
      else argmax_from t (S i) best_i best
  end.

(** [np.argmax] of a flat array of counts: the first index of the maximum. *)
Definition np_argmax (l : list nat) : nat :=
  match l with
  | [] => 0
  | x :: t => argmax_from t 1 0 x
  end.

(** [np.unravel_index(idx, shape)] for a 2-D shape. *)
Definition np_unravel_index (idx : nat) (shape : nat * nat) : nat * nat :=
  (idx / shape.2, idx mod shape.2)%nat.

(** [np.unique(a, return_counts=True)] on integer labels. *)
Definition np_unique_counts (a : list Z) : list Z * list nat :=
  let u := merge_sort Z.le (nodup Z.eq_dec a) in
  (u, map (count_occ Z.eq_dec a) u).

(** [np.searchsorted(edges, x, side='right')] for non-decreasing [edges]. *)
Definition searchsorted_right (edges : list R) (x : R) : nat :=
  length (List.filter (fun e => Rleb e x) edges).

(** The bin of [x] among [edges] as [np.histogramdd] assigns it: bins are
    half-open, the last one is closed, values outside the edges have none. *)
Definition bin_of (edges : list R) (x : R) : option nat :=
  let c := searchsorted_right edges x in
  let c := if Req_dec_T x (List.last edges 0) then (c - 1)%nat else c in
  if Nat.leb 1 c && Nat.leb c (length edges - 1) then Some (c - 1)%nat else None.

(** [np.histogram2d(x, y, bins=[xedges, yedges])[0]] *)
Definition np_histogram2d (x y : list R) (xedges yedges : list R) : list (list nat) :=
  map (fun i =>
    map (fun j =>
      length (List.filter
        (fun p => bool_decide (bin_of xedges p.1 = Some i) &&
                  bool_decide (bin_of yedges p.2 = Some j))
        (zip x y)))
      (seq 0 (length yedges - 1)))
    (seq 0 (length xedges - 1)).

(** A float that may be [float('inf')]. *)
Inductive ExtR : Type :=
| Finite (r : R)
| PosInf.

(** ** The geometry interface (shapely) *)

Class Shapely : Type := {
  Geometry : Type;
  (** [Polygon(coords)] *)
  Polygon : list (R * R) -> Geometry;
  (** [shapely.ops.unary_union(geoms)] *)
  unary_union : list Geometry -> Geometry;
  (** [geom.buffer(distance)] *)
  buffer : Geometry -> R -> Geometry;
  (** [geom.contains(Point(x, y))] *)
  contains : Geometry -> R * R -> bool;
  (** [geom.area] *)
  area : Geometry -> R
}.

(** ** The numerical libraries (sklearn, scipy) *)

Class SciLibs : Type := {
  (** [DBSCAN(eps, min_samples).fit(coords).labels_]: one label per point,
      [-1] for noise. *)
  DBSCAN_labels : R -> nat -> list (R * R) -> Outcome (list Z);
  (** [KernelDensity(bandwidth, kernel='gaussian').fit(X).score_samples(G)] *)
  KernelDensity_score_samples : R -> list (R * R) -> list (R * R) -> Outcome (list R);
  (** [Delaunay(coords).simplices]: triangles as triples of point indices. *)
  Delaunay_simplices : list (R * R) -> Outcome (list (nat * nat * nat));
  (** [ConvexHull(coords).vertices] *)
  ConvexHull_vertices : list (R * R) -> Outcome (list nat)
}.

(** ** dmur_calculator.py *)

Module DMUR.

Record DMURConfig : Type := {
  mxi_weight : R;
  balance_weight : R;
  density_weight : R;
  diversity_weight : R;
  max_distance_threshold : R;
  optimal_residential_ratio : R;
  urban_density_benchmark : R
}.

Definition default_config : DMURConfig := {|
  mxi_weight := 0.4;
  balance_weight := 0.3;
  density_weight := 0.2;
  diversity_weight := 0.1;
  max_distance_threshold := 0.005;
  optimal_residential_ratio := 25;
  urban_density_benchmark := 1000
|}.

(** One row of the listings frame. *)
Record Listing : Type := {
  lat : R;
  lon : R;
  bedrooms : Z;
  area_sqm : R;
  price : R
}.

(** A listings frame: its column index and its rows.  Rows are typed, so the
    entries of the five required columns are always present in a row; the
    column index records which columns the frame was built with. *)
Record DataFrame : Type := {
  columns : list string;
  rows : list Listing
}.

(** What [calculate_dmur] accepts as [listings_data]. *)
Inductive ListingsData : Type :=
| FromDataFrame (df : DataFrame)
| FromPath (suffix : string) (parsed : DataFrame)
| FromDict (df : DataFrame)
| FromOther (type_name : string).

Record ComponentScores : Type := {
  mxi_score : R;
  balance_score : R;
  density_score : R;
  diversity_score : R
}.

Record Weights : Type := {
  w_mxi_weight : R;
  w_balance_weight : R;
  w_density_weight : R;
  w_diversity_weight : R
}.

Record Metrics : Type := {
  total_listings : nat;
  total_businesses : nat;
  avg_distance_to_business : ExtR;
  residential_to_business_ratio : R;
  bedroom_distribution : list (Z * nat)
}.

Record DMURResult : Type := {
  city : string;
  dmur_score : R;
  component_scores : ComponentScores;
  weights : Weights;
  metrics : Metrics
}.

(** [Series.value_counts()]: each distinct value with its number of
    occurrences.  pandas orders the entries by decreasing count; the uses
    below (length, sum, conversion to a dict) do not depend on the order.
    pandas leaves missing values out of the counts; a column here has an
    integer in every row, so that the counts cover all rows. *)
Definition value_counts (l : list Z) : list (Z * nat) :=
  map (fun v => (v, count_occ Z.eq_dec l v)) (nodup Z.eq_dec l).

Definition _load_listings_data (data : ListingsData) : Outcome DataFrame :=
  match data with
  | FromDataFrame df => Returned df
  | FromPath suffix parsed =>
      if String.eqb (lower suffix) ".csv" then Returned parsed
      else if String.eqb (lower suffix) ".json" then Returned parsed
      else Raised (ValueError ("Unsupported file format: " ++ suffix))
  | FromDict df => Returned df
  | FromOther type_name => Raised (ValueError ("Unsupported data type: " ++ type_name))
  end.

Definition required_cols : list string := ["lat"; "lon"; "bedrooms"; "area_sqm"; "price"].

Definition missing_cols (listings_df : DataFrame) : list string :=
  filter (fun col => col ∉ columns listings_df) required_cols.

Section Scorer.
Context `{Shapely}.
Variable config : DMURConfig.

Definition _filter_downtown_listings (listings_df : DataFrame) (downtown_boundary : Geometry)
  : Outcome DataFrame :=
  match missing_cols listings_df with
  | (_ :: _) as missing =>
      Raised (ValueError ("Missing required columns: " ++ py_repr_list missing))
  | [] =>
      (* Point(row['lon'], row['lat']) *)
      let in_downtown := fun row => contains downtown_boundary (lon row, lat row) in
      Returned {| columns := columns listings_df;
                  rows := List.filter in_downtown (rows listings_df) |}
  end.

Definition listing_coords (listings_df : DataFrame) : list (R * R) :=
  map (fun row => (lat row, lon row)) (rows listings_df).

Definition _calculate_mxi_score (listings_df : DataFrame) (business_locations : list (R * R)) : R :=
  if Nat.eqb (length business_locations) 0 then 0
  else
    let distances := cdist (listing_coords listings_df) business_locations in
    let min_distances := map np_min distances in
    let avg_distance := np_mean min_distances in
    Rmax 0 (1 - avg_distance / max_distance_threshold config).

(** The quotient by [optimal_residential_ratio] is a division of Python
    floats, which raises [ZeroDivisionError] at 0, and [np.log10] has a
    number for its value only on a positive argument.  The function below is
    that of the source for a positive optimal ratio and a frame with rows,
    where the argument of the logarithm is positive; the properties of the
    balance score are stated there. *)
Definition _calculate_balance_score (listings_df : DataFrame) (business_locations : list (R * R)) : R :=
  if Nat.eqb (length business_locations) 0 then 0
  else
    let residential_count := length (rows listings_df) in
    let business_count := length business_locations in
    let actual_ratio := INR residential_count / INR business_count in
    let ratio_deviation := Rabs (log10 (actual_ratio / optimal_residential_ratio config)) in
    Rmax 0 (1 - ratio_deviation).

Definition _calculate_density_score (listings_df : DataFrame) (downtown_boundary : Geometry) : R :=
  let area_deg2 := area downtown_boundary in
  let lat_avg := np_mean (map lat (rows listings_df)) in
  let km_per_deg_lat := 111 in
  let km_per_deg_lon := 111 * cos (radians lat_avg) in
  let area_km2 := area_deg2 * km_per_deg_lat * km_per_deg_lon in
  if Rle_dec area_km2 0 then 0
  else
    let units_per_km2 := INR (length (rows listings_df)) / area_km2 in
    Rmin 1 (units_per_km2 / urban_density_benchmark config).

Definition _calculate_diversity_score (listings_df : DataFrame) : R :=
  let bedroom_counts := value_counts (map bedrooms (rows listings_df)) in
  if Nat.leb (length bedroom_counts) 1 then 0
  else
    let proportions :=
      map (fun vc => INR vc.2 / INR (length (rows listings_df))) bedroom_counts in
    let shannon_index := - np_sum (map (fun p => p * ln p) proportions) in
    let max_diversity := ln 5 in
    Rmin 1 (shannon_index / max_diversity).

Definition _calculate_avg_distance (listings_df : DataFrame) (business_locations : list (R * R)) : ExtR :=
  if Nat.eqb (length business_locations) 0 then PosInf
  else
    let distances := cdist (listing_coords listings_df) business_locations in
    let min_distances := map np_min distances in
    Finite (np_mean min_distances).

Definition config_weights : Weights := {|
  w_mxi_weight := mxi_weight config;
  w_balance_weight := balance_weight config;
  w_density_weight := density_weight config;
  w_diversity_weight := diversity_weight config
|}.

Definition _empty_results (city_name : string) : DMURResult := {|
  city := city_name;
  dmur_score := 0;
  component_scores := {| mxi_score := 0; balance_score := 0;
                         density_score := 0; diversity_score := 0 |};
  weights := config_weights;
  metrics := {| total_listings := 0;
                total_businesses := 0;
                avg_distance_to_business := PosInf;
                residential_to_business_ratio := 0;
                bedroom_distribution := [] |}
|}.

Definition calculate_dmur (listings_data : ListingsData) (downtown_boundary : Geometry)
    (business_locations : list (R * R)) (city_name : string) : Outcome DMURResult :=
  listings_df ← _load_listings_data listings_data;
  downtown_listings ← _filter_downtown_listings listings_df downtown_boundary;
  if Nat.eqb (length (rows downtown_listings)) 0 then
    Returned (_empty_results city_name)
  else
    let mxi := _calculate_mxi_score downtown_listings business_locations in
    let balance := _calculate_balance_score downtown_listings business_locations in
    let density := _calculate_density_score downtown_listings downtown_boundary in
    let diversity := _calculate_diversity_score downtown_listings in
    let dmur :=
      mxi_weight config * mxi +
      balance_weight config * balance +
      density_weight config * density +
      diversity_weight config * diversity in
    Returned {|
      city := city_name;
      dmur_score := py_round dmur 3;
      component_scores := {|
        mxi_score := py_round mxi 3;
        balance_score := py_round balance 3;
        density_score := py_round density 3;
        diversity_score := py_round diversity 3 |};
      weights := config_weights;
      metrics := {|
        total_listings := length (rows downtown_listings);
        total_businesses := length business_locations;
        avg_distance_to_business :=
          _calculate_avg_distance downtown_listings business_locations;
        residential_to_business_ratio :=
          INR (length (rows downtown_listings)) /
          INR (Nat.max (length business_locations) 1);
        bedroom_distribution := value_counts (map bedrooms (rows downtown_listings)) |}
    |}.

End Scorer.

End DMUR.

(** ** downtown_analyzer.py *)

Module Analyzer.

Record AnalysisConfig : Type := {
  density_threshold_percentile : R;
  bandwidth : R;
  grid_size : R;
  alpha : R;
  buffer_distance : R;
  commercial_only : bool;
  auto_focus : bool;
  focus_area : option (R * R * R * R)
}.

Definition default_config : AnalysisConfig := {|
  density_threshold_percentile := 90;
  bandwidth := 0.002;
  grid_size := 0.002;
  alpha := 0.02;
  buffer_distance := 0.003;
  commercial_only := true;
  auto_focus := true;
  focus_area := None
|}.

Definition COMMERCIAL_TYPES : gset string :=
  {[ "shop"; "amenity"; "office"; "tourism"; "craft"; "healthcare" ]}.

Definition COMMERCIAL_AMENITIES : gset string :=
  {[ "restaurant"; "cafe"; "bar"; "pub"; "fast_food"; "food_court"; "ice_cream";
     "bank"; "atm"; "cinema"; "theatre"; "nightclub"; "casino"; "pharmacy";
     "clinic"; "doctors"; "dentist"; "fuel"; "car_wash"; "car_rental";
     "post_office"; "courier"; "internet_cafe"; "library"; "coworking_space" ]}.

(** The input document: [data['city']] and [data['businesses']], either of
    which may be absent. *)
Record BusinessData : Type := {
  data_city : option string;
  data_businesses : option (list (gmap string PyVal))
}.

(** One row of the businesses frame, as [_load_business_data] builds it. *)
Record BusinessRow : Type := {
  b_id : PyVal;
  b_lat : PyVal;
  b_lon : PyVal;
  b_name : PyVal;
  b_type : PyVal;
  b_subtype : PyVal
}.

Record BusinessFrame : Type := {
  bcolumns : list string;
  brows : list BusinessRow
}.

(** [pd.DataFrame(records)]: a frame built from no record has no column. *)
Definition pd_DataFrame (records : list BusinessRow) : BusinessFrame :=
  match records with
  | [] => {| bcolumns := []; brows := [] |}
  | _ :: _ => {| bcolumns := ["id"; "lat"; "lon"; "name"; "type"; "subtype"];
                 brows := records |}
  end.

(** [df[c]] *)
Definition getcol (df : BusinessFrame) (c : string) (field : BusinessRow -> PyVal)
  : Outcome (list PyVal) :=
  if bool_decide (c ∈ bcolumns df) then Returned (map field (brows df))
  else Raised (KeyError c).

(** [df[c]] used as numbers (comparison, min, max, mean). *)
Definition numeric_col (df : BusinessFrame) (c : string) (field : BusinessRow -> PyVal)
  : Outcome (list R) :=
  vs ← getcol df c field; for_each as_num vs.

(** [a[mask]] *)
Definition boolean_index {A} (a : list A) (mask : list bool) : list A :=
  map fst (List.filter snd (zip a mask)).

Definition in_set (v : PyVal) (s : gset string) : bool :=
  match v with
  | PyStr x => bool_decide (x ∈ s)
  | _ => false
  end.

Definition in_list (v : PyVal) (l : list string) : bool :=
  match v with
  | PyStr x => bool_decide (x ∈ l)
  | _ => false
  end.

Definition str_eq (v : PyVal) (s : string) : bool :=
  match v with
  | PyStr x => String.eqb x s
  | _ => false
  end.

Definition _extract_city_name (data : BusinessData) : string :=
  default "Unknown City" (data_city data).

Definition _is_commercial_business (business : gmap string PyVal) : bool :=
  let btype := get_default business "business_type" (PyStr "") in
  let subtype := get_default business "business_subtype" (PyStr "") in
  if negb (in_set btype COMMERCIAL_TYPES) then false
  else if str_eq btype "amenity" && negb (in_set subtype COMMERCIAL_AMENITIES) then false
  else if str_eq btype "building" &&
          negb (in_list subtype ["commercial"; "retail"; "office"; "hotel"]) then false
  else if str_eq btype "leisure" &&
          negb (in_list subtype ["fitness_centre"; "sports_centre"; "bowling_alley"]) then false
  else true.

(** The dict literal appended for one record: its values are evaluated in
    the order written, so the first absent key is the one reported. *)
Definition business_row (business : gmap string PyVal) : Outcome BusinessRow :=
  id ← getitem business "id";
  lat ← getitem business "lat";
  lon ← getitem business "lon";
  name ← getitem business "name";
  type ← getitem business "business_type";
  subtype ← getitem business "business_subtype";
  Returned {| b_id := id; b_lat := lat; b_lon := lon; b_name := name;
              b_type := type; b_subtype := subtype |}.

(** The [for business in ...] loop of [_load_business_data]; [businesses] is
    the list being appended to. *)
Fixpoint load_loop (config : AnalysisConfig) (records : list (gmap string PyVal))
    (businesses : list BusinessRow) : Outcome (list BusinessRow) :=
  match records with
  | [] => Returned businesses
  | business :: rest =>
      if not_get business "lat" || not_get business "lon" then
        load_loop config rest businesses
      else if commercial_only config && negb (_is_commercial_business business) then
        load_loop config rest businesses
      else
        row ← business_row business;
        load_loop config rest (businesses ++ [row])
  end.

(** A coordinate entry that [not business.get(k)] takes for missing: the key
    is absent, or its value is [None] or zero. *)
Definition zero_or_absent (o : option PyVal) : Prop :=
  o = None \/ o = Some PyNone \/ o = Some (PyNum 0).

(** The keys read for one row, in the order they are read. *)
Definition row_keys : list string :=
  ["id"; "lat"; "lon"; "name"; "business_type"; "business_subtype"].

(** The first key of [row_keys] that a record lacks. *)
Definition first_missing (business : gmap string PyVal) : option string :=
  List.find (fun k => match business !! k with None => true | Some _ => false end)
            row_keys.

Definition _apply_focus_area (df : BusinessFrame) (focus : R * R * R * R)
  : Outcome BusinessFrame :=
  let '(min_lat, min_lon, max_lat, max_lon) := focus in
  lats ← numeric_col df "lat" b_lat;
  lons ← numeric_col df "lon" b_lon;
  let mask :=
    zip_with (fun la lo => Rleb min_lat la && Rleb la max_lat &&
                           Rleb min_lon lo && Rleb lo max_lon) lats lons in
  Returned {| bcolumns := bcolumns df; brows := boolean_index (brows df) mask |}.

(** The histogram of the fallback branch of [_auto_determine_focus_area]. *)
Definition fallback_bins (lats lons : list R) : list R * list R :=
  (np_linspace (np_min lats) (np_max lats) 20,
   np_linspace (np_min lons) (np_max lons) 20).

Definition fallback_hist (lats lons : list R) : list (list nat) :=
  let '(lat_bins, lon_bins) := fallback_bins lats lons in
  np_histogram2d lats lons lat_bins lon_bins.

(** Edge [k] of the bins laid between the least and the greatest entry of
    [xs] by [np.linspace(min, max, 20)]. *)
Definition bin_edge (xs : list R) (k : nat) : R :=
  np_min xs + INR k * ((np_max xs - np_min xs) / 19).

Definition fallback_focus_area (lats lons : list R) : Outcome (R * R * R * R) :=
  let lat_range := np_max lats - np_min lats in
  let lon_range := np_max lons - np_min lons in
  let '(lat_bins, lon_bins) := fallback_bins lats lons in
  let hist := np_histogram2d lats lons lat_bins lon_bins in
  let lat_edges := lat_bins in
  let lon_edges := lon_bins in
  let peak_idx := np_unravel_index (np_argmax (ravel hist)) (shape2 hist) in
  let window_size := 3%Z in
  let lat_start := Z.max 0 (Z.of_nat peak_idx.1 - window_size / 2) in
  let lat_end := Z.min (Z.of_nat (length lat_edges) - 1)
                       (Z.of_nat peak_idx.1 + window_size / 2 + 1) in
  let lon_start := Z.max 0 (Z.of_nat peak_idx.2 - window_size / 2) in
  let lon_end := Z.min (Z.of_nat (length lon_edges) - 1)
                       (Z.of_nat peak_idx.2 + window_size / 2 + 1) in
  let padding := Rmin lat_range lon_range * 0.02 in
  e1 ← index lat_edges (Z.to_nat lat_start);
  e2 ← index lon_edges (Z.to_nat lon_start);
  e3 ← index lat_edges (Z.to_nat lat_end);
  e4 ← index lon_edges (Z.to_nat lon_end);
  Returned (e1 - padding, e2 - padding, e3 + padding, e4 + padding).

Section Pipeline.
Context `{Shapely} `{SciLibs}.

Definition _auto_determine_focus_area (businesses_df : BusinessFrame)
  : Outcome (R * R * R * R) :=
  if Nat.ltb (length (brows businesses_df)) 10 then
    lats ← numeric_col businesses_df "lat" b_lat;
    lons ← numeric_col businesses_df "lon" b_lon;
    Returned (np_min lats, np_min lons, np_max lats, np_max lons)
  else
    lats ← numeric_col businesses_df "lat" b_lat;
    lons ← numeric_col businesses_df "lon" b_lon;
    let coords := zip lats lons in
    let lat_range := np_max lats - np_min lats in
    let lon_range := np_max lons - np_min lons in
    let epsilon := Rmin lat_range lon_range * 0.01 in
    labels ← DBSCAN_labels epsilon 10 coords;
    let '(unique_labels, counts) :=
      np_unique_counts (List.filter (fun l => Z.leb 0 l) labels) in
    if Nat.ltb 0 (length unique_labels) then
      largest_cluster_label ← index unique_labels (np_argmax counts);
      let cluster_mask := map (fun l => Z.eqb l largest_cluster_label) labels in
      let cluster_coords := boolean_index coords cluster_mask in
      let padding := Rmin lat_range lon_range * 0.02 in
      Returned (np_min (map fst cluster_coords) - padding,
                np_min (map snd cluster_coords) - padding,
                np_max (map fst cluster_coords) + padding,
                np_max (map snd cluster_coords) + padding)
    else fallback_focus_area lats lons.

(** The analyzer object: its configuration and the attributes the methods
    assign. *)
Record Analyzer : Type := {
  config : AnalysisConfig;
  city_name : option string;
  businesses_df : option BusinessFrame;
  density_grid : option (list (list R));
  density_coords : option (list (list R) * list (list R));
  downtown_boundary : option Geometry
}.

(** [DowntownAnalyzer(config)] *)
Definition __init__ (cfg : option AnalysisConfig) : Analyzer := {|
  config := default default_config cfg;
  city_name := None;
  businesses_df := None;
  density_grid := None;
  density_coords := None;
  downtown_boundary := None
|}.

Definition set_city_name (self : Analyzer) (v : string) : Analyzer :=
  {| config := config self; city_name := Some v; businesses_df := businesses_df self;
     density_grid := density_grid self; density_coords := density_coords self;
     downtown_boundary := downtown_boundary self |}.

Definition set_businesses_df (self : Analyzer) (v : BusinessFrame) : Analyzer :=
  {| config := config self; city_name := city_name self; businesses_df := Some v;
     density_grid := density_grid self; density_coords := density_coords self;
     downtown_boundary := downtown_boundary self |}.

Definition set_density (self : Analyzer) (grid : list (list R))
    (coords : list (list R) * list (list R)) : Analyzer :=
  {| config := config self; city_name := city_name self;
     businesses_df := businesses_df self;
     density_grid := Some grid; density_coords := Some coords;
     downtown_boundary := downtown_boundary self |}.

Definition set_downtown_boundary (self : Analyzer) (v : Geometry) : Analyzer :=
  {| config := config self; city_name := city_name self;
     businesses_df := businesses_df self;
     density_grid := density_grid self; density_coords := density_coords self;
     downtown_boundary := Some v |}.

(** Reading an attribute that is still [None] and using it fails. *)
Definition attr {A} (a : option A) : Outcome A :=
  match a with
  | Some v => Returned v
  | None => Raised (TypeError "'NoneType' object is not subscriptable")
  end.

Definition _load_business_data (self : Analyzer) (data : BusinessData) : Outcome Analyzer :=
  businesses ← load_loop (config self) (default [] (data_businesses data)) [];
  let temp_df := pd_DataFrame businesses in
  match focus_area (config self) with
  | Some focus =>
      df ← _apply_focus_area temp_df focus;
      Returned (set_businesses_df self df)
  | None =>
      if auto_focus (config self) then
        focus ← _auto_determine_focus_area temp_df;
        df ← _apply_focus_area temp_df focus;
        Returned (set_businesses_df self df)
      else Returned (set_businesses_df self temp_df)
  end.

(** On a frame without rows [Series.min()] and [Series.max()] are nan, and
    [np.arange] raises on bounds that are not numbers. *)
Definition _calculate_density_grid (self : Analyzer) : Outcome Analyzer :=
  df ← attr (businesses_df self);
  lats ← numeric_col df "lat" b_lat;
  lons ← numeric_col df "lon" b_lon;
  if Nat.eqb (length (brows df)) 0 then
    Raised (ValueError "arange: cannot compute length")
  else
  let '(min_lat, max_lat) := (np_min lats, np_max lats) in
  let '(min_lon, max_lon) := (np_min lons, np_max lons) in
  let padding := Rmax 0.005 ((max_lat - min_lat) * 0.1) in
  let min_lat := min_lat - padding in
  let max_lat := max_lat + padding in
  let min_lon := min_lon - padding in
  let max_lon := max_lon + padding in
  lat_range ← np_arange min_lat max_lat (grid_size (config self));
  lon_range ← np_arange min_lon max_lon (grid_size (config self));
  let '(lon_grid, lat_grid) := np_meshgrid lon_range lat_range in
  let grid_coords := zip (ravel lat_grid) (ravel lon_grid) in
  let business_coords := zip lats lons in
  log_density ←
    KernelDensity_score_samples (bandwidth (config self)) business_coords grid_coords;
  let density := map exp log_density in
  grid ← reshape density (length lat_range) (length lon_range);
  Returned (set_density self grid (lat_grid, lon_grid)).

(** The grid nodes whose density is at or above the [q]-th percentile of all
    grid densities: the selection [_identify_high_density_areas] makes, first
    with the configured percentile and then, if needed, with the lowered one. *)
Definition select_high_density (grid : list (list R))
    (coords : list (list R) * list (list R)) (q : R) : Outcome (list R * list R) :=
  threshold ← np_percentile (ravel grid) q;
  let '(lat_grid, lon_grid) := coords in
  let high_density_mask := map (fun d => Rleb threshold d) (ravel grid) in
  Returned (boolean_index (ravel lat_grid) high_density_mask,
            boolean_index (ravel lon_grid) high_density_mask).

Definition _identify_high_density_areas (self : Analyzer) : Outcome (list R * list R) :=
  grid ← attr (density_grid self);
  coords ← attr (density_coords self);
  let q := density_threshold_percentile (config self) in
  high ← select_high_density grid coords q;
  if Nat.ltb (length high.1) 3 then
    select_high_density grid coords (Rmax 70 (q - 20))
  else Returned high.

(** [coords[simplex]] *)
Definition triangle_of (coords : list (R * R)) (simplex : nat * nat * nat)
  : Outcome (list (R * R)) :=
  let '(i, j, k) := simplex in
  a ← index coords i; b ← index coords j; c ← index coords k;
  Returned [a; b; c].

Definition edge_lengths (triangle_coords : list (R * R)) : list R :=
  map (fun i => euclidean (nth i triangle_coords (0, 0))
                          (nth ((i + 1) mod 3) triangle_coords (0, 0)))
      (seq 0 3).

(** [max(edge_lengths) < self.config.alpha], the test a triangle has to pass. *)
Definition alpha_test (alpha : R) (triangle_coords : list (R * R)) : bool :=
  Rltb (np_max (edge_lengths triangle_coords)) alpha.

(** The [for simplex in tri.simplices] loop; [triangles] is the list being
    appended to. *)
Fixpoint alpha_loop (alpha : R) (coords : list (R * R))
    (simplices : list (nat * nat * nat)) (triangles : list (list (R * R)))
  : Outcome (list (list (R * R))) :=
  match simplices with
  | [] => Returned triangles
  | simplex :: rest =>
      triangle_coords ← triangle_of coords simplex;
      if alpha_test alpha triangle_coords then
        alpha_loop alpha coords rest (triangles ++ [triangle_coords])
      else alpha_loop alpha coords rest triangles
  end.

(** The body of the [try] block of [_create_downtown_boundary]. *)
Definition alpha_shape (alpha : R) (high_density_lats high_density_lons : list R)
  : Outcome Geometry :=
  let coords := zip high_density_lons high_density_lats in
  simplices ← Delaunay_simplices coords;
  triangles ← alpha_loop alpha coords simplices [];
  match triangles with
  | _ :: _ =>
      let triangle_polygons := map Polygon triangles in
      Returned (unary_union triangle_polygons)
  | [] => Raised (ValueError "No triangles passed alpha test")
  end.

(** The body of the [except] block of [_create_downtown_boundary]. *)
Definition convex_hull (high_density_lats high_density_lons : list R) : Outcome Geometry :=
  let coords := zip high_density_lons high_density_lats in
  hull ← ConvexHull_vertices coords;
  hull_points ← for_each (index coords) hull;
  Returned (Polygon hull_points).

Definition apply_buffer (buffer_distance : R) (boundary : Geometry) : Geometry :=
  if Rltb 0 buffer_distance then buffer boundary buffer_distance else boundary.

Definition _create_downtown_boundary (self : Analyzer)
    (high_density_lats high_density_lons : list R) : Outcome Analyzer :=
  boundary ←
    try_except (alpha_shape (alpha (config self)) high_density_lats high_density_lons)
               (fun e => convex_hull high_density_lats high_density_lons);
  let boundary := apply_buffer (buffer_distance (config self)) boundary in
  Returned (set_downtown_boundary self boundary).

Definition get_businesses_in_downtown (self : Analyzer) : Outcome BusinessFrame :=
  match downtown_boundary self with
  | None => Raised (ValueError "Downtown boundary not created yet")
  | Some boundary =>
      df ← attr (businesses_df self);
      lons ← numeric_col df "lon" b_lon;
      lats ← numeric_col df "lat" b_lat;
      let business_points := zip lons lats in
      let in_downtown := map (contains boundary) business_points in
      Returned {| bcolumns := bcolumns df; brows := boolean_index (brows df) in_downtown |}
  end.

Record Results : Type := {
  r_city : option string;
  r_total_businesses : nat;
  r_downtown_businesses : nat;
  r_downtown_area_km2 : R;
  r_business_density_per_km2 : R;
  r_downtown_boundary : Geometry;
  r_businesses_df : BusinessFrame;
  r_downtown_businesses_df : BusinessFrame;
  r_density_grid : option (list (list R));
  r_density_coords : option (list (list R) * list (list R))
}.

Definition _generate_results (self : Analyzer) : Outcome Results :=
  downtown_businesses ← get_businesses_in_downtown self;
  df ← attr (businesses_df self);
  lats ← numeric_col df "lat" b_lat;
  let lat_avg := np_mean lats in
  let km_per_deg_lat := 111 in
  let km_per_deg_lon := 111 * cos (radians lat_avg) in
  boundary ← attr (downtown_boundary self);
  let area_km2 := area boundary * km_per_deg_lat * km_per_deg_lon in
  Returned {|
    r_city := city_name self;
    r_total_businesses := length (brows df);
    r_downtown_businesses := length (brows downtown_businesses);
    r_downtown_area_km2 := py_round area_km2 2;
    r_business_density_per_km2 :=
      if Rltb 0 area_km2
      then py_round (INR (length (brows downtown_businesses)) / area_km2) 1
      else 0;
    r_downtown_boundary := boundary;
    r_businesses_df := df;
    r_downtown_businesses_df := downtown_businesses;
    r_density_grid := density_grid self;
    r_density_coords := density_coords self
  |}.

(** [city_name or self._extract_city_name(data)]: an absent or empty name
    gives way to the one of the document. *)
Definition city_or (name : option string) (data : BusinessData) : string :=
  match name with
  | Some s => if String.eqb s "" then _extract_city_name data else s
  | None => _extract_city_name data
  end.

Definition insufficient_message (n : nat) : string :=
  "Insufficient business data: " ++ pretty n ++ " businesses found".

(** [analyze(business_data, city_name)] on an already parsed document; the
    result comes with the analyzer as the call leaves it. *)
Definition analyze (self : Analyzer) (business_data : BusinessData)
    (name : option string) : Outcome (Results * Analyzer) :=
  let data := business_data in
  let self := set_city_name self (city_or name data) in
  self ← _load_business_data self data;
  df ← attr (businesses_df self);
  if Nat.ltb (length (brows df)) 3 then
    Raised (ValueError (insufficient_message (length (brows df))))
  else
    self ← _calculate_density_grid self;
    high ← _identify_high_density_areas self;
    let '(high_density_lats, high_density_lons) := high in
    self ← _create_downtown_boundary self high_density_lats high_density_lons;
    results ← _generate_results self;
    Returned (results, self).

End Pipeline.

End Analyzer.

(** ** utils/validation.py

    The checks of [DataValidator] on a business document and on a listings
    frame.  The inputs are the ones of the two modules above, so the
    branches for inputs of another type (a document that is not a dict, a
    [businesses] entry that is not a list, a record that is not a dict, a
    column that is not numeric or holds a missing value) have no counterpart
    here. *)

Module Validation.

Definition REQUIRED_BUSINESS_FIELDS : list string :=
  ["id"; "lat"; "lon"; "name"; "business_type"; "business_subtype"].

Definition REQUIRED_LISTING_FIELDS : list string :=
  ["lat"; "lon"; "bedrooms"; "area_sqm"; "price"].

(** [field not in business] *)
Definition not_in (business : gmap string PyVal) (field : string) : bool :=
  match business !! field with
  | None => true
  | Some _ => false
  end.

Definition _validate_business_record (business : gmap string PyVal) (index : nat)
  : list string :=
  let errors :=
    map (fun field => "Business " ++ pretty index ++ ": missing required field '"
                      ++ field ++ "'")
        (List.filter (not_in business) REQUIRED_BUSINESS_FIELDS) in
  let errors :=
    app errors
      match business !! "lat" with
      | Some (PyNum lat) =>
          if Rleb (-90) lat && Rleb lat 90 then []
          else ["Business " ++ pretty index ++ ": 'lat' must be between -90 and 90"]
      | Some _ => ["Business " ++ pretty index ++ ": 'lat' must be numeric"]
      | None => []
      end in
  let errors :=
    app errors
      match business !! "lon" with
      | Some (PyNum lon) =>
          if Rleb (-180) lon && Rleb lon 180 then []
          else ["Business " ++ pretty index ++ ": 'lon' must be between -180 and 180"]
      | Some _ => ["Business " ++ pretty index ++ ": 'lon' must be numeric"]
      | None => []
      end in
  errors.

(** The coordinates that the loop of [_validate_coordinates] collects: the
    ones of the records that have both keys with numeric values. *)
Definition numeric_coordinates (businesses : list (gmap string PyVal)) : list (R * R) :=
  omap (fun business =>
          match business !! "lat", business !! "lon" with
          | Some (PyNum lat), Some (PyNum lon) => Some (lat, lon)
          | _, _ => None
          end) businesses.

Definition _validate_coordinates (businesses : list (gmap string PyVal)) : list string :=
  let lats := map fst (numeric_coordinates businesses) in
  let lons := map snd (numeric_coordinates businesses) in
  if Nat.ltb (length lats) 3 then
    ["Need at least 3 businesses with valid coordinates"]
  else
    let lat_range := np_max lats - np_min lats in
    let lon_range := np_max lons - np_min lons in
    app (if Rltb 1 lat_range || Rltb 1 lon_range
         then ["Coordinate range seems too large (>1 degree), check data quality"]
         else [])
        (if Rltb lat_range 0.001 || Rltb lon_range 0.001
         then ["Coordinate range seems too small (<0.001 degree), check data quality"]
         else []).

Definition validate_business_data (data : Analyzer.BusinessData) : bool * list string :=
  let errors :=
    app (match Analyzer.data_city data with
         | None => ["Missing required field: city"]
         | Some _ => []
         end)
        (match Analyzer.data_businesses data with
         | None => ["Missing required field: businesses"]
         | Some _ => []
         end) in
  let businesses := default [] (Analyzer.data_businesses data) in
  if Nat.eqb (length businesses) 0 then
    (false, app errors ["No businesses found in data"])
  else
    (* for i, business in enumerate(businesses[:10]) *)
    let errors :=
      app errors
          (concat (imap (fun i business => _validate_business_record business i)
                        (take 10 businesses))) in
    let errors := app errors (_validate_coordinates businesses) in
    let is_valid := Nat.eqb (length errors) 0 in
    (is_valid, errors).

(** [validate_listing_data] on a frame. *)
Definition validate_listing_data (df : DMUR.DataFrame) : bool * list string :=
  let has := fun c : string => bool_decide (c ∈ DMUR.columns df) in
  let missing_fields := List.filter (fun field => negb (has field)) REQUIRED_LISTING_FIELDS in
  let errors :=
    match missing_fields with
    | [] => []
    | _ :: _ => ["Missing required fields: " ++ py_repr_list missing_fields]
    end in
  let errors :=
    app errors
        (if has "lat" then
           if forallb (fun row => Rleb (-90) (DMUR.lat row) && Rleb (DMUR.lat row) 90)
                      (DMUR.rows df)
           then [] else ["'lat' values must be between -90 and 90"]
         else []) in
  let errors :=
    app errors
        (if has "lon" then
           if forallb (fun row => Rleb (-180) (DMUR.lon row) && Rleb (DMUR.lon row) 180)
                      (DMUR.rows df)
           then [] else ["'lon' values must be between -180 and 180"]
         else []) in
  let errors :=
    app errors
        (if has "bedrooms" then
           if existsb (fun row => Z.ltb (DMUR.bedrooms row) 0) (DMUR.rows df)
           then ["'bedrooms' must be non-negative"] else []
         else []) in
  let errors :=
    app errors
        (if has "area_sqm" then
           if existsb (fun row => Rleb (DMUR.area_sqm row) 0) (DMUR.rows df)
           then ["'area_sqm' must be positive"] else []
         else []) in
  let errors :=
    app errors
        (if has "price" then
           if existsb (fun row => Rleb (DMUR.price row) 0) (DMUR.rows df)
           then ["'price' must be positive"] else []
         else []) in
  let is_valid := Nat.eqb (length errors) 0 in
  (is_valid, errors).

End Validation.

(** ** Concrete back ends for the examples

    A geometry of axis-aligned rectangles (exact for rectangular boundaries
    such as the one of the test suite; [Polygon] and [unary_union] give
    bounding rectangles) and numerical routines that are right on the small
    inputs of the examples: ten points spread over a positive span are all
    noise for DBSCAN with [min_samples = 10] and [eps] one hundredth of the
    span, and three points that are not collinear have one Delaunay triangle
    and are the vertices of their convex hull. *)

Module Fixtures.

Record Rect : Type := {
  x_min : R;
  y_min : R;
  x_max : R;
  y_max : R
}.

Definition bounding_rect (pts : list (R * R)) : Rect := {|
  x_min := np_min (map fst pts);
  y_min := np_min (map snd pts);
  x_max := np_max (map fst pts);
  y_max := np_max (map snd pts)
|}.

Definition rect_geometry : Shapely := {|
  Geometry := Rect;
  Polygon := bounding_rect;
  unary_union := fun gs => {|
    x_min := np_min (map x_min gs);
    y_min := np_min (map y_min gs);
    x_max := np_max (map x_max gs);
    y_max := np_max (map y_max gs) |};
  buffer := fun g d => {|
    x_min := x_min g - d;
    y_min := y_min g - d;
    x_max := x_max g + d;
    y_max := y_max g + d |};
  contains := fun g p =>
    Rltb (x_min g) p.1 && Rltb p.1 (x_max g) &&
    Rltb (y_min g) p.2 && Rltb p.2 (y_max g);
  area := fun g => (x_max g - x_min g) * (y_max g - y_min g)
|}.

Definition gaussian_kde (h : R) (X G : list (R * R)) : list R :=
  map (fun g =>
    ln (np_mean (map (fun x => exp (- (euclidean g x) ^ 2 / (2 * h ^ 2)) / (2 * PI * h ^ 2)) X)))
    G.

Definition small_scilibs : SciLibs := {|
  DBSCAN_labels := fun eps min_samples coords =>
    Returned (map (fun _ => (-1)%Z) coords);
  KernelDensity_score_samples := fun h X G => Returned (gaussian_kde h X G);
  Delaunay_simplices := fun coords =>
    match coords with
    | [_; _; _] => Returned [(0, 1, 2)%nat]
    | _ => Raised (QhullError "input outside the examples")
    end;
  ConvexHull_vertices := fun coords =>
    match coords with
    | [_; _; _] => Returned [0; 1; 2]%nat
    | _ => Raised (QhullError "input outside the examples")
    end
|}.

(** The rectangular boundary of the test suite, in (lon, lat) space. *)
Definition sample_downtown_boundary : Rect := {|
  x_min := -73.96; y_min := 40.045; x_max := -73.94; y_max := 40.055
|}.

Definition listing_columns : list string :=
  ["lat"; "lon"; "bedrooms"; "area_sqm"; "price"; "listing_type"].

Definition one_bedroom_listings : DMUR.DataFrame := {|
  DMUR.columns := listing_columns;
  DMUR.rows := [
    {| DMUR.lat := 40.050; DMUR.lon := -73.950; DMUR.bedrooms := 1;
       DMUR.area_sqm := 50; DMUR.price := 2000 |};
    {| DMUR.lat := 40.051; DMUR.lon := -73.951; DMUR.bedrooms := 1;
       DMUR.area_sqm := 75; DMUR.price := 3000 |};
    {| DMUR.lat := 40.052; DMUR.lon := -73.952; DMUR.bedrooms := 1;
       DMUR.area_sqm := 35; DMUR.price := 1500 |} ]
|}.

Definition outside_listings : DMUR.DataFrame := {|
  DMUR.columns := listing_columns;
  DMUR.rows := [
    {| DMUR.lat := 45.0; DMUR.lon := -75.0; DMUR.bedrooms := 1;
       DMUR.area_sqm := 50; DMUR.price := 2000 |} ]
|}.

Definition sample_business_locations : list (R * R) :=
  [(40.05, -73.95); (40.051, -73.951); (40.052, -73.952)].

(** Three points that span a 3-4-5 triangle, as (lon, lat) pairs. *)
Definition right_triangle : list (R * R) := [(0, 0); (3, 0); (0, 4)].

(** The single restaurant of [test_analyze_insufficient_data]. *)
Definition test_restaurant : gmap string PyVal :=
  list_to_map [("id", PyNum 1); ("lat", PyNum 40.05); ("lon", PyNum (-73.95));
               ("name", PyStr "Test"); ("business_type", PyStr "amenity");
               ("business_subtype", PyStr "restaurant")].

(** The row it is loaded as. *)
Definition test_restaurant_row : Analyzer.BusinessRow := {|
  Analyzer.b_id := PyNum 1;
  Analyzer.b_lat := PyNum 40.05;
  Analyzer.b_lon := PyNum (-73.95);
  Analyzer.b_name := PyStr "Test";
  Analyzer.b_type := PyStr "amenity";
  Analyzer.b_subtype := PyStr "restaurant"
|}.

Definition insufficient_data : Analyzer.BusinessData := {|
  Analyzer.data_city := Some "Test City";
  Analyzer.data_businesses := Some [test_restaurant]
|}.

(** A shop whose record has no name. *)
Definition nameless_shop : gmap string PyVal :=
  list_to_map [("id", PyNum 2); ("lat", PyNum 40.051); ("lon", PyNum (-73.951));
               ("business_type", PyStr "shop");
               ("business_subtype", PyStr "clothing")].

Definition nameless_data : Analyzer.BusinessData := {|
  Analyzer.data_city := Some "Test City";
  Analyzer.data_businesses := Some [nameless_shop]
|}.

(** A restaurant on the equator. *)
Definition equator_restaurant : gmap string PyVal :=
  list_to_map [("id", PyNum 3); ("lat", PyNum 0); ("lon", PyNum 9.45);
               ("name", PyStr "Equateur"); ("business_type", PyStr "amenity");
               ("business_subtype", PyStr "restaurant")].

(** Ten businesses on a line, a thousandth of a degree apart. *)
Definition spread_row (i : nat) : Analyzer.BusinessRow := {|
  Analyzer.b_id := PyNum (INR i);
  Analyzer.b_lat := PyNum (40.05 + INR i * 0.001);
  Analyzer.b_lon := PyNum (-73.95 - INR i * 0.001);
  Analyzer.b_name := PyStr "Shop";
  Analyzer.b_type := PyStr "shop";
  Analyzer.b_subtype := PyStr "clothing"
|}.

Definition spread_businesses : Analyzer.BusinessFrame :=
  Analyzer.pd_DataFrame (map spread_row (seq 0 10)).

Definition spread_lats : list R := map (fun i => 40.05 + INR i * 0.001) (seq 0 10).
Definition spread_lons : list R := map (fun i => -73.95 - INR i * 0.001) (seq 0 10).

(** The density grid of [test_identify_high_density_areas]. *)
Definition sample_density_grid : list (list R) := [[1; 2]; [3; 4]].
Definition sample_density_coords : list (list R) * list (list R) :=
  ([[40.0; 40.0]; [40.1; 40.1]], [[-74.0; -73.9]; [-74.0; -73.9]]).

(** The listings of the test suite without their [price] column. *)
Definition priceless_listings : DMUR.DataFrame := {|
  DMUR.columns := ["lat"; "lon"; "bedrooms"; "area_sqm"];
  DMUR.rows := DMUR.rows one_bedroom_listings
|}.

(** A listing far outside the sample boundary. *)
Definition far_listing : DMUR.Listing := {|
  DMUR.lat := 45.0; DMUR.lon := -75.0; DMUR.bedrooms := 2;
  DMUR.area_sqm := 50; DMUR.price := 2000
|}.

(** A fitness centre, tagged as the fetcher tags leisure places. *)
Definition fitness_centre : gmap string PyVal :=
  list_to_map [("id", PyNum 4); ("lat", PyNum 40.052); ("lon", PyNum (-73.952));
               ("name", PyStr "Gym"); ("business_type", PyStr "leisure");
               ("business_subtype", PyStr "fitness_centre")].

(** A document without a [businesses] entry. *)
Definition no_businesses_data : Analyzer.BusinessData := {|
  Analyzer.data_city := Some "Test City";
  Analyzer.data_businesses := None
|}.

(** The first three businesses of the sample document of the test suite,
    with the scalar entries of each record. *)
Definition sample_business (id lat lon : R) (name btype subtype : string)
  : gmap string PyVal :=
  list_to_map [("id", PyNum id); ("type", PyStr "node"); ("lat", PyNum lat);
               ("lon", PyNum lon); ("business_type", PyStr btype);
               ("business_subtype", PyStr subtype); ("name", PyStr name)].

Definition sample_businesses : list (gmap string PyVal) :=
  [sample_business 1 40.05 (-73.95) "Test Restaurant" "amenity" "restaurant";
   sample_business 2 40.051 (-73.951) "Test Shop" "shop" "clothing";
   sample_business 3 40.052 (-73.952) "Test Office" "office" "company"].

Definition sample_business_data : Analyzer.BusinessData := {|
  Analyzer.data_city := Some "Test City";
  Analyzer.data_businesses := Some sample_businesses
|}.

(** The shop of [nameless_shop] with its name. *)
Definition named_shop : gmap string PyVal :=
  list_to_map [("id", PyNum 2); ("lat", PyNum 40.051); ("lon", PyNum (-73.951));
               ("name", PyStr "Test Shop"); ("business_type", PyStr "shop");
               ("business_subtype", PyStr "clothing")].

(** The rows that the sample businesses are loaded as. *)
Definition sample_rows : list Analyzer.BusinessRow := [
  {| Analyzer.b_id := PyNum 1; Analyzer.b_lat := PyNum 40.05;
     Analyzer.b_lon := PyNum (-73.95); Analyzer.b_name := PyStr "Test Restaurant";
     Analyzer.b_type := PyStr "amenity"; Analyzer.b_subtype := PyStr "restaurant" |};
  {| Analyzer.b_id := PyNum 2; Analyzer.b_lat := PyNum 40.051;
     Analyzer.b_lon := PyNum (-73.951); Analyzer.b_name := PyStr "Test Shop";
     Analyzer.b_type := PyStr "shop"; Analyzer.b_subtype := PyStr "clothing" |};
  {| Analyzer.b_id := PyNum 3; Analyzer.b_lat := PyNum 40.052;
     Analyzer.b_lon := PyNum (-73.952); Analyzer.b_name := PyStr "Test Office";
     Analyzer.b_type := PyStr "office"; Analyzer.b_subtype := PyStr "company" |} ].

(** The default configuration without the automatic focus area. *)
Definition plain_config : Analyzer.AnalysisConfig := {|
  Analyzer.density_threshold_percentile := 90;
  Analyzer.bandwidth := 0.002;
  Analyzer.grid_size := 0.002;
  Analyzer.alpha := 0.02;
  Analyzer.buffer_distance := 0.003;
  Analyzer.commercial_only := true;
  Analyzer.auto_focus := false;
  Analyzer.focus_area := None
|}.

(** A back end for whole runs in the rectangle geometry: the triangulation
    is taken to fail, so that the boundary is the polygon of the convex
    hull, and every point is reported as a vertex of the hull, which does
    not change a polygon that is a bounding rectangle. *)
Definition hull_scilibs : SciLibs := {|
  DBSCAN_labels := fun eps min_samples coords =>
    Returned (map (fun _ => (-1)%Z) coords);
  KernelDensity_score_samples := fun h X G => Returned (gaussian_kde h X G);
  Delaunay_simplices := fun coords => Raised (QhullError "no triangulation");
  ConvexHull_vertices := fun coords => Returned (seq 0 (length coords))
|}.

(** Ten businesses at one address and one a hundredth of a degree away. *)
Definition crowded_row (i : nat) : Analyzer.BusinessRow := {|
  Analyzer.b_id := PyNum (INR i);
  Analyzer.b_lat := PyNum (if Nat.ltb i 10 then 40.05 else 40.06);
  Analyzer.b_lon := PyNum (if Nat.ltb i 10 then -73.95 else -73.94);
  Analyzer.b_name := PyStr "Shop";
  Analyzer.b_type := PyStr "shop";
  Analyzer.b_subtype := PyStr "clothing"
|}.

Definition crowded_businesses : Analyzer.BusinessFrame :=
  Analyzer.pd_DataFrame (map crowded_row (seq 0 11)).

Definition crowded_lats : list R := (replicate 10 40.05 ++ [40.06])%list.
Definition crowded_lons : list R := (replicate 10 (-73.95) ++ [-73.94])%list.
Definition crowded_labels : list Z := (replicate 10 0%Z ++ [(-1)%Z])%list.

(** A clustering back end for [crowded_businesses]: the first ten points
    form cluster 0, any further point is noise. *)
Definition cluster_scilibs : SciLibs := {|
  DBSCAN_labels := fun eps min_samples coords =>
    Returned (imap (fun i _ => if Nat.ltb i 10 then 0%Z else (-1)%Z) coords);
  KernelDensity_score_samples := fun h X G => Returned (gaussian_kde h X G);
  Delaunay_simplices := fun coords => Raised (QhullError "no triangulation");
  ConvexHull_vertices := fun coords => Returned (seq 0 (length coords))
|}.

End Fixtures.

(** * Properties of the scorer *)

(** ** Sums, minima and rounding *)

Lemma np_sum_nonneg (l : list R) : Forall (fun x => 0 <= x) l -> 0 <= np_sum l.
Proof.
  induction 1 as [|x l Hx _ IH]; simpl; [lra|].
  unfold np_sum in *. simpl. lra.
Qed.

Lemma np_sum_nonpos (l : list R) : Forall (fun x => x <= 0) l -> np_sum l <= 0.
Proof.
  induction 1 as [|x l Hx _ IH]; simpl; [lra|].
  unfold np_sum in *. simpl. lra.
Qed.

Lemma fold_left_Rmin_nonneg (l : list R) (x : R) :
  0 <= x -> Forall (fun y => 0 <= y) l -> 0 <= fold_left Rmin l x.
Proof.
  intros Hx Hl. revert x Hx.
  induction Hl as [|y l Hy _ IH]; intros x Hx; simpl; [exact Hx|].
  apply IH. apply Rmin_glb; assumption.
Qed.

Lemma np_min_nonneg (l : list R) : Forall (fun y => 0 <= y) l -> 0 <= np_min l.
Proof.
  destruct 1 as [|x l Hx Hl]; simpl; [lra|].
  apply fold_left_Rmin_nonneg; assumption.
Qed.

Lemma np_mean_nonneg (l : list R) :
  l <> [] -> Forall (fun y => 0 <= y) l -> 0 <= np_mean l.
Proof.
  intros Hne Hl. unfold np_mean.
  apply Rmult_le_pos; [apply np_sum_nonneg; exact Hl|].
  apply Rlt_le, Rinv_0_lt_compat.
  destruct l; [congruence|]. apply lt_0_INR. simpl. lia.
Qed.

Lemma round_half_even_between (y : R) (n m : Z) :
  IZR n <= y <= IZR m -> (n <= round_half_even y <= m)%Z.
Proof.
  intros [Hn Hm]. unfold round_half_even.
  pose proof (Zfloor_bound y) as [Hlo Hhi].
  assert (Hfn : (n <= Zfloor y)%Z) by (apply Zfloor_lub; exact Hn).
  assert (Hfm : (Zfloor y <= m)%Z).
  { apply le_IZR. lra. }
  destruct (Rlt_dec (y - IZR (Zfloor y)) (1 / 2)) as [Hr|Hr]; [lia|].
  assert (Hlt : (Zfloor y < m)%Z).
  { apply lt_IZR. lra. }
  destruct (Rlt_dec (1 / 2) (y - IZR (Zfloor y))); [lia|].
  destruct (Z.even (Zfloor y)); lia.
Qed.

Lemma py_round_unit (x : R) : 0 <= x <= 1 -> 0 <= py_round x 3 <= 1.
Proof.
  intros Hx. unfold py_round.
  assert (H10 : 10 ^ 3 = 1000) by (simpl; lra). rewrite H10.
  destruct (round_half_even_between (x * 1000) 0 1000) as [Hlo Hhi]; [lra|].
  apply IZR_le in Hlo, Hhi. lra.
Qed.

Lemma py_round_0 (n : nat) : py_round 0 n = 0.
Proof.
  unfold py_round. rewrite Rmult_0_l.
  assert (H : round_half_even 0 = 0%Z).
  { pose proof (round_half_even_between 0 0 0). lra || (assert (0 <= round_half_even 0 <= 0)%Z by (apply H; simpl; lra); lia). }
  rewrite H. unfold Rdiv. apply Rmult_0_l.
Qed.

Import DMUR.

Section ScorerFacts.
Context `{Shapely}.
Variable config : DMURConfig.

Lemma euclidean_nonneg (a b : R * R) : 0 <= euclidean a b.
Proof. unfold euclidean. apply sqrt_pos. Qed.

Lemma min_distances_nonneg (A B : list (R * R)) :
  Forall (fun y => 0 <= y) (map np_min (cdist A B)).
Proof.
  unfold cdist. rewrite Forall_map, Forall_map. apply Forall_forall. intros a _.
  apply np_min_nonneg. rewrite Forall_map. apply Forall_forall. intros b _.
  apply euclidean_nonneg.
Qed.

Lemma mxi_score_bounded (ldf : DataFrame) (biz : list (R * R)) :
  0 < max_distance_threshold config -> rows ldf <> [] ->
  0 <= _calculate_mxi_score config ldf biz <= 1.
Proof.
  intros Hthr Hne. unfold _calculate_mxi_score.
  destruct (Nat.eqb (length biz) 0); [lra|].
  cbv zeta.
  set (avg := np_mean _).
  assert (Havg : 0 <= avg).
  { apply np_mean_nonneg; [|apply min_distances_nonneg].
    unfold cdist, listing_coords. destruct (rows ldf); [congruence|discriminate]. }
  split; [apply Rmax_l|].
  apply Rmax_lub; [lra|].
  assert (0 <= avg / max_distance_threshold config).
  { apply Rmult_le_pos; [exact Havg|]. apply Rlt_le, Rinv_0_lt_compat, Hthr. }
  lra.
Qed.

Lemma balance_score_bounded (ldf : DataFrame) (biz : list (R * R)) :
  0 <= _calculate_balance_score config ldf biz <= 1.
Proof.
  unfold _calculate_balance_score.
  destruct (Nat.eqb (length biz) 0); [lra|].
  cbv zeta. split; [apply Rmax_l|].
  apply Rmax_lub; [lra|]. pose proof (Rabs_pos (log10 (INR (length (rows ldf)) / INR (length biz) / optimal_residential_ratio config))). lra.
Qed.

Lemma density_score_bounded (ldf : DataFrame) (boundary : Geometry) :
  0 < urban_density_benchmark config ->
  0 <= _calculate_density_score config ldf boundary <= 1.
Proof.
  intros Hb. unfold _calculate_density_score. cbv zeta.
  destruct (Rle_dec _ 0) as [Ha|Ha]; [lra|].
  apply Rnot_le_lt in Ha.
  split; [|apply Rmin_l].
  apply Rmin_glb; [lra|].
  apply Rmult_le_pos; [|apply Rlt_le, Rinv_0_lt_compat, Hb].
  apply Rmult_le_pos; [apply pos_INR|apply Rlt_le, Rinv_0_lt_compat, Ha].
Qed.

Lemma count_occ_le_length (l : list Z) (v : Z) : (count_occ Z.eq_dec l v <= length l)%nat.
Proof. induction l as [|x l IH]; simpl; [lia|]. destruct (Z.eq_dec x v); lia. Qed.

Lemma xlnx_nonpos (p : R) : 0 < p <= 1 -> p * ln p <= 0.
Proof.
  intros [Hp0 Hp1].
  assert (ln p <= 0).
  { destruct (Req_dec p 1) as [->|Hne]; [rewrite ln_1; lra|].
    rewrite <- ln_1. apply Rlt_le, ln_increasing; lra. }
  nra.
Qed.

Lemma ln5_pos : 0 < ln 5.
Proof. rewrite <- ln_1. apply ln_increasing; lra. Qed.

Lemma diversity_score_bounded (ldf : DataFrame) :
  0 <= _calculate_diversity_score ldf <= 1.
Proof.
  unfold _calculate_diversity_score. cbv zeta.
  destruct (Nat.leb _ 1); [lra|].
  split; [|apply Rmin_l].
  apply Rmin_glb; [lra|].
  apply Rmult_le_pos; [|apply Rlt_le, Rinv_0_lt_compat, ln5_pos].
  set (bs := map bedrooms (rows ldf)).
  assert (Hs : np_sum (map (fun p => p * ln p)
            (map (fun vc : Z * nat => INR vc.2 / INR (length (rows ldf))) (value_counts bs))) <= 0).
  { apply np_sum_nonpos. rewrite !Forall_map. apply Forall_forall.
    intros [v c] Hin. simpl.
    unfold value_counts in Hin. apply list_elem_of_In, in_map_iff in Hin.
    destruct Hin as [v' [Heq Hv']]. inversion Heq; subst v' c; clear Heq.
    apply nodup_In in Hv'.
    assert (Hc : (0 < count_occ Z.eq_dec bs v)%nat) by (apply count_occ_In; exact Hv').
    assert (Hle : (count_occ Z.eq_dec bs v <= length (rows ldf))%nat).
    { etransitivity; [apply count_occ_le_length|]. unfold bs. rewrite length_map. lia. }
    apply xlnx_nonpos.
    assert (Hn : 0 < INR (length (rows ldf))) by (apply lt_0_INR; lia).
    split.
    - apply Rmult_lt_0_compat; [apply lt_0_INR; exact Hc|apply Rinv_0_lt_compat, Hn].
    - apply Rmult_le_reg_r with (INR (length (rows ldf))); [exact Hn|].
      unfold Rdiv. rewrite Rmult_assoc, Rinv_l, Rmult_1_r, Rmult_1_l; [|lra].
      apply le_INR, Hle. }
  lra.
Qed.

End ScorerFacts.

Section ScorerTheorems.
Context `{Shapely}.
Variable config : DMURConfig.

Lemma filter_downtown_ok (df : DataFrame) (boundary : Geometry) :
  missing_cols df = [] ->
  _filter_downtown_listings df boundary =
    Returned {| columns := columns df;
                rows := List.filter (fun row => contains boundary (lon row, lat row)) (rows df) |}.
Proof. intros Hm. unfold _filter_downtown_listings. rewrite Hm. reflexivity. Qed.

Lemma length_eqb_0 {A} (l : list A) : Nat.eqb (length l) 0 = true <-> l = [].
Proof. destruct l; simpl; split; congruence. Qed.

Lemma nodup_all_same (b : Z) (l : list Z) :
  l <> [] -> (forall x, In x l -> x = b) -> nodup Z.eq_dec l = [b].
Proof.
  induction l as [|x l IH]; intros Hne Hall; [congruence|].
  assert (x = b) by (apply Hall; left; reflexivity). subst x.
  simpl. destruct (in_dec Z.eq_dec b l) as [Hin|Hnin].
  - apply IH; [intros ->; destruct Hin|]. intros y Hy. apply Hall. right. exact Hy.
  - destruct l as [|y l]; [reflexivity|].
    exfalso. apply Hnin. left. apply Hall. right. left. reflexivity.
Qed.

(** Claim C1.  Whenever at least one listing lies inside the boundary, the
    scorer returns a result, for any set of businesses, and each of its four
    component scores (MXI, balance, density, diversity) lies in [0, 1].  The
    three normalising constants of the configuration, the distance
    threshold, the optimal ratio of listings to businesses and the density
    benchmark, are positive, as they are by default: the balance score
    divides by the optimal ratio, and Python raises [ZeroDivisionError]
    when that is 0. *)
Theorem component_scores_bounded (data : ListingsData) (df : DataFrame)
    (boundary : Geometry) (business_locations : list (R * R)) (city_name : string) :
  0 < max_distance_threshold config ->
  0 < optimal_residential_ratio config ->
  0 < urban_density_benchmark config ->
  _load_listings_data data = Returned df ->
  missing_cols df = [] ->
  (exists row, In row (rows df) /\ contains boundary (lon row, lat row) = true) ->
  exists r,
    calculate_dmur config data boundary business_locations city_name = Returned r /\
    0 <= mxi_score (component_scores r) <= 1 /\
    0 <= balance_score (component_scores r) <= 1 /\
    0 <= density_score (component_scores r) <= 1 /\
    0 <= diversity_score (component_scores r) <= 1.
Proof.
  intros Hthr _ Hbench Hload Hcols [row [Hin Hrow]].
  unfold calculate_dmur. rewrite Hload. simpl.
  rewrite (filter_downtown_ok _ _ Hcols). simpl.
  set (dl := {| columns := columns df; rows := List.filter _ (rows df) |}).
  assert (Hne : rows dl <> []).
  { simpl. intros Hnil.
    assert (Hf : In row (List.filter (fun row => contains boundary (lon row, lat row)) (rows df))).
    { apply filter_In. split; assumption. }
    rewrite Hnil in Hf. destruct Hf. }
  destruct (Nat.eqb (length (List.filter _ (rows df))) 0) eqn:Hlen.
  { apply length_eqb_0 in Hlen. exfalso. apply Hne. exact Hlen. }
  eexists. split; [reflexivity|]. simpl.
  repeat split; apply py_round_unit.
  - apply mxi_score_bounded; assumption.
  - apply mxi_score_bounded; assumption.
  - apply balance_score_bounded.
  - apply balance_score_bounded.
  - apply density_score_bounded; assumption.
  - apply density_score_bounded; assumption.
  - apply diversity_score_bounded.
  - apply diversity_score_bounded.
Qed.

(** Claim C3.  When no listing lies inside the boundary, the scorer raises
    nothing: it returns a result whose DMUR score and four component scores
    are all 0. *)
Theorem no_listings_all_zero (data : ListingsData) (df : DataFrame)
    (boundary : Geometry) (business_locations : list (R * R)) (city_name : string) :
  _load_listings_data data = Returned df ->
  missing_cols df = [] ->
  (forall row, In row (rows df) -> contains boundary (lon row, lat row) = false) ->
  exists r,
    calculate_dmur config data boundary business_locations city_name = Returned r /\
    r = _empty_results config city_name /\
    dmur_score r = 0 /\
    mxi_score (component_scores r) = 0 /\
    balance_score (component_scores r) = 0 /\
    density_score (component_scores r) = 0 /\
    diversity_score (component_scores r) = 0.
Proof.
  intros Hload Hcols Hout.
  exists (_empty_results config city_name).
  split; [|repeat split].
  unfold calculate_dmur. rewrite Hload. simpl.
  rewrite (filter_downtown_ok _ _ Hcols). simpl.
  assert (Hnil : List.filter (fun row => contains boundary (lon row, lat row)) (rows df) = []).
  { induction (rows df) as [|x l IH]; [reflexivity|]. simpl.
    rewrite (Hout x) by (left; reflexivity). apply IH.
    intros r Hr. apply Hout. right. exact Hr. }
  rewrite Hnil. reflexivity.
Qed.

(** Claim C4.  When the downtown listings are not empty and all have the
    same bedroom count, the value counts have a single entry, so the guard
    [len(bedroom_counts) <= 1] holds and the diversity score is the 0 of that
    special case, not a value of the entropy formula. *)
Theorem single_bedroom_count_diversity_zero (listings_df : DataFrame) (b : Z) :
  rows listings_df <> [] ->
  (forall row, In row (rows listings_df) -> bedrooms row = b) ->
  value_counts (map bedrooms (rows listings_df)) = [(b, length (rows listings_df))] /\
  Nat.leb (length (value_counts (map bedrooms (rows listings_df)))) 1 = true /\
  _calculate_diversity_score listings_df = 0.
Proof.
  intros Hne Hall.
  assert (Hvc : value_counts (map bedrooms (rows listings_df)) = [(b, length (rows listings_df))]).
  { unfold value_counts. rewrite (nodup_all_same b).
    - simpl. f_equal. f_equal.
      clear Hne. induction (rows listings_df) as [|x l IH]; [reflexivity|]. simpl.
      rewrite (Hall x) by (left; reflexivity).
      destruct (Z.eq_dec b b); [|congruence]. f_equal. apply IH.
      intros r Hr. apply Hall. right. exact Hr.
    - destruct (rows listings_df); [congruence|discriminate].
    - intros x Hx. apply in_map_iff in Hx. destruct Hx as [r [<- Hr]]. apply Hall, Hr. }
  split; [exact Hvc|].
  unfold _calculate_diversity_score. rewrite Hvc. simpl. split; reflexivity.
Qed.

(** Claim C5.  With an empty set of businesses and at least one listing
    inside the boundary, the scorer returns a result (it raises nothing)
    whose balance score and MXI score are exactly 0. *)
Theorem no_businesses_zero_scores (data : ListingsData) (df : DataFrame)
    (boundary : Geometry) (city_name : string) :
  _load_listings_data data = Returned df ->
  missing_cols df = [] ->
  (exists row, In row (rows df) /\ contains boundary (lon row, lat row) = true) ->
  exists r,
    calculate_dmur config data boundary [] city_name = Returned r /\
    balance_score (component_scores r) = 0 /\
    mxi_score (component_scores r) = 0.
Proof.
  intros Hload Hcols [row [Hin Hrow]].
  unfold calculate_dmur. rewrite Hload. simpl.
  rewrite (filter_downtown_ok _ _ Hcols). simpl.
  destruct (Nat.eqb (length (List.filter _ (rows df))) 0) eqn:Hlen.
  { apply length_eqb_0 in Hlen.
    assert (Hf : In row (List.filter (fun row => contains boundary (lon row, lat row)) (rows df))).
    { apply filter_In. split; assumption. }
    rewrite Hlen in Hf. destruct Hf. }
  eexists. split; [reflexivity|]. simpl.
  unfold _calculate_balance_score, _calculate_mxi_score. simpl.
  split; apply py_round_0.
Qed.

End ScorerTheorems.

(** * Properties of the analyzer *)
Import Analyzer.

Lemma bind_Returned {A B} (a : A) (f : A -> Outcome B) : Returned a ≫= f = f a.
Proof. reflexivity. Qed.

Lemma zero_or_absent_not_get (business : gmap string PyVal) (k : string) :
  zero_or_absent (business !! k) -> not_get business k = true.
Proof.
  unfold not_get. intros [->|[->| ->]]; [reflexivity|reflexivity|].
  simpl. destruct (Req_dec_T 0 0); [reflexivity|congruence].
Qed.

Lemma load_loop_app (cfg : AnalysisConfig) (pre rest : list (gmap string PyVal))
    (acc : list BusinessRow) :
  load_loop cfg (pre ++ rest) acc =
  (acc' ← load_loop cfg pre acc; load_loop cfg rest acc').
Proof.
  revert acc. induction pre as [|b pre IH]; intros acc; [reflexivity|].
  simpl. destruct (not_get b "lat" || not_get b "lon"); [apply IH|].
  destruct (commercial_only cfg && negb (_is_commercial_business b)); [apply IH|].
  destruct (business_row b) as [row|e]; simpl; [apply IH|reflexivity].
Qed.

Lemma load_loop_skip (cfg : AnalysisConfig) (business : gmap string PyVal)
    (rest : list (gmap string PyVal)) (acc : list BusinessRow) :
  not_get business "lat" = true \/ not_get business "lon" = true ->
  load_loop cfg (business :: rest) acc = load_loop cfg rest acc.
Proof.
  intros Hz. simpl.
  assert (Hor : not_get business "lat" || not_get business "lon" = true).
  { destruct Hz as [-> | ->]; [reflexivity|apply orb_true_r]. }
  rewrite Hor. reflexivity.
Qed.

Lemma business_row_missing (business : gmap string PyVal) (key : string) :
  first_missing business = Some key -> business_row business = Raised (KeyError key).
Proof.
  unfold first_missing, business_row, getitem, row_keys. simpl.
  destruct (business !! "id"); [|intros [= <-]; reflexivity].
  destruct (business !! "lat"); [|intros [= <-]; reflexivity].
  destruct (business !! "lon"); [|intros [= <-]; reflexivity].
  destruct (business !! "name"); [|intros [= <-]; reflexivity].
  destruct (business !! "business_type"); [|intros [= <-]; reflexivity].
  destruct (business !! "business_subtype"); [|intros [= <-]; reflexivity].
  discriminate.
Qed.

Lemma load_loop_missing (cfg : AnalysisConfig) (pre post : list (gmap string PyVal))
    (business : gmap string PyVal) (acc : list BusinessRow) (key : string) :
  load_loop cfg pre [] = Returned acc ->
  not_get business "lat" = false ->
  not_get business "lon" = false ->
  (commercial_only cfg = true -> _is_commercial_business business = true) ->
  first_missing business = Some key ->
  load_loop cfg (pre ++ business :: post) [] = Raised (KeyError key).
Proof.
  intros Hpre Hlat Hlon Hcom Hmiss.
  rewrite load_loop_app, Hpre. simpl. rewrite Hlat, Hlon. simpl.
  destruct (commercial_only cfg) eqn:Hc; simpl.
  - rewrite Hcom by reflexivity. simpl.
    rewrite (business_row_missing _ _ Hmiss). reflexivity.
  - rewrite (business_row_missing _ _ Hmiss). reflexivity.
Qed.

Section LoadTheorems.
Context `{Shapely} `{SciLibs}.

(** Claim C10.  A record whose [lat] or [lon] is 0 (or absent, or [None]) is
    dropped by business loading: the outcome of the load is the one of the
    same document without that record.  Latitude 0 and longitude 0 are
    coordinates of real places, so such businesses are lost silently. *)
Theorem unlocated_record_excluded (self : Analyzer) (city : option string)
    (pre post : list (gmap string PyVal)) (business : gmap string PyVal) :
  zero_or_absent (business !! "lat") \/ zero_or_absent (business !! "lon") ->
  _load_business_data self
    {| data_city := city; data_businesses := Some (pre ++ business :: post)%list |} =
  _load_business_data self
    {| data_city := city; data_businesses := Some (pre ++ post)%list |}.
Proof.
  intros Hz. unfold _load_business_data. simpl.
  rewrite !(load_loop_app _ pre).
  destruct (load_loop (config self) pre []) as [acc|e]; [|reflexivity].
  rewrite !bind_Returned. rewrite load_loop_skip; [reflexivity|].
  destruct Hz as [Hz|Hz]; [left|right]; apply zero_or_absent_not_get, Hz.
Qed.

(** Claim C9, as the code has it.  A record that has its coordinates and
    passes the commercial filter but lacks one of the keys read for a row
    makes business loading raise [KeyError] for the first such key, once the
    records before it have loaded; no validation error is involved. *)
Theorem missing_field_raises_KeyError (self : Analyzer) (city : option string)
    (pre post : list (gmap string PyVal)) (business : gmap string PyVal)
    (acc : list BusinessRow) (key : string) :
  load_loop (config self) pre [] = Returned acc ->
  not_get business "lat" = false ->
  not_get business "lon" = false ->
  (commercial_only (config self) = true -> _is_commercial_business business = true) ->
  first_missing business = Some key ->
  _load_business_data self
    {| data_city := city; data_businesses := Some (pre ++ business :: post)%list |} =
  Raised (KeyError key) /\
  exn_class (KeyError key) = "KeyError".
Proof.
  intros Hpre Hlat Hlon Hcom Hmiss. split; [|reflexivity].
  unfold _load_business_data. simpl.
  rewrite (load_loop_missing _ pre post business acc key); auto.
Qed.

Lemma load_sets_businesses_df (self self' : Analyzer) (data : BusinessData) :
  _load_business_data self data = Returned self' ->
  exists df, businesses_df self' = Some df.
Proof.
  unfold _load_business_data.
  destruct (load_loop _ _ _) as [bs|e]; simpl; [|discriminate].
  destruct (focus_area (config self)) as [fa|].
  - destruct (_apply_focus_area _ _) as [df|e]; simpl; [|discriminate].
    intros [= <-]. eexists. reflexivity.
  - destruct (auto_focus (config self)).
    + destruct (_auto_determine_focus_area _) as [fa|e]; simpl; [|discriminate].
      destruct (_apply_focus_area _ _) as [df|e]; simpl; [|discriminate].
      intros [= <-]. eexists. reflexivity.
    + intros [= <-]. eexists. reflexivity.
Qed.

Lemma analyze_insufficient (self self' : Analyzer) (data : BusinessData)
    (name : option string) (df : BusinessFrame) :
  _load_business_data (set_city_name self (city_or name data)) data = Returned self' ->
  businesses_df self' = Some df ->
  (length (brows df) < 3)%nat ->
  analyze self data name =
    Raised (ValueError (insufficient_message (length (brows df)))).
Proof.
  intros Hload Hdf Hlen. unfold analyze. rewrite Hload. simpl. rewrite Hdf. simpl.
  destruct (Nat.ltb_spec (length (brows df)) 3); [reflexivity|lia].
Qed.

(** Claim C2, as the code has it.  When business loading succeeds and leaves
    fewer than 3 businesses after the commercial and focus-area filters, the
    analysis raises the builtin [ValueError] with the message
    "Insufficient business data: N businesses found". *)
Theorem insufficient_data_raises_ValueError (self self' : Analyzer)
    (data : BusinessData) (name : option string) (df : BusinessFrame) :
  _load_business_data (set_city_name self (city_or name data)) data = Returned self' ->
  businesses_df self' = Some df ->
  (length (brows df) < 3)%nat ->
  analyze self data name =
    Raised (ValueError (insufficient_message (length (brows df)))) /\
  exn_class (ValueError (insufficient_message (length (brows df)))) = "ValueError".
Proof.
  intros Hload Hdf Hlen. split; [|reflexivity].
  apply (analyze_insufficient self self'); assumption.
Qed.

End LoadTheorems.


(** ** Percentiles and the high-density selection *)

#[local] Instance Rle_total : Total Rle.
Proof. intros x y. destruct (Rle_dec x y); [left; assumption|right; lra]. Qed.
#[local] Instance Rle_trans_inst : Transitive Rle.
Proof. intros x y z. apply Rle_trans. Qed.

Lemma np_sort_sorted (a : list R) : StronglySorted Rle (np_sort a).
Proof. apply StronglySorted_merge_sort; typeclasses eauto. Qed.

Lemma sorted_nth_le (l : list R) (i j : nat) :
  StronglySorted Rle l -> (i <= j)%nat -> (j < length l)%nat ->
  nth i l 0 <= nth j l 0.
Proof.
  intros Hs. revert i j. induction Hs as [|x l Hs IH Hx]; intros i j Hij Hj; simpl in Hj; [lia|].
  destruct i as [|i], j as [|j]; simpl; try lia.
  - lra.
  - rewrite Forall_forall in Hx. apply Hx. apply list_elem_of_In, nth_In. lia.
  - apply IH; lia.
Qed.

Lemma floor_nat (v : R) : 0 <= v ->
  INR (Z.to_nat (Zfloor v)) <= v < INR (Z.to_nat (Zfloor v)) + 1.
Proof.
  intros Hv. pose proof (Zfloor_bound v) as Hb.
  assert (0 <= Zfloor v)%Z by (apply Zfloor_lub; simpl; lra).
  rewrite INR_IZR_INZ, Z2Nat.id by assumption. exact Hb.
Qed.

Lemma interp_between (arr : list R) (v : R) :
  StronglySorted Rle arr -> 0 <= v <= INR (length arr - 1) -> arr <> [] ->
  let previous := Z.to_nat (Zfloor v) in
  let next := Nat.min (previous + 1) (length arr - 1) in
  (previous <= length arr - 1)%nat /\
  nth previous arr 0 <= interp arr v <= nth next arr 0.
Proof.
  intros Hs [Hv0 Hv1] Hne previous next.
  pose proof (floor_nat v Hv0) as [Hlo Hhi]. fold previous in Hlo, Hhi.
  assert (Hn : (0 < length arr)%nat) by (destruct arr; [congruence|simpl; lia]).
  assert (Hp : (previous <= length arr - 1)%nat).
  { apply INR_le. lra. }
  split; [exact Hp|].
  assert (Hle : nth previous arr 0 <= nth next arr 0).
  { apply sorted_nth_le; [exact Hs|unfold next; lia|unfold next; lia]. }
  unfold interp. fold previous. fold next.
  split; nra.
Qed.

Lemma interp_mono (arr : list R) (v1 v2 : R) :
  StronglySorted Rle arr -> arr <> [] ->
  0 <= v1 -> v1 <= v2 -> v2 <= INR (length arr - 1) ->
  interp arr v1 <= interp arr v2.
Proof.
  intros Hs Hne H0 H12 H2.
  assert (Hn : (0 < length arr)%nat) by (destruct arr; [congruence|simpl; lia]).
  destruct (interp_between arr v1 Hs) as [Hp1 [Hl1 Hh1]]; [lra|exact Hne|].
  destruct (interp_between arr v2 Hs) as [Hp2 [Hl2 Hh2]]; [lra|exact Hne|].
  pose proof (floor_nat v1 H0) as [Hlo1 Hhi1].
  pose proof (floor_nat v2 ltac:(lra)) as [Hlo2 Hhi2].
  unfold interp.
  remember (Z.to_nat (Zfloor v1)) as p1 eqn:E1.
  remember (Z.to_nat (Zfloor v2)) as p2 eqn:E2.
  assert (Hp12 : (p1 <= p2)%nat).
  { apply Nat.lt_succ_r. apply INR_lt. rewrite S_INR. lra. }
  destruct (Nat.eq_dec p1 p2) as [Heq|Hneq].
  - subst p2. rewrite <- Heq.
    assert (Hle : nth p1 arr 0 <= nth (Nat.min (p1 + 1) (length arr - 1)) arr 0).
    { apply sorted_nth_le; [exact Hs|lia|lia]. }
    nra.
  - assert (Hmin : Nat.min (p1 + 1) (length arr - 1) = (p1 + 1)%nat) by lia.
    unfold interp in Hl1, Hh1, Hl2, Hh2.
    rewrite <- E1 in Hl1, Hh1. rewrite <- E2 in Hl2, Hh2.
    rewrite Hmin in *.
    assert (Hle : nth (p1 + 1) arr 0 <= nth p2 arr 0).
    { apply sorted_nth_le; [exact Hs|lia|lia]. }
    lra.
Qed.

Lemma np_percentile_interp (a : list R) (q : R) :
  0 <= q <= 100 ->
  np_percentile a q = Returned (interp (np_sort a) (q / 100 * INR (length (np_sort a) - 1))).
Proof.
  intros [H0 H1]. unfold np_percentile, Rleb.
  destruct (Rle_dec 0 q); [|lra]. destruct (Rle_dec q 100); [|lra]. reflexivity.
Qed.

Lemma np_percentile_mono (a : list R) (q1 q2 : R) :
  0 <= q1 -> q1 <= q2 -> q2 <= 100 ->
  exists t1 t2, np_percentile a q1 = Returned t1 /\ np_percentile a q2 = Returned t2 /\
                t1 <= t2.
Proof.
  intros H0 H12 H2.
  rewrite !np_percentile_interp by lra.
  eexists _, _. split; [reflexivity|]. split; [reflexivity|].
  set (arr := np_sort a).
  destruct arr as [|x arr'] eqn:Harr.
  { unfold interp. simpl. destruct (Z.to_nat (Zfloor _)), (Z.to_nat (Zfloor _)); simpl; lra. }
  rewrite <- Harr.
  assert (Hn : 0 <= INR (length arr - 1)) by apply pos_INR.
  apply interp_mono.
  - apply np_sort_sorted.
  - rewrite Harr. discriminate.
  - nra.
  - nra.
  - nra.
Qed.

Lemma Rleb_true_iff (x y : R) : Rleb x y = true <-> x <= y.
Proof. unfold Rleb. destruct (Rle_dec x y); split; intros; try assumption; try reflexivity; try discriminate; contradiction. Qed.

Lemma Rleb_mono_l (t1 t2 d : R) : t1 <= t2 -> Rleb t2 d = true -> Rleb t1 d = true.
Proof. rewrite !Rleb_true_iff. lra. Qed.

Lemma boolean_index_mono {A} (a : list A) (ds : list R) (t1 t2 : R) :
  t1 <= t2 ->
  (length (boolean_index a (map (fun d => Rleb t2 d) ds)) <=
   length (boolean_index a (map (fun d => Rleb t1 d) ds)))%nat.
Proof.
  intros Ht. unfold boolean_index. rewrite !length_map.
  revert ds. induction a as [|x a IH]; intros [|d ds]; simpl; try lia.
  specialize (IH ds).
  destruct (Rleb t2 d) eqn:E2.
  - rewrite (Rleb_mono_l t1 t2 d Ht E2). simpl. lia.
  - destruct (Rleb t1 d); simpl; lia.
Qed.

(** Claim C8.  On a fixed density grid, for percentiles [p1 <= p2] in
    [0, 100], at least as many grid nodes are at or above the [p1]-th
    percentile of the densities as are at or above the [p2]-th. *)
Theorem percentile_relaxation_monotone (grid : list (list R))
    (coords : list (list R) * list (list R)) (p1 p2 : R) :
  0 <= p1 -> p1 <= p2 -> p2 <= 100 ->
  exists high1 high2,
    select_high_density grid coords p1 = Returned high1 /\
    select_high_density grid coords p2 = Returned high2 /\
    (length high2.1 <= length high1.1)%nat /\
    (length high2.2 <= length high1.2)%nat.
Proof.
  intros H0 H12 H2.
  destruct (np_percentile_mono (ravel grid) p1 p2 H0 H12 H2) as [t1 [t2 [E1 [E2 Ht]]]].
  unfold select_high_density. rewrite E1, E2. simpl. destruct coords as [lat_grid lon_grid].
  eexists _, _. split; [reflexivity|]. split; [reflexivity|]. simpl.
  split; apply boolean_index_mono; exact Ht.
Qed.

(** ** The alpha shape *)

Lemma Rltb_true_iff (x y : R) : Rltb x y = true <-> x < y.
Proof.
  unfold Rltb. destruct (Rlt_dec x y); split; intros;
    try assumption; try reflexivity; try discriminate; contradiction.
Qed.

Lemma alpha_loop_filter (alpha : R) (coords : list (R * R))
    (simplices : list (nat * nat * nat)) (acc tris : list (list (R * R))) :
  for_each (triangle_of coords) simplices = Returned tris ->
  alpha_loop alpha coords simplices acc =
    Returned (acc ++ List.filter (alpha_test alpha) tris)%list.
Proof.
  revert acc tris. induction simplices as [|s rest IH]; intros acc tris Hfor.
  - injection Hfor as <-. cbn [alpha_loop List.filter]. rewrite app_nil_r. reflexivity.
  - cbn [for_each] in Hfor. cbn [alpha_loop].
    destruct (triangle_of coords s) as [t|e]; [|discriminate].
    rewrite bind_Returned in Hfor. rewrite bind_Returned.
    destruct (for_each (triangle_of coords) rest) as [ts|e]; [|discriminate].
    rewrite bind_Returned in Hfor. injection Hfor as <-.
    cbn [List.filter]. fold (alpha_test alpha t).
    destruct (alpha_test alpha t).
    + rewrite (IH _ ts eq_refl). rewrite <- app_assoc. reflexivity.
    + apply IH. reflexivity.
Qed.

Section BoundaryTheorems.
Context `{Shapely} `{SciLibs}.

Lemma alpha_shape_kept (alpha : R) (lats lons : list R)
    (simplices : list (nat * nat * nat)) (tris : list (list (R * R))) :
  Delaunay_simplices (zip lons lats) = Returned simplices ->
  for_each (triangle_of (zip lons lats)) simplices = Returned tris ->
  alpha_shape alpha lats lons =
    match List.filter (alpha_test alpha) tris with
    | [] => Raised (ValueError "No triangles passed alpha test")
    | kept => Returned (unary_union (map Polygon kept))
    end.
Proof.
  intros Hd Hfor. unfold alpha_shape. rewrite Hd. simpl.
  rewrite (alpha_loop_filter _ _ _ [] tris Hfor). simpl.
  destruct (List.filter (alpha_test alpha) tris); reflexivity.
Qed.

(** Claim C6, as the code has it.  Once the selected points are triangulated,
    boundary creation keeps exactly the triangles whose longest edge is
    strictly below [alpha] (one whose longest edge equals [alpha] is
    discarded); if some triangle is kept the boundary is the buffered union
    of the kept triangles, and if none is kept it is the buffered polygon of
    the convex hull. *)
Theorem alpha_shape_boundary (self : Analyzer) (lats lons : list R)
    (simplices : list (nat * nat * nat)) (tris : list (list (R * R))) :
  let coords := zip lons lats in
  let kept := List.filter (alpha_test (alpha (config self))) tris in
  Delaunay_simplices coords = Returned simplices ->
  for_each (triangle_of coords) simplices = Returned tris ->
  (forall t, In t kept <->
             In t tris /\ np_max (edge_lengths t) < alpha (config self)) /\
  (kept <> [] ->
   _create_downtown_boundary self lats lons =
     Returned (set_downtown_boundary self
       (apply_buffer (buffer_distance (config self))
                     (unary_union (map Polygon kept))))) /\
  (kept = [] ->
   _create_downtown_boundary self lats lons =
     (hull ← convex_hull lats lons;
      Returned (set_downtown_boundary self
        (apply_buffer (buffer_distance (config self)) hull)))).
Proof.
  intros coords kept Hd Hfor. split; [|split].
  - intros t. unfold kept. rewrite filter_In. unfold alpha_test.
    rewrite Rltb_true_iff. reflexivity.
  - intros Hne. unfold _create_downtown_boundary.
    rewrite (alpha_shape_kept _ _ _ simplices tris Hd Hfor). fold kept.
    destruct kept; [congruence|]. reflexivity.
  - intros Hnil. unfold _create_downtown_boundary.
    rewrite (alpha_shape_kept _ _ _ simplices tris Hd Hfor). fold kept.
    rewrite Hnil. reflexivity.
Qed.

(** The convex hull is also what a failed triangulation leads to. *)
Lemma failed_triangulation_falls_back (self : Analyzer) (lats lons : list R) (e : PyExn) :
  Delaunay_simplices (zip lons lats) = Raised e ->
  _create_downtown_boundary self lats lons =
    (hull ← convex_hull lats lons;
     Returned (set_downtown_boundary self
       (apply_buffer (buffer_distance (config self)) hull))).
Proof.
  intros Hd. unfold _create_downtown_boundary, alpha_shape. rewrite Hd. reflexivity.
Qed.

End BoundaryTheorems.

(** ** The histogram fallback of the focus area *)

Lemma length_np_linspace (a b : R) (n : nat) : length (np_linspace a b n) = n.
Proof. unfold np_linspace. rewrite length_map, length_seq. reflexivity. Qed.

Lemma index_np_linspace (a b : R) (n k : nat) :
  (k < n)%nat ->
  index (np_linspace a b n) k = Returned (a + INR k * ((b - a) / INR (n - 1))).
Proof.
  intros Hk. unfold index, np_linspace.
  rewrite list_lookup_fmap, lookup_seq_lt by exact Hk. reflexivity.
Qed.

Lemma np_histogram2d_rows (x y xedges yedges : list R) :
  length (np_histogram2d x y xedges yedges) = (length xedges - 1)%nat.
Proof. unfold np_histogram2d. rewrite length_map, length_seq. reflexivity. Qed.

Lemma np_histogram2d_cols (x y xedges yedges : list R) :
  Forall (fun row => length row = (length yedges - 1)%nat)
         (np_histogram2d x y xedges yedges).
Proof.
  unfold np_histogram2d. rewrite Forall_map. apply Forall_forall. intros i _.
  rewrite length_map, length_seq. reflexivity.
Qed.

Lemma length_ravel_uniform {A} (a : list (list A)) (c : nat) :
  Forall (fun row => length row = c) a -> length (ravel a) = (length a * c)%nat.
Proof.
  unfold ravel. induction 1 as [|row a Hrow _ IH]; [reflexivity|].
  simpl. rewrite length_app, IH, Hrow. reflexivity.
Qed.

Lemma argmax_from_bound (l : list nat) (i best_i best : nat) :
  (best_i < i)%nat -> (argmax_from l i best_i best < i + length l)%nat.
Proof.
  revert i best_i best. induction l as [|x l IH]; intros i best_i best Hb; simpl; [lia|].
  destruct (Nat.ltb best x).
  - specialize (IH (S i) i x). lia.
  - specialize (IH (S i) best_i best). lia.
Qed.

Lemma np_argmax_lt (l : list nat) : l <> [] -> (np_argmax l < length l)%nat.
Proof.
  destruct l as [|x l]; [congruence|]. intros _. unfold np_argmax.
  pose proof (argmax_from_bound l 1 0 x). simpl. lia.
Qed.

(** The running maximum is attained at the running index, and dominates. *)
Lemma argmax_from_max (pre l : list nat) (best_i best : nat) :
  pre !! best_i = Some best ->
  (forall x, x ∈ pre -> x <= best)%nat ->
  let k := argmax_from l (length pre) best_i best in
  exists m, (pre ++ l)%list !! k = Some m /\ (forall x, x ∈ (pre ++ l)%list -> x <= m)%nat.
Proof.
  revert pre best_i best. induction l as [|x l IH]; intros pre best_i best Hb Hmax; simpl.
  - exists best. rewrite app_nil_r. split; assumption.
  - destruct (Nat.ltb_spec best x) as [Hlt|Hge].
    + specialize (IH (pre ++ [x])%list (length pre) x).
      rewrite length_app in IH. simpl in IH.
      replace (length pre + 1)%nat with (S (length pre)) in IH by lia.
      rewrite <- app_assoc in IH. simpl in IH. apply IH.
      * rewrite lookup_app_r by lia. rewrite Nat.sub_diag. reflexivity.
      * intros y Hy. apply elem_of_app in Hy. destruct Hy as [Hy|Hy].
        -- specialize (Hmax y Hy). lia.
        -- apply list_elem_of_singleton in Hy. subst. lia.
    + specialize (IH (pre ++ [x])%list best_i best).
      rewrite length_app in IH. simpl in IH.
      replace (length pre + 1)%nat with (S (length pre)) in IH by lia.
      rewrite <- app_assoc in IH. simpl in IH. apply IH.
      * rewrite lookup_app_l; [exact Hb|]. apply lookup_lt_Some in Hb. exact Hb.
      * intros y Hy. apply elem_of_app in Hy. destruct Hy as [Hy|Hy].
        -- apply Hmax, Hy.
        -- apply list_elem_of_singleton in Hy. subst. lia.
Qed.

Lemma np_argmax_max (l : list nat) :
  l <> [] ->
  exists m, l !! np_argmax l = Some m /\ (forall x, x ∈ l -> x <= m)%nat.
Proof.
  destruct l as [|x l]; [congruence|]. intros _. unfold np_argmax.
  apply (argmax_from_max [x] l 0 x); [reflexivity|].
  intros y Hy. apply list_elem_of_singleton in Hy. subst. lia.
Qed.

Lemma argmax_from_first (pre l : list nat) (best_i best : nat) :
  pre !! best_i = Some best ->
  (forall x, x ∈ pre -> x <= best)%nat ->
  (forall j x, j < best_i -> pre !! j = Some x -> x < best)%nat ->
  let k := argmax_from l (length pre) best_i best in
  forall j x m, (pre ++ l)%list !! k = Some m ->
    (j < k)%nat -> (pre ++ l)%list !! j = Some x -> (x < m)%nat.
Proof.
  revert pre best_i best. induction l as [|y l IH]; intros pre best_i best Hb Hmax Hfirst; simpl.
  - intros j x m Hm Hj Hx. rewrite app_nil_r in Hm, Hx.
    rewrite Hb in Hm. injection Hm as <-. apply (Hfirst j x Hj Hx).
  - destruct (Nat.ltb_spec best y) as [Hlt|Hge].
    + specialize (IH (pre ++ [y])%list (length pre) y).
      rewrite length_app in IH. simpl in IH.
      replace (length pre + 1)%nat with (S (length pre)) in IH by lia.
      rewrite <- app_assoc in IH. simpl in IH. apply IH.
      * rewrite lookup_app_r by lia. rewrite Nat.sub_diag. reflexivity.
      * intros z Hz. apply elem_of_app in Hz. destruct Hz as [Hz|Hz].
        -- specialize (Hmax z Hz). lia.
        -- apply list_elem_of_singleton in Hz. subst. lia.
      * intros j x Hj Hx. rewrite lookup_app_l in Hx by exact Hj.
        assert (x <= best)%nat by (apply Hmax, list_elem_of_lookup; eauto). lia.
    + specialize (IH (pre ++ [y])%list best_i best).
      rewrite length_app in IH. simpl in IH.
      replace (length pre + 1)%nat with (S (length pre)) in IH by lia.
      rewrite <- app_assoc in IH. simpl in IH. apply IH.
      * rewrite lookup_app_l; [exact Hb|]. apply lookup_lt_Some in Hb. exact Hb.
      * intros z Hz. apply elem_of_app in Hz. destruct Hz as [Hz|Hz].
        -- apply Hmax, Hz.
        -- apply list_elem_of_singleton in Hz. subst. lia.
      * intros j x Hj Hx. apply (Hfirst j x Hj).
        rewrite lookup_app_l in Hx; [exact Hx|].
        apply lookup_lt_Some in Hb. lia.
Qed.

Lemma np_argmax_first (l : list nat) (j x m : nat) :
  l !! np_argmax l = Some m -> (j < np_argmax l)%nat -> l !! j = Some x -> (x < m)%nat.
Proof.
  destruct l as [|y l]; [discriminate|]. unfold np_argmax.
  apply (argmax_from_first [y] l 0 y); [reflexivity| |intros; lia].
  intros z Hz. apply list_elem_of_singleton in Hz. subst. lia.
Qed.

Lemma no_cluster_labels (labels : list Z) :
  (forall l, In l labels -> (l < 0)%Z) ->
  np_unique_counts (List.filter (fun l => Z.leb 0 l) labels) = ([], []).
Proof.
  intros Hneg.
  assert (Hnil : List.filter (fun l => Z.leb 0 l) labels = []).
  { induction labels as [|l ls IH]; [reflexivity|]. simpl.
    destruct (Z.leb_spec 0 l) as [Hl|Hl].
    - specialize (Hneg l (or_introl eq_refl)). lia.
    - apply IH. intros l' Hl'. apply Hneg. right. exact Hl'. }
  rewrite Hnil. reflexivity.
Qed.

Lemma fallback_hist_shape (lats lons : list R) :
  shape2 (fallback_hist lats lons) = (19, 19)%nat.
Proof.
  unfold shape2, fallback_hist, fallback_bins.
  rewrite np_histogram2d_rows, length_np_linspace. f_equal.
Qed.

Lemma INR_19 : INR (20 - 1) = 19.
Proof. simpl. lra. Qed.

Lemma index_bins (xs : list R) (k : nat) :
  (k < 20)%nat ->
  index (np_linspace (np_min xs) (np_max xs) 20) k = Returned (bin_edge xs k).
Proof.
  intros Hk. rewrite index_np_linspace by exact Hk. rewrite INR_19. reflexivity.
Qed.

Lemma fallback_focus_area_window (lats lons : list R) :
  let hist := fallback_hist lats lons in
  let padding := Rmin (np_max lats - np_min lats) (np_max lons - np_min lons) * 0.02 in
  exists p0 p1 m,
    np_unravel_index (np_argmax (ravel hist)) (19, 19)%nat = (p0, p1) /\
    (p0 < 19)%nat /\ (p1 < 19)%nat /\
    ravel hist !! np_argmax (ravel hist) = Some m /\
    (forall c, c ∈ ravel hist -> c <= m)%nat /\
    (forall j c, j < np_argmax (ravel hist) -> ravel hist !! j = Some c -> c < m)%nat /\
    fallback_focus_area lats lons =
      Returned (bin_edge lats (p0 - 1) - padding,
                bin_edge lons (p1 - 1) - padding,
                bin_edge lats (Nat.min 19 (p0 + 2)) + padding,
                bin_edge lons (Nat.min 19 (p1 + 2)) + padding).
Proof.
  intros hist padding.
  assert (Hlen : length (ravel hist) = 361%nat).
  { unfold hist, fallback_hist, fallback_bins.
    rewrite (length_ravel_uniform _ 19).
    - rewrite np_histogram2d_rows, length_np_linspace. reflexivity.
    - pose proof (np_histogram2d_cols lats lons
        (np_linspace (np_min lats) (np_max lats) 20)
        (np_linspace (np_min lons) (np_max lons) 20)) as Hc.
      rewrite length_np_linspace in Hc. exact Hc. }
  assert (Hne : ravel hist <> []).
  { intros E. rewrite E in Hlen. discriminate. }
  pose proof (np_argmax_lt _ Hne) as Hidx. rewrite Hlen in Hidx.
  destruct (np_argmax_max _ Hne) as [m [Hm Hmax]].
  set (idx := np_argmax (ravel hist)) in *.
  exists (idx / 19)%nat, (idx mod 19)%nat, m.
  assert (Hp0 : (idx / 19 < 19)%nat) by (apply Nat.Div0.div_lt_upper_bound; lia).
  assert (Hp1 : (idx mod 19 < 19)%nat) by (apply Nat.mod_upper_bound; lia).
  split; [reflexivity|]. split; [exact Hp0|]. split; [exact Hp1|].
  split; [exact Hm|]. split; [exact Hmax|].
  split; [intros j c Hj Hc; exact (np_argmax_first _ j c m Hm Hj Hc)|].
  unfold fallback_focus_area.
  change (fallback_bins lats lons) with
    (np_linspace (np_min lats) (np_max lats) 20, np_linspace (np_min lons) (np_max lons) 20).
  cbv zeta iota beta.
  change (np_histogram2d lats lons (np_linspace (np_min lats) (np_max lats) 20)
            (np_linspace (np_min lons) (np_max lons) 20)) with hist.
  rewrite (fallback_hist_shape lats lons : shape2 hist = _).
  fold idx. unfold np_unravel_index. cbn [fst snd].
  rewrite !length_np_linspace.
  change (3 / 2)%Z with 1%Z.
  replace (Z.to_nat (Z.max 0 (Z.of_nat (idx / 19) - 1))) with (idx / 19 - 1)%nat by lia.
  replace (Z.to_nat (Z.max 0 (Z.of_nat (idx mod 19) - 1))) with (idx mod 19 - 1)%nat by lia.
  replace (Z.to_nat (Z.min (Z.of_nat 20 - 1) (Z.of_nat (idx / 19) + 1 + 1)))
    with (Nat.min 19 (idx / 19 + 2)) by lia.
  replace (Z.to_nat (Z.min (Z.of_nat 20 - 1) (Z.of_nat (idx mod 19) + 1 + 1)))
    with (Nat.min 19 (idx mod 19 + 2)) by lia.
  rewrite !index_bins by lia.
  reflexivity.
Qed.

Section FocusTheorems.
Context `{Shapely} `{SciLibs}.

Lemma no_cluster_falls_back (businesses_df : BusinessFrame)
    (lats lons : list R) (labels : list Z) :
  (10 <= length (brows businesses_df))%nat ->
  numeric_col businesses_df "lat" b_lat = Returned lats ->
  numeric_col businesses_df "lon" b_lon = Returned lons ->
  DBSCAN_labels (Rmin (np_max lats - np_min lats) (np_max lons - np_min lons) * 0.01)
                10 (zip lats lons) = Returned labels ->
  (forall l, In l labels -> (l < 0)%Z) ->
  _auto_determine_focus_area businesses_df = fallback_focus_area lats lons.
Proof.
  intros Hlen Hlats Hlons Hdb Hneg.
  unfold _auto_determine_focus_area.
  destruct (Nat.ltb_spec (length (brows businesses_df)) 10) as [Hlt|_]; [lia|].
  rewrite Hlats, Hlons. rewrite !bind_Returned.
  cbv zeta. rewrite Hdb, bind_Returned.
  rewrite (no_cluster_labels labels Hneg). reflexivity.
Qed.

(** Claim C7, as the code has it.  When clustering labels every point as
    noise, the focus area comes from a histogram of 19 x 19 bins (20 edges
    on each axis): around the first bin of greatest count it runs from the
    edge one bin before to the edge two after, clipped to the edges 0 and
    19, and is padded by 2% of the smaller coordinate span. *)
Theorem histogram_fallback_focus_area (businesses_df : BusinessFrame)
    (lats lons : list R) (labels : list Z) :
  (10 <= length (brows businesses_df))%nat ->
  numeric_col businesses_df "lat" b_lat = Returned lats ->
  numeric_col businesses_df "lon" b_lon = Returned lons ->
  DBSCAN_labels (Rmin (np_max lats - np_min lats) (np_max lons - np_min lons) * 0.01)
                10 (zip lats lons) = Returned labels ->
  (forall l, In l labels -> (l < 0)%Z) ->
  let hist := fallback_hist lats lons in
  let padding := Rmin (np_max lats - np_min lats) (np_max lons - np_min lons) * 0.02 in
  shape2 hist = (19, 19)%nat /\
  exists p0 p1 m,
    np_unravel_index (np_argmax (ravel hist)) (19, 19)%nat = (p0, p1) /\
    (p0 < 19)%nat /\ (p1 < 19)%nat /\
    ravel hist !! np_argmax (ravel hist) = Some m /\
    (forall c, c ∈ ravel hist -> c <= m)%nat /\
    (forall j c, j < np_argmax (ravel hist) -> ravel hist !! j = Some c -> c < m)%nat /\
    _auto_determine_focus_area businesses_df =
      Returned (bin_edge lats (p0 - 1) - padding,
                bin_edge lons (p1 - 1) - padding,
                bin_edge lats (Nat.min 19 (p0 + 2)) + padding,
                bin_edge lons (Nat.min 19 (p1 + 2)) + padding).
Proof.
  intros Hlen Hlats Hlons Hdb Hneg hist padding.
  split; [apply fallback_hist_shape|].
  destruct (fallback_focus_area_window lats lons)
    as [p0 [p1 [m [Hp [Hp0 [Hp1 [Hm [Hmax [Hfirst Hf]]]]]]]]].
  exists p0, p1, m. repeat (split; [assumption|]).
  rewrite (no_cluster_falls_back _ lats lons labels) by assumption.
  exact Hf.
Qed.

End FocusTheorems.

(** * Examples on the fixtures *)

Import Fixtures.

(** ** The scorer *)

Ltac rdec :=
  repeat match goal with
  | |- context [Rlt_dec ?a ?b] => destruct (Rlt_dec a b); [try (exfalso; lra) | try (exfalso; lra)]
  | |- context [Rle_dec ?a ?b] => destruct (Rle_dec a b); [try (exfalso; lra) | try (exfalso; lra)]
  | |- context [Req_dec_T ?a ?b] => destruct (Req_dec_T a b); [try (exfalso; lra) | try (exfalso; lra)]
  end.

Lemma first_listing_inside :
  exists row, In row (rows one_bedroom_listings) /\
    contains (Shapely := rect_geometry) sample_downtown_boundary (lon row, lat row) = true.
Proof.
  eexists. split; [left; reflexivity|].
  unfold contains, rect_geometry, sample_downtown_boundary, Rltb; simpl.
  rdec. reflexivity.
Defined.

(** The scores of three listings of the test suite against three businesses
    are within bounds. *)
Lemma component_scores_bounded_witness :
  exists r,
    calculate_dmur (H := rect_geometry) DMUR.default_config (FromDataFrame one_bedroom_listings)
      sample_downtown_boundary sample_business_locations "Test City" = Returned r /\
    0 <= mxi_score (component_scores r) <= 1 /\
    0 <= balance_score (component_scores r) <= 1 /\
    0 <= density_score (component_scores r) <= 1 /\
    0 <= diversity_score (component_scores r) <= 1.
Proof.
  apply (component_scores_bounded (H := rect_geometry) DMUR.default_config
           (FromDataFrame one_bedroom_listings) one_bedroom_listings).
  - simpl. lra.
  - simpl. lra.
  - simpl. lra.
  - reflexivity.
  - reflexivity.
  - exact first_listing_inside.
Defined.

Lemma outside_listing_outside :
  forall row, In row (rows outside_listings) ->
    contains (Shapely := rect_geometry) sample_downtown_boundary (lon row, lat row) = false.
Proof.
  intros row [<-|[]].
  unfold contains, rect_geometry, sample_downtown_boundary, Rltb; simpl.
  rdec. reflexivity.
Defined.

(** A listing far outside the boundary gives the all-zero result. *)
Lemma no_listings_all_zero_witness :
  exists r,
    calculate_dmur (H := rect_geometry) DMUR.default_config (FromDataFrame outside_listings)
      sample_downtown_boundary sample_business_locations "Test City" = Returned r /\
    r = _empty_results DMUR.default_config "Test City" /\
    dmur_score r = 0 /\
    mxi_score (component_scores r) = 0 /\
    balance_score (component_scores r) = 0 /\
    density_score (component_scores r) = 0 /\
    diversity_score (component_scores r) = 0.
Proof.
  apply (no_listings_all_zero (H := rect_geometry) DMUR.default_config
           (FromDataFrame outside_listings) outside_listings).
  - reflexivity.
  - reflexivity.
  - exact outside_listing_outside.
Defined.

(** Three one-bedroom listings: diversity 0, from the special case. *)
Lemma single_bedroom_count_diversity_zero_witness :
  value_counts (map bedrooms (rows one_bedroom_listings)) = [(1%Z, 3%nat)] /\
  Nat.leb (length (value_counts (map bedrooms (rows one_bedroom_listings)))) 1 = true /\
  _calculate_diversity_score one_bedroom_listings = 0.
Proof.
  apply (single_bedroom_count_diversity_zero one_bedroom_listings 1%Z).
  - discriminate.
  - intros row [<-|[<-|[<-|[]]]]; reflexivity.
Defined.

(** The same listings against no business at all. *)
Lemma no_businesses_zero_scores_witness :
  exists r,
    calculate_dmur (H := rect_geometry) DMUR.default_config (FromDataFrame one_bedroom_listings)
      sample_downtown_boundary [] "Test City" = Returned r /\
    balance_score (component_scores r) = 0 /\
    mxi_score (component_scores r) = 0.
Proof.
  apply (no_businesses_zero_scores (H := rect_geometry) DMUR.default_config
           (FromDataFrame one_bedroom_listings) one_bedroom_listings).
  - reflexivity.
  - reflexivity.
  - exact first_listing_inside.
Defined.

(** ** The analyzer *)

Lemma Rleb_refl (x : R) : Rleb x x = true.
Proof. apply Rleb_true_iff. lra. Qed.

Lemma not_get_truthy_num (business : gmap string PyVal) (k : string) (r : R) :
  business !! k = Some (PyNum r) -> r <> 0 -> not_get business k = false.
Proof.
  intros Hk Hr. unfold not_get. rewrite Hk. simpl.
  destruct (Req_dec_T r 0); [contradiction|reflexivity].
Qed.

Lemma test_restaurant_located :
  not_get test_restaurant "lat" = false /\ not_get test_restaurant "lon" = false.
Proof.
  split.
  - apply (not_get_truthy_num _ _ 40.05); [reflexivity|lra].
  - apply (not_get_truthy_num _ _ (-73.95)); [reflexivity|lra].
Qed.

Lemma load_test_restaurant :
  load_loop Analyzer.default_config [test_restaurant] [] = Returned [test_restaurant_row].
Proof.
  destruct test_restaurant_located as [Hlat Hlon].
  cbn [load_loop]. rewrite Hlat, Hlon. cbn [orb].
  change (_is_commercial_business test_restaurant) with true.
  cbn [commercial_only Analyzer.default_config andb negb].
  change (business_row test_restaurant) with (Returned test_restaurant_row).
  reflexivity.
Qed.

Lemma load_insufficient_data (self : Analyzer (H := rect_geometry)) :
  config self = Analyzer.default_config ->
  _load_business_data (H := rect_geometry) (H0 := small_scilibs) self insufficient_data =
    Returned (set_businesses_df self (pd_DataFrame [test_restaurant_row])).
Proof.
  intros Hcfg. unfold _load_business_data. rewrite Hcfg.
  cbn [insufficient_data data_businesses default from_option Datatypes.id].
  rewrite load_test_restaurant, bind_Returned.
  cbn [Analyzer.default_config focus_area auto_focus pd_DataFrame].
  unfold _auto_determine_focus_area. cbn [brows length Nat.ltb Nat.leb].
  unfold numeric_col, getcol. cbn [bcolumns brows map].
  change (bool_decide ("lat" ∈ ["id"; "lat"; "lon"; "name"; "type"; "subtype"])) with true.
  change (bool_decide ("lon" ∈ ["id"; "lat"; "lon"; "name"; "type"; "subtype"])) with true.
  cbn [mbind Outcome_bind for_each as_num b_lat b_lon test_restaurant_row
       np_min np_max fold_left].
  unfold _apply_focus_area, numeric_col, getcol. cbn [bcolumns brows map].
  change (bool_decide ("lat" ∈ ["id"; "lat"; "lon"; "name"; "type"; "subtype"])) with true.
  change (bool_decide ("lon" ∈ ["id"; "lat"; "lon"; "name"; "type"; "subtype"])) with true.
  cbn [mbind Outcome_bind for_each as_num b_lat b_lon test_restaurant_row zip_with].
  rewrite !Rleb_refl.
  reflexivity.
Qed.

(** ** Too few businesses *)

(** The one-restaurant document of [test_analyze_insufficient_data]. *)
Lemma insufficient_data_raises_ValueError_witness :
  analyze (H := rect_geometry) (H0 := small_scilibs) (__init__ None) insufficient_data None =
    Raised (ValueError (insufficient_message 1)) /\
  exn_class (ValueError (insufficient_message 1)) = "ValueError".
Proof.
  apply (insufficient_data_raises_ValueError (H := rect_geometry) (H0 := small_scilibs)
           (__init__ None)
           (set_businesses_df (set_city_name (__init__ None) "Test City")
                              (pd_DataFrame [test_restaurant_row]))
           insufficient_data None (pd_DataFrame [test_restaurant_row])).
  - apply load_insufficient_data. reflexivity.
  - reflexivity.
  - simpl. lia.
Defined.

(** On that document the analysis raises [ValueError], whose class is not
    an [InsufficientDataError]. *)
Lemma insufficient_data_not_distinct_error :
  analyze (H := rect_geometry) (H0 := small_scilibs) (__init__ None) insufficient_data None =
    Raised (ValueError "Insufficient business data: 1 businesses found") /\
  exn_class (ValueError "Insufficient business data: 1 businesses found")
    <> "InsufficientDataError".
Proof.
  split; [|discriminate].
  apply (analyze_insufficient (H := rect_geometry) (H0 := small_scilibs)
           (__init__ None)
           (set_businesses_df (set_city_name (__init__ None) "Test City")
                              (pd_DataFrame [test_restaurant_row]))
           insufficient_data None (pd_DataFrame [test_restaurant_row])).
  - apply load_insufficient_data. reflexivity.
  - reflexivity.
  - simpl. lia.
Qed.

(** ** A record without a name *)

Lemma nameless_shop_located :
  not_get nameless_shop "lat" = false /\ not_get nameless_shop "lon" = false.
Proof.
  split.
  - apply (not_get_truthy_num _ _ 40.051); [reflexivity|lra].
  - apply (not_get_truthy_num _ _ (-73.951)); [reflexivity|lra].
Qed.

(** A shop without a name makes the load raise [KeyError: 'name']. *)
Lemma missing_field_raises_KeyError_witness :
  _load_business_data (H := rect_geometry) (H0 := small_scilibs) (__init__ None) nameless_data =
    Raised (KeyError "name") /\
  exn_class (KeyError "name") = "KeyError".
Proof.
  apply (missing_field_raises_KeyError (H := rect_geometry) (H0 := small_scilibs)
           (__init__ None) (Some "Test City") [] [] nameless_shop [] "name").
  - reflexivity.
  - apply nameless_shop_located.
  - apply nameless_shop_located.
  - intros _. reflexivity.
  - reflexivity.
Defined.

(** The malformed record is not rejected by a [MissingFieldError]: the load
    stops on the [KeyError] of the subscription. *)
Lemma nameless_record_not_MissingFieldError :
  _load_business_data (H := rect_geometry) (H0 := small_scilibs) (__init__ None) nameless_data =
    Raised (KeyError "name") /\
  exn_class (KeyError "name") <> "MissingFieldError".
Proof.
  split; [|discriminate].
  unfold _load_business_data.
  cbn [nameless_data data_businesses default from_option Datatypes.id].
  rewrite (load_loop_missing _ [] [] nameless_shop [] "name");
    [reflexivity|reflexivity|apply nameless_shop_located|apply nameless_shop_located| |reflexivity].
  intros _. reflexivity.
Qed.

(** ** A record on the equator *)

(** A restaurant at latitude 0 leaves no trace in the load. *)
Lemma unlocated_record_excluded_witness :
  _load_business_data (H := rect_geometry) (H0 := small_scilibs) (__init__ None)
    {| data_city := Some "Test City";
       data_businesses := Some [equator_restaurant; test_restaurant] |} =
  _load_business_data (H := rect_geometry) (H0 := small_scilibs) (__init__ None)
    {| data_city := Some "Test City"; data_businesses := Some [test_restaurant] |}.
Proof.
  apply (unlocated_record_excluded (H := rect_geometry) (H0 := small_scilibs)
           (__init__ None) (Some "Test City") [] [test_restaurant] equator_restaurant).
  left. right. right. reflexivity.
Defined.

(** ** Percentiles 70 and 90 of the sample grid *)

(** Lowering the percentile from 90 to 70 on the grid of the test suite. *)
Lemma percentile_relaxation_monotone_witness :
  exists high1 high2,
    select_high_density sample_density_grid sample_density_coords 70 = Returned high1 /\
    select_high_density sample_density_grid sample_density_coords 90 = Returned high2 /\
    (length high2.1 <= length high1.1)%nat /\
    (length high2.2 <= length high1.2)%nat.
Proof.
  apply (percentile_relaxation_monotone sample_density_grid sample_density_coords 70 90); lra.
Defined.

(** ** The 3-4-5 triangle and alpha = 5 *)

Lemma sqrt_of_square (x y : R) : 0 <= y -> y * y = x -> sqrt x = y.
Proof. intros Hy Hx. apply sqrt_lem_1; [rewrite <- Hx; nra|exact Hy|exact Hx]. Qed.

Lemma right_triangle_edges : edge_lengths right_triangle = [3; 5; 4].
Proof.
  unfold edge_lengths, right_triangle, euclidean. cbn [seq map nth Nat.add Nat.modulo Nat.divmod fst snd].
  repeat f_equal; apply sqrt_of_square; simpl; lra.
Qed.

Lemma right_triangle_longest : np_max (edge_lengths right_triangle) = 5.
Proof.
  rewrite right_triangle_edges. cbn [np_max fold_left].
  unfold Rmax. repeat (destruct (Rle_dec _ _); try lra).
Qed.

Lemma right_triangle_resolved :
  for_each (triangle_of (zip [0; 3; 0] [0; 0; 4])) [(0, 1, 2)%nat] = Returned [right_triangle].
Proof. reflexivity. Qed.

(** The triangle under the default [alpha]. *)
Lemma alpha_shape_boundary_witness :
  let self := __init__ (H := rect_geometry) None in
  let kept := List.filter (alpha_test (alpha (config self))) [right_triangle] in
  (forall t, In t kept <->
             In t [right_triangle] /\ np_max (edge_lengths t) < alpha (config self)) /\
  (kept <> [] ->
   _create_downtown_boundary (H0 := small_scilibs) self [0; 0; 4] [0; 3; 0] =
     Returned (set_downtown_boundary self
       (apply_buffer (buffer_distance (config self))
                     (unary_union (map Polygon kept))))) /\
  (kept = [] ->
   _create_downtown_boundary (H0 := small_scilibs) self [0; 0; 4] [0; 3; 0] =
     (hull ← convex_hull (H0 := small_scilibs) [0; 0; 4] [0; 3; 0];
      Returned (set_downtown_boundary self
        (apply_buffer (buffer_distance (config self)) hull)))).
Proof.
  apply (alpha_shape_boundary (H := rect_geometry) (H0 := small_scilibs)
           (__init__ None) [0; 0; 4] [0; 3; 0] [(0, 1, 2)%nat] [right_triangle]).
  - reflexivity.
  - exact right_triangle_resolved.
Defined.

(** With [alpha = 5] the longest edge of the only triangle equals [alpha]
    and does not exceed it, yet the triangle is discarded and the alpha
    shape gives up. *)
Lemma edge_equal_to_alpha_discarded :
  Delaunay_simplices (SciLibs := small_scilibs) (zip [0; 3; 0] [0; 0; 4]) =
    Returned [(0, 1, 2)%nat] /\
  np_max (edge_lengths right_triangle) = 5 /\
  ~ (np_max (edge_lengths right_triangle) > 5) /\
  alpha_loop 5 (zip [0; 3; 0] [0; 0; 4]) [(0, 1, 2)%nat] [] = Returned [] /\
  alpha_shape (H := rect_geometry) (H0 := small_scilibs) 5 [0; 0; 4] [0; 3; 0] =
    Raised (ValueError "No triangles passed alpha test").
Proof.
  assert (Htest : alpha_test 5 right_triangle = false).
  { unfold alpha_test. rewrite right_triangle_longest. unfold Rltb.
    destruct (Rlt_dec 5 5); [lra|reflexivity]. }
  assert (Hloop : alpha_loop 5 (zip [0; 3; 0] [0; 0; 4]) [(0, 1, 2)%nat] [] = Returned []).
  { rewrite (alpha_loop_filter _ _ _ [] [right_triangle] right_triangle_resolved).
    cbn [List.filter]. rewrite Htest. reflexivity. }
  split; [reflexivity|]. split; [exact right_triangle_longest|].
  split; [rewrite right_triangle_longest; lra|]. split; [exact Hloop|].
  unfold alpha_shape.
  change (Delaunay_simplices (SciLibs := small_scilibs) (zip [0; 3; 0] [0; 0; 4]))
    with (Returned (A := list (nat * nat * nat)) [(0, 1, 2)%nat]).
  rewrite bind_Returned, Hloop. reflexivity.
Qed.

(** ** Ten spread businesses: no cluster *)

Lemma spread_lats_numeric :
  numeric_col spread_businesses "lat" b_lat = Returned spread_lats.
Proof. reflexivity. Qed.

Lemma spread_lons_numeric :
  numeric_col spread_businesses "lon" b_lon = Returned spread_lons.
Proof. reflexivity. Qed.

Lemma noise_labels_negative (coords : list (R * R)) :
  forall l, In l (map (fun _ : R * R => (-1)%Z) coords) -> (l < 0)%Z.
Proof. intros l Hl. apply in_map_iff in Hl. destruct Hl as [_ [<- _]]. lia. Qed.

(** Ten businesses that DBSCAN leaves unclustered. *)
Lemma histogram_fallback_focus_area_witness :
  let hist := fallback_hist spread_lats spread_lons in
  let padding :=
    Rmin (np_max spread_lats - np_min spread_lats)
         (np_max spread_lons - np_min spread_lons) * 0.02 in
  shape2 hist = (19, 19)%nat /\
  exists p0 p1 m,
    np_unravel_index (np_argmax (ravel hist)) (19, 19)%nat = (p0, p1) /\
    (p0 < 19)%nat /\ (p1 < 19)%nat /\
    ravel hist !! np_argmax (ravel hist) = Some m /\
    (forall c, c ∈ ravel hist -> c <= m)%nat /\
    (forall j c, j < np_argmax (ravel hist) -> ravel hist !! j = Some c -> c < m)%nat /\
    _auto_determine_focus_area (H0 := small_scilibs) spread_businesses =
      Returned (bin_edge spread_lats (p0 - 1) - padding,
                bin_edge spread_lons (p1 - 1) - padding,
                bin_edge spread_lats (Nat.min 19 (p0 + 2)) + padding,
                bin_edge spread_lons (Nat.min 19 (p1 + 2)) + padding).
Proof.
  apply (histogram_fallback_focus_area (H0 := small_scilibs) spread_businesses
           spread_lats spread_lons
           (map (fun _ => (-1)%Z) (zip spread_lats spread_lons))).
  - simpl. lia.
  - exact spread_lats_numeric.
  - exact spread_lons_numeric.
  - reflexivity.
  - apply noise_labels_negative.
Defined.

(** For them the fallback histogram is the one used, and it has 19 x 19
    bins, not 20 x 20. *)
Lemma fallback_histogram_has_19_bins :
  _auto_determine_focus_area (H0 := small_scilibs) spread_businesses =
    fallback_focus_area spread_lats spread_lons /\
  shape2 (fallback_hist spread_lats spread_lons) = (19, 19)%nat /\
  shape2 (fallback_hist spread_lats spread_lons) <> (20, 20)%nat.
Proof.
  split; [|split].
  - apply (no_cluster_falls_back (H0 := small_scilibs) spread_businesses
             spread_lats spread_lons
             (map (fun _ => (-1)%Z) (zip spread_lats spread_lons))).
    + simpl. lia.
    + exact spread_lats_numeric.
    + exact spread_lons_numeric.
    + reflexivity.
    + apply noise_labels_negative.
  - apply fallback_hist_shape.
  - rewrite fallback_hist_shape. discriminate.
Qed.

(** * Further properties of the scorer *)

Lemma fold_left_Rmin_le (l : list R) (x : R) :
  fold_left Rmin l x <= x /\ Forall (fun y => fold_left Rmin l x <= y) l.
Proof.
  revert x. induction l as [|y l IH]; intros x; simpl; [split; [lra|constructor]|].
  destruct (IH (Rmin x y)) as [H1 H2].
  pose proof (Rmin_l x y). pose proof (Rmin_r x y).
  split; [lra|]. constructor; [lra|exact H2].
Qed.

Lemma fold_left_Rmin_ge (l : list R) (x t : R) :
  t <= x -> Forall (fun y => t <= y) l -> t <= fold_left Rmin l x.
Proof.
  intros Hx Hl. revert x Hx.
  induction Hl as [|y l Hy _ IH]; intros x Hx; simpl; [exact Hx|].
  apply IH. apply Rmin_glb; assumption.
Qed.

Lemma np_min_le (l : list R) (y : R) : In y l -> np_min l <= y.
Proof.
  destruct l as [|x l]; [intros []|]. simpl.
  destruct (fold_left_Rmin_le l x) as [H1 H2].
  intros [<-|Hy]; [exact H1|].
  rewrite Forall_forall in H2. apply H2, list_elem_of_In, Hy.
Qed.

Lemma np_min_ge (l : list R) (t : R) :
  l <> [] -> Forall (fun y => t <= y) l -> t <= np_min l.
Proof.
  destruct l as [|x l]; [congruence|]. intros _ Hl. simpl.
  inversion Hl; subst. apply fold_left_Rmin_ge; assumption.
Qed.

Lemma np_sum_ge (l : list R) (t : R) :
  Forall (fun y => t <= y) l -> INR (length l) * t <= np_sum l.
Proof.
  induction 1 as [|x l Hx _ IH]; [simpl; unfold np_sum; simpl; lra|].
  change (length (x :: l)) with (S (length l)). rewrite S_INR.
  unfold np_sum in *. simpl. lra.
Qed.

Lemma np_mean_ge (l : list R) (t : R) :
  l <> [] -> Forall (fun y => t <= y) l -> t <= np_mean l.
Proof.
  intros Hne Hl. unfold np_mean.
  assert (Hn : 0 < INR (length l)).
  { destruct l; [congruence|]. apply lt_0_INR. simpl. lia. }
  pose proof (np_sum_ge l t Hl) as Hs.
  apply Rmult_le_reg_r with (INR (length l)); [exact Hn|].
  unfold Rdiv. rewrite Rmult_assoc, Rinv_l, Rmult_1_r by lra. lra.
Qed.

Lemma np_mean_zeros (l : list R) : Forall (fun y => y = 0) l -> np_mean l = 0.
Proof.
  intros Hl. unfold np_mean.
  assert (Hs : np_sum l = 0).
  { induction Hl as [|x l Hx _ IH]; [reflexivity|]. unfold np_sum in *. simpl. lra. }
  rewrite Hs. unfold Rdiv. apply Rmult_0_l.
Qed.

Lemma euclidean_self (a : R * R) : euclidean a a = 0.
Proof.
  unfold euclidean. replace ((a.1 - a.1) ^ 2 + (a.2 - a.2) ^ 2) with 0 by (simpl; lra).
  apply sqrt_0.
Qed.

Section ScorerExtras.
Context `{Shapely}.
Variable cfg : DMURConfig.


(** Property X1.  With non-negative weights that sum to at most 1 and positive normalising
    constants, the scorer returns a result whose DMUR score lies in [0, 1],
    for every boundary and every set of businesses. *)
Theorem dmur_score_bounded (data : ListingsData) (df : DataFrame)
    (boundary : Geometry) (business_locations : list (R * R)) (name : string) :
  0 <= mxi_weight cfg -> 0 <= balance_weight cfg ->
  0 <= density_weight cfg -> 0 <= diversity_weight cfg ->
  mxi_weight cfg + balance_weight cfg + density_weight cfg + diversity_weight cfg <= 1 ->
  0 < max_distance_threshold cfg ->
  0 < optimal_residential_ratio cfg ->
  0 < urban_density_benchmark cfg ->
  _load_listings_data data = Returned df ->
  missing_cols df = [] ->
  exists r,
    calculate_dmur cfg data boundary business_locations name = Returned r /\
    0 <= dmur_score r <= 1.
Proof.
  intros Hw1 Hw2 Hw3 Hw4 Hsum Hthr Hopt Hbench Hload Hcols.
  unfold calculate_dmur. rewrite Hload, bind_Returned.
  rewrite (filter_downtown_ok _ _ Hcols), bind_Returned.
  set (dl := {| columns := columns df; rows := List.filter _ (rows df) |}).
  destruct (Nat.eqb (length (rows dl)) 0) eqn:Hlen.
  { eexists. split; [reflexivity|]. simpl. lra. }
  assert (Hne : rows dl <> []).
  { intros E. rewrite E in Hlen. discriminate. }
  eexists. split; [reflexivity|]. cbn [dmur_score].
  apply py_round_unit.
  pose proof (mxi_score_bounded cfg dl business_locations Hthr Hne) as Hm.
  pose proof (balance_score_bounded cfg dl business_locations) as Hb.
  pose proof (density_score_bounded cfg dl boundary Hbench) as Hd.
  pose proof (diversity_score_bounded dl) as Hv.
  split; [|nra].
  repeat apply Rplus_le_le_0_compat; apply Rmult_le_pos; tauto.
Qed.


(** Property X2.  A listings table that lacks a required column makes the scorer raise
    [ValueError] with the message that lists the missing required columns,
    the given one among them. *)
Theorem missing_column_raises_ValueError (data : ListingsData) (df : DataFrame)
    (boundary : Geometry) (business_locations : list (R * R)) (name col : string) :
  _load_listings_data data = Returned df ->
  col ∈ required_cols -> col ∉ columns df ->
  calculate_dmur cfg data boundary business_locations name =
    Raised (ValueError ("Missing required columns: " ++ py_repr_list (missing_cols df))) /\
  col ∈ missing_cols df.
Proof.
  intros Hload Hreq Hmiss.
  assert (Hin : col ∈ missing_cols df).
  { unfold missing_cols. apply list_elem_of_filter. split; assumption. }
  split; [|exact Hin].
  unfold calculate_dmur. rewrite Hload, bind_Returned.
  unfold _filter_downtown_listings.
  destruct (missing_cols df) as [|c cs]; [inversion Hin|reflexivity].
Qed.

(** Property X3.  When every listing sits on a business, the average distance to the
    nearest business is 0 and the MXI score is 1. *)
Theorem mxi_one_when_colocated (listings_df : DataFrame) (business_locations : list (R * R)) :
  max_distance_threshold cfg <> 0 ->
  rows listings_df <> [] ->
  (forall row, In row (rows listings_df) -> In (lat row, lon row) business_locations) ->
  _calculate_mxi_score cfg listings_df business_locations = 1.
Proof.
  intros Hthr Hne Hco. unfold _calculate_mxi_score.
  destruct business_locations as [|b bs] eqn:Eb.
  { destruct (rows listings_df) as [|r rs]; [congruence|]. destruct (Hco r (or_introl eq_refl)). }
  rewrite <- Eb in *. replace (Nat.eqb (length business_locations) 0) with false by (rewrite Eb; reflexivity).
  cbv zeta.
  rewrite np_mean_zeros.
  - unfold Rdiv. rewrite Rmult_0_l, Rminus_0_r. apply Rmax_right. lra.
  - unfold cdist, listing_coords. rewrite !Forall_map. apply Forall_forall.
    intros row Hrow. apply list_elem_of_In in Hrow. cbn beta.
    apply Rle_antisym.
    + rewrite <- (euclidean_self (lat row, lon row)).
      apply np_min_le. apply in_map. apply Hco, Hrow.
    + apply np_min_nonneg. rewrite Forall_map. apply Forall_forall. intros p _.
      apply euclidean_nonneg.
Qed.

(** Property X4.  When every listing is at least the distance threshold away from every
    business, the MXI score is 0. *)
Theorem mxi_zero_when_far (listings_df : DataFrame) (business_locations : list (R * R)) :
  0 < max_distance_threshold cfg ->
  rows listings_df <> [] ->
  (forall row b, In row (rows listings_df) -> In b business_locations ->
     max_distance_threshold cfg <= euclidean (lat row, lon row) b) ->
  _calculate_mxi_score cfg listings_df business_locations = 0.
Proof.
  intros Hthr Hne Hfar. unfold _calculate_mxi_score.
  destruct business_locations as [|b bs] eqn:Eb; [reflexivity|].
  rewrite <- Eb in *. replace (Nat.eqb (length business_locations) 0) with false by (rewrite Eb; reflexivity).
  cbv zeta.
  set (avg := np_mean _).
  assert (Havg : max_distance_threshold cfg <= avg).
  { apply np_mean_ge.
    - unfold cdist, listing_coords. destruct (rows listings_df); [congruence|discriminate].
    - unfold cdist, listing_coords. rewrite !Forall_map. apply Forall_forall.
      intros row Hrow. apply list_elem_of_In in Hrow. cbn beta.
      apply np_min_ge; [rewrite Eb; discriminate|].
      rewrite Forall_map. apply Forall_forall. intros p Hp.
      apply Hfar; [exact Hrow|apply list_elem_of_In, Hp]. }
  apply Rmax_left.
  assert (1 <= avg / max_distance_threshold cfg).
  { apply Rmult_le_reg_r with (max_distance_threshold cfg); [exact Hthr|].
    unfold Rdiv. rewrite Rmult_assoc, Rinv_l, Rmult_1_r by lra. lra. }
  lra.
Qed.

End ScorerExtras.

Lemma ln_le_iff (x y : R) : 0 < x -> 0 < y -> (ln x <= ln y <-> x <= y).
Proof.
  intros Hx Hy. split; intros Hle.
  - destruct (Rle_dec x y) as [|Hn]; [assumption|].
    apply Rnot_le_lt in Hn. pose proof (ln_increasing y x Hy Hn). lra.
  - destruct Hle as [Hlt| ->]; [|lra]. pose proof (ln_increasing x y Hx Hlt). lra.
Qed.

Lemma ln10_pos : 0 < ln 10.
Proof. rewrite <- ln_1. apply ln_increasing; lra. Qed.

Lemma log10_eq_0 (x : R) : 0 < x -> (log10 x = 0 <-> x = 1).
Proof.
  intros Hx. unfold log10. pose proof ln10_pos as H10. split.
  - intros Hl. apply ln_inv; [exact Hx|lra|]. rewrite ln_1.
    apply Rmult_eq_reg_r with (/ ln 10); [|apply Rinv_neq_0_compat; lra].
    unfold Rdiv in Hl. lra.
  - intros ->. rewrite ln_1. unfold Rdiv. apply Rmult_0_l.
Qed.

Lemma log10_ge_1 (x : R) : 0 < x -> (1 <= log10 x <-> 10 <= x).
Proof.
  intros Hx. unfold log10. pose proof ln10_pos as H10.
  rewrite <- (ln_le_iff 10 x) by lra.
  split; intros Hl.
  - apply Rmult_le_compat_r with (r := ln 10) in Hl; [|lra].
    unfold Rdiv in Hl. rewrite Rmult_assoc, Rinv_l, Rmult_1_r in Hl by lra. lra.
  - apply Rmult_le_reg_r with (ln 10); [exact H10|].
    unfold Rdiv. rewrite Rmult_assoc, Rinv_l, Rmult_1_r by lra. lra.
Qed.

Lemma log10_le_m1 (x : R) : 0 < x -> (log10 x <= -1 <-> x <= / 10).
Proof.
  intros Hx. unfold log10. pose proof ln10_pos as H10.
  assert (H10' : 0 < / 10) by (apply Rinv_0_lt_compat; lra).
  rewrite <- (ln_le_iff x (/ 10)) by assumption.
  rewrite ln_Rinv by lra.
  split; intros Hl.
  - apply Rmult_le_compat_r with (r := ln 10) in Hl; [|lra].
    unfold Rdiv in Hl. rewrite Rmult_assoc, Rinv_l, Rmult_1_r in Hl by lra. lra.
  - apply Rmult_le_reg_r with (ln 10); [exact H10|].
    unfold Rdiv. rewrite Rmult_assoc, Rinv_l, Rmult_1_r by lra. lra.
Qed.

Section BalanceExtras.
Context `{Shapely}.
Variable cfg : DMURConfig.

(** Property X5.  The balance score is 1 exactly at the optimal ratio of listings to
    businesses, and 0 exactly when the ratio is off by a factor of 10 or
    more, in either direction. *)
Theorem balance_score_extremes (listings_df : DataFrame) (business_locations : list (R * R)) :
  0 < optimal_residential_ratio cfg ->
  rows listings_df <> [] ->
  business_locations <> [] ->
  let residential_count := INR (length (rows listings_df)) in
  let business_count := INR (length business_locations) in
  let optimal := optimal_residential_ratio cfg * business_count in
  (_calculate_balance_score cfg listings_df business_locations = 1 <->
   residential_count = optimal) /\
  (_calculate_balance_score cfg listings_df business_locations = 0 <->
   10 * optimal <= residential_count \/ 10 * residential_count <= optimal).
Proof.
  intros Hopt Hrows Hbiz n m optimal.
  assert (Hn : 0 < n).
  { unfold n. destruct (rows listings_df); [congruence|]. apply lt_0_INR. simpl. lia. }
  assert (Hm : 0 < m).
  { unfold m. destruct business_locations; [congruence|]. apply lt_0_INR. simpl. lia. }
  unfold _calculate_balance_score.
  replace (Nat.eqb (length business_locations) 0) with false
    by (destruct business_locations; [congruence|reflexivity]).
  cbv zeta. fold n. fold m.
  set (x := n / m / optimal_residential_ratio cfg).
  assert (Hd : 0 < optimal) by (unfold optimal; apply Rmult_lt_0_compat; assumption).
  assert (Hx : x = n / optimal).
  { unfold x, optimal. field. split; lra. }
  assert (Hxpos : 0 < x).
  { rewrite Hx. apply Rmult_lt_0_compat; [exact Hn|apply Rinv_0_lt_compat, Hd]. }
  pose proof (Rabs_pos (log10 x)) as Habs.
  split.
  - split.
    + intros Hs.
      assert (Ha : Rabs (log10 x) = 0).
      { unfold Rmax in Hs. destruct (Rle_dec 0 (1 - Rabs (log10 x))); lra. }
      assert (Hl : log10 x = 0).
      { destruct (Req_dec (log10 x) 0) as [|Hne]; [assumption|].
        apply Rabs_no_R0 in Hne. contradiction. }
      apply log10_eq_0 in Hl; [|exact Hxpos].
      rewrite Hx in Hl.
      apply Rmult_eq_compat_r with (r := optimal) in Hl.
      unfold Rdiv in Hl. rewrite Rmult_assoc, Rinv_l, Rmult_1_r in Hl by lra. lra.
    + intros Hs.
      assert (Hx1 : x = 1).
      { rewrite Hx, Hs. unfold Rdiv. apply Rinv_r. lra. }
      rewrite Hx1. replace (log10 1) with 0 by (symmetry; apply log10_eq_0; lra).
      rewrite Rabs_R0, Rminus_0_r. apply Rmax_right. lra.
  - assert (Hge : 10 <= x <-> 10 * optimal <= n).
    { rewrite Hx. split; intros Hl.
      - apply Rmult_le_compat_r with (r := optimal) in Hl; [|lra].
        unfold Rdiv in Hl. rewrite Rmult_assoc, Rinv_l, Rmult_1_r in Hl by lra. lra.
      - apply Rmult_le_reg_r with optimal; [exact Hd|].
        unfold Rdiv. rewrite Rmult_assoc, Rinv_l, Rmult_1_r by lra. lra. }
    assert (Hle : x <= / 10 <-> 10 * n <= optimal).
    { rewrite Hx. split; intros Hl.
      - apply Rmult_le_compat_r with (r := optimal) in Hl; [|lra].
        unfold Rdiv in Hl. rewrite Rmult_assoc, Rinv_l, Rmult_1_r in Hl by lra. lra.
      - apply Rmult_le_reg_r with optimal; [exact Hd|].
        unfold Rdiv. rewrite Rmult_assoc, Rinv_l, Rmult_1_r by lra. lra. }
    rewrite <- Hge, <- Hle, <- log10_ge_1, <- log10_le_m1 by assumption.
    split.
    + intros Hs.
      assert (Ha : 1 <= Rabs (log10 x)).
      { unfold Rmax in Hs. destruct (Rle_dec 0 (1 - Rabs (log10 x))); lra. }
      unfold Rabs in Ha. destruct (Rcase_abs (log10 x)); [right|left]; lra.
    + intros Hs. apply Rmax_left.
      unfold Rabs. destruct (Rcase_abs (log10 x)); destruct Hs; lra.
Qed.

End BalanceExtras.

Lemma np_sum_neg (l : list R) :
  Forall (fun x => x <= 0) l -> (exists x, In x l /\ x < 0) -> np_sum l < 0.
Proof.
  intros Hl [x [Hin Hx]]. induction Hl as [|y l Hy Hl IH]; [destruct Hin|].
  unfold np_sum in *. simpl. pose proof (np_sum_nonpos l Hl) as Hs. unfold np_sum in Hs.
  destruct Hin as [->|Hin]; [lra|]. specialize (IH Hin). lra.
Qed.

Lemma count_occ_lt_length (l : list Z) (v y : Z) :
  In y l -> y <> v -> (count_occ Z.eq_dec l v < length l)%nat.
Proof.
  induction l as [|x l IH]; intros Hin Hne; [destruct Hin|]. simpl.
  pose proof (count_occ_le_length l v).
  destruct (Z.eq_dec x v) as [->|Hxv].
  - destruct Hin as [Hy|Hin]; [congruence|]. specialize (IH Hin Hne). lia.
  - lia.
Qed.

Lemma xlnx_neg (p : R) : 0 < p < 1 -> p * ln p < 0.
Proof.
  intros [Hp0 Hp1].
  assert (ln p < 0) by (rewrite <- ln_1; apply ln_increasing; lra).
  nra.
Qed.

Lemma two_distinct_length {A} (l : list A) (x y : A) :
  In x l -> In y l -> x <> y -> (2 <= length l)%nat.
Proof.
  destruct l as [|a [|b l]]; simpl; intros Hx Hy Hne.
  - destruct Hx.
  - destruct Hx as [<-|[]], Hy as [<-|[]]. congruence.
  - lia.
Qed.

Lemma filter_all_true {A} (f : A -> bool) (l : list A) :
  (forall x, In x l -> f x = true) -> List.filter f l = l.
Proof.
  induction l as [|x l IH]; intros Hall; [reflexivity|]. simpl.
  rewrite (Hall x) by (left; reflexivity). f_equal. apply IH.
  intros y Hy. apply Hall. right. exact Hy.
Qed.

Lemma length_value_counts (l : list Z) :
  length (value_counts l) = length (nodup Z.eq_dec l).
Proof. unfold value_counts. apply length_map. Qed.

Lemma filter_elem_of_nil (l : list Z) :
  List.filter (fun x => bool_decide (x ∈ @nil Z)) l = [].
Proof.
  induction l as [|x l IH]; [reflexivity|]. cbn [List.filter].
  rewrite bool_decide_eq_false_2; [exact IH|]. apply not_elem_of_nil.
Qed.

Lemma filter_elem_of_cons (l u : list Z) (a : Z) :
  a ∉ u ->
  length (List.filter (fun x => bool_decide (x ∈ a :: u)) l) =
  (count_occ Z.eq_dec l a + length (List.filter (fun x => bool_decide (x ∈ u)) l))%nat.
Proof.
  intros Ha. induction l as [|x l IH]; [reflexivity|]. cbn [List.filter count_occ].
  destruct (Z.eq_dec x a) as [->|Hxa].
  - rewrite bool_decide_eq_true_2 by (left).
    rewrite (bool_decide_eq_false_2 (a ∈ u)) by exact Ha. simpl. lia.
  - destruct (decide (x ∈ u)) as [Hin|Hnin].
    + rewrite !bool_decide_eq_true_2; [simpl; lia|exact Hin|right; exact Hin].
    + rewrite !bool_decide_eq_false_2; [exact IH|exact Hnin|].
      intros Hc. apply elem_of_cons in Hc. destruct Hc; [congruence|contradiction].
Qed.

Lemma count_sum_nodup (l u : list Z) :
  NoDup u ->
  list_sum (map (count_occ Z.eq_dec l) u) =
  length (List.filter (fun x => bool_decide (x ∈ u)) l).
Proof.
  induction 1 as [|a u Ha Hu IH].
  - rewrite filter_elem_of_nil. reflexivity.
  - simpl. rewrite IH. symmetry. apply filter_elem_of_cons. exact Ha.
Qed.

Lemma value_counts_sum (l : list Z) :
  list_sum (map snd (value_counts l)) = length l.
Proof.
  unfold value_counts. rewrite map_map. cbn [snd].
  rewrite count_sum_nodup by (apply NoDup_ListNoDup, List.NoDup_nodup).
  f_equal. apply filter_all_true.
  intros x Hx. apply bool_decide_eq_true_2, list_elem_of_In, nodup_In, Hx.
Qed.

Section DiversityExtras.
Context `{Shapely}.
Variable cfg : DMURConfig.

Lemma diversity_positive (listings_df : DataFrame) (r1 r2 : Listing) :
  In r1 (rows listings_df) -> In r2 (rows listings_df) ->
  bedrooms r1 <> bedrooms r2 ->
  0 < _calculate_diversity_score listings_df.
Proof.
  intros H1 H2 Hne. unfold _calculate_diversity_score. cbv zeta.
  set (bs := map bedrooms (rows listings_df)).
  assert (Hb1 : In (bedrooms r1) bs) by (apply in_map, H1).
  assert (Hb2 : In (bedrooms r2) bs) by (apply in_map, H2).
  assert (Hlen : (2 <= length (value_counts bs))%nat).
  { rewrite length_value_counts.
    apply (two_distinct_length _ (bedrooms r1) (bedrooms r2));
      [apply nodup_In; exact Hb1|apply nodup_In; exact Hb2|exact Hne]. }
  destruct (Nat.leb_spec (length (value_counts bs)) 1) as [Hle|_]; [lia|].
  assert (Hn : 0 < INR (length (rows listings_df))).
  { apply lt_0_INR. destruct (rows listings_df); [destruct H1|simpl; lia]. }
  assert (Hlb : length bs = length (rows listings_df)) by (unfold bs; apply length_map).
  assert (Hprop : forall v, In v bs ->
            0 < INR (count_occ Z.eq_dec bs v) / INR (length (rows listings_df)) <= 1).
  { intros v Hv.
    assert (Hc : (0 < count_occ Z.eq_dec bs v)%nat) by (apply count_occ_In; exact Hv).
    pose proof (count_occ_le_length bs v) as Hle. rewrite Hlb in Hle.
    split.
    - apply Rmult_lt_0_compat; [apply lt_0_INR; exact Hc|apply Rinv_0_lt_compat, Hn].
    - apply Rmult_le_reg_r with (INR (length (rows listings_df))); [exact Hn|].
      unfold Rdiv. rewrite Rmult_assoc, Rinv_l, Rmult_1_r, Rmult_1_l; [|lra].
      apply le_INR, Hle. }
  assert (Hs : np_sum (map (fun p => p * ln p)
            (map (fun vc : Z * nat => INR vc.2 / INR (length (rows listings_df)))
                 (value_counts bs))) < 0).
  { apply np_sum_neg.
    - rewrite !Forall_map. apply Forall_forall. intros [v c] Hin. simpl.
      unfold value_counts in Hin. apply list_elem_of_In, in_map_iff in Hin.
      destruct Hin as [v' [Heq Hv']]. inversion Heq; subst v' c; clear Heq.
      apply nodup_In in Hv'. apply xlnx_nonpos, Hprop, Hv'.
    - set (p1 := INR (count_occ Z.eq_dec bs (bedrooms r1)) / INR (length (rows listings_df))).
      exists (p1 * ln p1). split.
      + apply in_map_iff. exists p1. split; [reflexivity|].
        apply in_map_iff. exists (bedrooms r1, count_occ Z.eq_dec bs (bedrooms r1)).
        split; [reflexivity|]. unfold value_counts.
        apply in_map_iff. exists (bedrooms r1). split; [reflexivity|].
        apply nodup_In. exact Hb1.
      + apply xlnx_neg. split; [apply Hprop, Hb1|].
        pose proof (count_occ_lt_length bs (bedrooms r1) (bedrooms r2) Hb2 (not_eq_sym Hne)) as Hlt.
        rewrite Hlb in Hlt. apply lt_INR in Hlt.
        unfold p1. apply Rmult_lt_reg_r with (INR (length (rows listings_df))); [exact Hn|].
        unfold Rdiv. rewrite Rmult_assoc, Rinv_l, Rmult_1_r, Rmult_1_l; [exact Hlt|lra]. }
  apply Rmin_glb_lt; [lra|].
  apply Rmult_lt_0_compat; [lra|apply Rinv_0_lt_compat, ln5_pos].
Qed.

(** Property X6.  For listings with an integer bedroom count in every row (none missing),
    the diversity score is 0 if and only if no two listings differ in their
    bedroom count. *)
Theorem diversity_zero_iff_uniform (listings_df : DataFrame) :
  _calculate_diversity_score listings_df = 0 <->
  (forall r1 r2, In r1 (rows listings_df) -> In r2 (rows listings_df) ->
                 bedrooms r1 = bedrooms r2).
Proof.
  split.
  - intros Hz r1 r2 H1 H2.
    destruct (Z.eq_dec (bedrooms r1) (bedrooms r2)) as [|Hne]; [assumption|].
    pose proof (diversity_positive listings_df r1 r2 H1 H2 Hne). lra.
  - intros Hall. unfold _calculate_diversity_score. cbv zeta.
    destruct (rows listings_df) as [|r0 rs] eqn:Hrows; [reflexivity|].
    rewrite length_value_counts.
    rewrite (nodup_all_same (bedrooms r0)); [reflexivity|discriminate|].
    intros x Hx. apply in_map_iff in Hx. destruct Hx as [r [<- Hr]].
    apply Hall; [exact Hr|left; reflexivity].
Qed.

(** Property X7.  With the required columns, an integer bedroom count in every row (none
    missing) and a positive optimal ratio, the scorer returns a result
    whose bedroom distribution has distinct keys, counts of at least 1, and
    counts that add up to the number of listings reported. *)
Theorem bedroom_distribution_consistent (data : ListingsData) (df : DataFrame)
    (boundary : Geometry) (business_locations : list (R * R)) (name : string) :
  0 < optimal_residential_ratio cfg ->
  _load_listings_data data = Returned df ->
  missing_cols df = [] ->
  exists r,
    calculate_dmur cfg data boundary business_locations name = Returned r /\
    NoDup (map fst (bedroom_distribution (metrics r))) /\
    Forall (fun vc => (1 <= vc.2)%nat) (bedroom_distribution (metrics r)) /\
    list_sum (map snd (bedroom_distribution (metrics r))) = total_listings (metrics r).
Proof.
  intros _ Hload Hcols.
  unfold calculate_dmur. rewrite Hload, bind_Returned.
  rewrite (filter_downtown_ok _ _ Hcols), bind_Returned.
  set (dl := {| columns := columns df; rows := List.filter _ (rows df) |}).
  destruct (Nat.eqb (length (rows dl)) 0) eqn:Hlen.
  { eexists. split; [reflexivity|]. cbn [metrics bedroom_distribution total_listings _empty_results map list_sum fold_right].
    split; [constructor|]. split; [constructor|reflexivity]. }
  eexists. split; [reflexivity|]. cbn [metrics bedroom_distribution total_listings].
  set (bs := map bedrooms (rows dl)).
  split; [|split].
  - unfold value_counts. rewrite map_map. cbn [fst]. rewrite map_id.
    apply NoDup_ListNoDup, List.NoDup_nodup.
  - unfold value_counts. rewrite Forall_map. apply Forall_forall. intros v Hv. cbn [snd].
    apply list_elem_of_In, nodup_In in Hv. apply (count_occ_In Z.eq_dec) in Hv. unfold gt in Hv. exact Hv.
  - rewrite value_counts_sum. unfold bs. apply length_map.
Qed.

(** Property X8.  A listing outside the boundary does not change the outcome of the
    scorer. *)
Theorem outside_listing_ignored (cols : list string) (pre post : list Listing)
    (row : Listing) (boundary : Geometry) (business_locations : list (R * R))
    (name : string) :
  contains boundary (lon row, lat row) = false ->
  calculate_dmur cfg (FromDataFrame {| columns := cols; rows := (pre ++ row :: post)%list |})
    boundary business_locations name =
  calculate_dmur cfg (FromDataFrame {| columns := cols; rows := (pre ++ post)%list |})
    boundary business_locations name.
Proof.
  intros Hout. unfold calculate_dmur, _load_listings_data. rewrite !bind_Returned.
  unfold _filter_downtown_listings, missing_cols. cbn [columns rows].
  rewrite !List.filter_app. cbn [List.filter]. rewrite Hout. reflexivity.
Qed.

End DiversityExtras.

(** ** Examples for the scorer *)

Lemma dmur_score_bounded_witness :
  exists r,
    calculate_dmur (H := rect_geometry) DMUR.default_config (FromDataFrame one_bedroom_listings)
      sample_downtown_boundary sample_business_locations "Test City" = Returned r /\
    0 <= dmur_score r <= 1.
Proof.
  apply (dmur_score_bounded (H := rect_geometry) DMUR.default_config
           (FromDataFrame one_bedroom_listings) one_bedroom_listings).
  - simpl. lra.
  - simpl. lra.
  - simpl. lra.
  - simpl. lra.
  - simpl. lra.
  - simpl. lra.
  - simpl. lra.
  - simpl. lra.
  - reflexivity.
  - reflexivity.
Defined.

Lemma missing_column_raises_ValueError_witness :
  calculate_dmur (H := rect_geometry) DMUR.default_config (FromDataFrame priceless_listings)
    sample_downtown_boundary sample_business_locations "Test City" =
    Raised (ValueError ("Missing required columns: " ++ py_repr_list (missing_cols priceless_listings))) /\
  "price" ∈ missing_cols priceless_listings.
Proof.
  apply (missing_column_raises_ValueError (H := rect_geometry) DMUR.default_config
           (FromDataFrame priceless_listings) priceless_listings).
  - reflexivity.
  - apply (bool_decide_unpack _). reflexivity.
  - apply (bool_decide_unpack _). reflexivity.
Defined.

Lemma mxi_one_when_colocated_witness :
  _calculate_mxi_score DMUR.default_config one_bedroom_listings sample_business_locations = 1.
Proof.
  apply (mxi_one_when_colocated DMUR.default_config one_bedroom_listings
           sample_business_locations).
  - simpl. lra.
  - discriminate.
  - intros row [<-|[<-|[<-|[]]]]; cbn [lat lon sample_business_locations In].
    + left. f_equal; lra.
    + right. left. f_equal; lra.
    + right. right. left. f_equal; lra.
Defined.

Lemma sqrt_ge (t x : R) : 0 <= t -> t * t <= x -> t <= sqrt x.
Proof.
  intros Ht Hx. rewrite <- (sqrt_square t Ht). apply sqrt_le_1_alt. exact Hx.
Qed.

Lemma mxi_zero_when_far_witness :
  _calculate_mxi_score DMUR.default_config outside_listings sample_business_locations = 0.
Proof.
  apply (mxi_zero_when_far DMUR.default_config outside_listings sample_business_locations).
  - simpl. lra.
  - discriminate.
  - intros row b [<-|[]] Hb.
    cbn [lat lon max_distance_threshold DMUR.default_config].
    unfold euclidean. apply sqrt_ge; [lra|].
    destruct Hb as [<-|[<-|[<-|[]]]]; cbn [fst snd]; simpl; lra.
Defined.

Lemma balance_score_extremes_witness :
  let residential_count := INR (length (rows one_bedroom_listings)) in
  let business_count := INR (length sample_business_locations) in
  let optimal := optimal_residential_ratio DMUR.default_config * business_count in
  (_calculate_balance_score DMUR.default_config one_bedroom_listings sample_business_locations = 1 <->
   residential_count = optimal) /\
  (_calculate_balance_score DMUR.default_config one_bedroom_listings sample_business_locations = 0 <->
   10 * optimal <= residential_count \/ 10 * residential_count <= optimal).
Proof.
  apply (balance_score_extremes DMUR.default_config one_bedroom_listings
           sample_business_locations).
  - simpl. lra.
  - discriminate.
  - discriminate.
Defined.

Lemma bedroom_distribution_consistent_witness :
  exists r,
    calculate_dmur (H := rect_geometry) DMUR.default_config (FromDataFrame one_bedroom_listings)
      sample_downtown_boundary sample_business_locations "Test City" = Returned r /\
    NoDup (map fst (bedroom_distribution (metrics r))) /\
    Forall (fun vc => (1 <= vc.2)%nat) (bedroom_distribution (metrics r)) /\
    list_sum (map snd (bedroom_distribution (metrics r))) = total_listings (metrics r).
Proof.
  apply (bedroom_distribution_consistent (H := rect_geometry) DMUR.default_config
           (FromDataFrame one_bedroom_listings) one_bedroom_listings).
  - simpl. lra.
  - reflexivity.
  - reflexivity.
Defined.

Lemma far_listing_outside :
  contains (Shapely := rect_geometry) sample_downtown_boundary (lon far_listing, lat far_listing) = false.
Proof.
  unfold contains, rect_geometry, sample_downtown_boundary, Rltb; simpl.
  rdec. reflexivity.
Defined.

Lemma outside_listing_ignored_witness :
  calculate_dmur (H := rect_geometry) DMUR.default_config
    (FromDataFrame {| columns := listing_columns;
                      rows := ([] ++ far_listing :: rows one_bedroom_listings)%list |})
    sample_downtown_boundary sample_business_locations "Test City" =
  calculate_dmur (H := rect_geometry) DMUR.default_config
    (FromDataFrame {| columns := listing_columns;
                      rows := ([] ++ rows one_bedroom_listings)%list |})
    sample_downtown_boundary sample_business_locations "Test City".
Proof.
  apply (outside_listing_ignored (H := rect_geometry) DMUR.default_config listing_columns []
           (rows one_bedroom_listings) far_listing).
  exact far_listing_outside.
Defined.

(** * Further properties of the analyzer *)

(** ** The commercial filter *)

Lemma in_COMMERCIAL_TYPES (t : string) :
  t ∈ COMMERCIAL_TYPES <->
  t ∈ ["shop"; "amenity"; "office"; "tourism"; "craft"; "healthcare"].
Proof.
  unfold COMMERCIAL_TYPES.
  rewrite !elem_of_union, !elem_of_singleton, !elem_of_cons, elem_of_nil. tauto.
Qed.

Lemma str_eq_PyStr (t s : string) : str_eq (PyStr t) s = bool_decide (t = s).
Proof.
  unfold str_eq. destruct (String.eqb_spec t s) as [->|Hne].
  - rewrite bool_decide_eq_true_2; reflexivity.
  - rewrite bool_decide_eq_false_2; [reflexivity|exact Hne].
Qed.

Lemma get_default_Some (d : gmap string PyVal) (k : string) (v dflt : PyVal) :
  d !! k = Some v -> get_default d k dflt = v.
Proof. intros E. unfold get_default. rewrite E. reflexivity. Qed.

Lemma get_default_None (d : gmap string PyVal) (k : string) (dflt : PyVal) :
  d !! k = None -> get_default d k dflt = dflt.
Proof. intros E. unfold get_default. rewrite E. reflexivity. Qed.

Lemma is_commercial_typed (business : gmap string PyVal) (t : string) :
  business !! "business_type" = Some (PyStr t) ->
  _is_commercial_business business =
    bool_decide (t ∈ COMMERCIAL_TYPES) &&
    (negb (bool_decide (t = "amenity")) ||
     in_set (get_default business "business_subtype" (PyStr "")) COMMERCIAL_AMENITIES).
Proof.
  intros Ht. unfold _is_commercial_business. cbv zeta.
  rewrite !(get_default_Some _ _ _ _ Ht). cbn [in_set].
  rewrite !str_eq_PyStr.
  destruct (decide (t ∈ COMMERCIAL_TYPES)) as [Hin|Hnin].
  - rewrite (bool_decide_eq_true_2 _ Hin). cbn [negb andb].
    apply in_COMMERCIAL_TYPES in Hin.
    destruct (decide (t = "amenity")) as [->|Hne].
    + rewrite (bool_decide_eq_true_2 ("amenity" = "amenity")) by reflexivity.
      rewrite (bool_decide_eq_false_2 ("amenity" = "building")) by discriminate.
      rewrite (bool_decide_eq_false_2 ("amenity" = "leisure")) by discriminate.
      cbn [negb andb orb].
      destruct (in_set _ COMMERCIAL_AMENITIES); reflexivity.
    + rewrite (bool_decide_eq_false_2 (t = "amenity")) by exact Hne.
      assert (Hb : t <> "building").
      { intros ->. rewrite !elem_of_cons, elem_of_nil in Hin.
        repeat (destruct Hin as [Hin|Hin]; [discriminate|]). exact Hin. }
      assert (Hl : t <> "leisure").
      { intros ->. rewrite !elem_of_cons, elem_of_nil in Hin.
        repeat (destruct Hin as [Hin|Hin]; [discriminate|]). exact Hin. }
      rewrite (bool_decide_eq_false_2 (t = "building")) by exact Hb.
      rewrite (bool_decide_eq_false_2 (t = "leisure")) by exact Hl.
      reflexivity.
  - rewrite (bool_decide_eq_false_2 _ Hnin). reflexivity.
Qed.

Lemma is_commercial_untyped (business : gmap string PyVal) :
  (forall t, business !! "business_type" <> Some (PyStr t)) ->
  _is_commercial_business business = false.
Proof.
  intros Hno. unfold _is_commercial_business. cbv zeta.
  destruct (business !! "business_type") as [[| r | t]|] eqn:E;
    [rewrite !(get_default_Some _ _ _ _ E)..|rewrite !(get_default_None _ _ _ E)];
    cbn [in_set negb]; try reflexivity.
  exfalso. apply (Hno t). reflexivity.
Qed.

(** Property X9.  The commercial filter accepts exactly the records typed shop, office,
    tourism, craft or healthcare, and the amenities whose subtype is a
    commercial one.  A building or a leisure place is never accepted: the
    tests on their subtypes come after the type has been required to be a
    commercial one. *)
Theorem commercial_business_iff (business : gmap string PyVal) :
  _is_commercial_business business = true <->
  exists t, business !! "business_type" = Some (PyStr t) /\
    (t ∈ ["shop"; "office"; "tourism"; "craft"; "healthcare"] \/
     (t = "amenity" /\
      exists s, business !! "business_subtype" = Some (PyStr s) /\
                s ∈ COMMERCIAL_AMENITIES)).
Proof.
  split.
  - intros Hc.
    destruct (business !! "business_type") as [[| r | t]|] eqn:E;
      try (rewrite is_commercial_untyped in Hc; [discriminate|intros t'; rewrite E; discriminate]).
    exists t. split; [reflexivity|].
    rewrite (is_commercial_typed _ t E) in Hc.
    apply andb_true_iff in Hc. destruct Hc as [Ht Hs].
    rewrite bool_decide_eq_true in Ht. apply in_COMMERCIAL_TYPES in Ht.
    destruct (decide (t = "amenity")) as [->|Hne].
    + right. split; [reflexivity|].
      rewrite (bool_decide_eq_true_2 ("amenity" = "amenity")) in Hs by reflexivity.
      cbn [negb orb] in Hs. unfold get_default in Hs.
      destruct (business !! "business_subtype") as [[| r | s]|];
        cbn [default from_option Datatypes.id in_set] in Hs; try discriminate.
      exists s. split; [reflexivity|]. rewrite bool_decide_eq_true in Hs. exact Hs.
    + left. rewrite !elem_of_cons, elem_of_nil in Ht. rewrite !elem_of_cons, elem_of_nil. tauto.
  - intros [t [E Ht]]. rewrite (is_commercial_typed _ t E).
    apply andb_true_iff. split.
    + apply bool_decide_eq_true_2, in_COMMERCIAL_TYPES.
      rewrite !elem_of_cons, elem_of_nil in Ht. rewrite !elem_of_cons, elem_of_nil.
      destruct Ht as [Ht|[-> _]]; tauto.
    + destruct Ht as [Ht|[-> [s [Es Hs]]]].
      * rewrite bool_decide_eq_false_2; [reflexivity|].
        intros ->. rewrite !elem_of_cons, elem_of_nil in Ht.
        repeat (destruct Ht as [Ht|Ht]; [discriminate|]). exact Ht.
      * unfold get_default. rewrite Es. cbn [default from_option Datatypes.id in_set].
        rewrite (bool_decide_eq_true_2 _ Hs). apply orb_true_r.
Qed.

(** ** Business loading *)

Lemma load_loop_skip_noncommercial (cfg : AnalysisConfig) (business : gmap string PyVal)
    (rest : list (gmap string PyVal)) (acc : list BusinessRow) :
  commercial_only cfg = true ->
  _is_commercial_business business = false ->
  load_loop cfg (business :: rest) acc = load_loop cfg rest acc.
Proof.
  intros Hc Hb. cbn [load_loop]. rewrite Hc, Hb. cbn [negb andb].
  destruct (not_get business "lat" || not_get business "lon"); reflexivity.
Qed.

(** What the loop appends: rows of located records that pass the filter. *)
Lemma load_loop_rows (cfg : AnalysisConfig) (records : list (gmap string PyVal))
    (acc rows : list BusinessRow) :
  load_loop cfg records acc = Returned rows ->
  exists new,
    rows = (acc ++ new)%list /\
    (length new <= length records)%nat /\
    Forall (fun row => exists business,
              In business records /\
              business_row business = Returned row /\
              not_get business "lat" = false /\
              not_get business "lon" = false /\
              (commercial_only cfg = true -> _is_commercial_business business = true))
           new.
Proof.
  revert acc. induction records as [|b records IH]; intros acc Hload.
  - cbn [load_loop] in Hload. injection Hload as <-.
    exists []. rewrite app_nil_r. split; [reflexivity|]. split; [reflexivity|constructor].
  - cbn [load_loop] in Hload.
    destruct (not_get b "lat" || not_get b "lon") eqn:Hloc.
    { destruct (IH acc Hload) as [new [Hrows [Hlen Hall]]].
      exists new. split; [exact Hrows|]. split; [simpl; lia|].
      eapply Forall_impl; [exact Hall|].
      intros row [b' [Hin Hrest]]. exists b'. split; [right; exact Hin|exact Hrest]. }
    apply orb_false_iff in Hloc. destruct Hloc as [Hlat Hlon].
    destruct (commercial_only cfg && negb (_is_commercial_business b)) eqn:Hcom.
    { destruct (IH acc Hload) as [new [Hrows [Hlen Hall]]].
      exists new. split; [exact Hrows|]. split; [simpl; lia|].
      eapply Forall_impl; [exact Hall|].
      intros row [b' [Hin Hrest]]. exists b'. split; [right; exact Hin|exact Hrest]. }
    destruct (business_row b) as [row|e] eqn:Hrow; [|discriminate].
    rewrite bind_Returned in Hload.
    destruct (IH (acc ++ [row])%list Hload) as [new [Hrows [Hlen Hall]]].
    exists (row :: new). split; [rewrite Hrows, <- app_assoc; reflexivity|].
    split; [simpl; lia|].
    constructor.
    + exists b. split; [left; reflexivity|]. split; [exact Hrow|].
      split; [exact Hlat|]. split; [exact Hlon|].
      intros Hc. rewrite Hc in Hcom. cbn [andb] in Hcom.
      destruct (_is_commercial_business b); [reflexivity|discriminate].
    + eapply Forall_impl; [exact Hall|].
      intros row' [b' [Hin Hrest]]. exists b'. split; [right; exact Hin|exact Hrest].
Qed.

Lemma business_row_fields (business : gmap string PyVal) (row : BusinessRow) :
  business_row business = Returned row ->
  business !! "id" = Some (b_id row) /\
  business !! "lat" = Some (b_lat row) /\
  business !! "lon" = Some (b_lon row) /\
  business !! "name" = Some (b_name row) /\
  business !! "business_type" = Some (b_type row) /\
  business !! "business_subtype" = Some (b_subtype row).
Proof.
  unfold business_row, getitem.
  destruct (business !! "id"); [|discriminate]. rewrite bind_Returned.
  destruct (business !! "lat"); [|discriminate]. rewrite bind_Returned.
  destruct (business !! "lon"); [|discriminate]. rewrite bind_Returned.
  destruct (business !! "name"); [|discriminate]. rewrite bind_Returned.
  destruct (business !! "business_type"); [|discriminate]. rewrite bind_Returned.
  destruct (business !! "business_subtype"); [|discriminate]. rewrite bind_Returned.
  intros [= <-]. cbn. repeat split; reflexivity.
Qed.

Lemma not_get_false_truthy (business : gmap string PyVal) (k : string) (v : PyVal) :
  business !! k = Some v -> not_get business k = false -> truthy v = true.
Proof.
  intros Hk. unfold not_get. rewrite Hk. destruct (truthy v); [reflexivity|discriminate].
Qed.

(** ** The focus area *)

Lemma for_each_as_num (vs : list PyVal) (rs : list R) :
  for_each as_num vs = Returned rs <-> vs = map PyNum rs.
Proof.
  revert rs. induction vs as [|v vs IH]; intros rs.
  - cbn [for_each]. split.
    + intros [= <-]. reflexivity.
    + destruct rs; [reflexivity|discriminate].
  - cbn [for_each]. destruct v as [|r|s]; cbn [as_num].
    + split; [discriminate|]. destruct rs; discriminate.
    + rewrite bind_Returned.
      destruct (for_each as_num vs) as [rs'|e] eqn:E.
      * rewrite bind_Returned. split.
        -- intros [= <-]. cbn [map]. f_equal. apply IH. reflexivity.
        -- destruct rs as [|r0 rs]; [discriminate|]. cbn [map]. intros [= -> Hvs].
           apply IH in Hvs. injection Hvs as ->. reflexivity.
      * split; [discriminate|].
        destruct rs as [|r0 rs]; [discriminate|]. cbn [map]. intros [= -> Hvs].
        apply IH in Hvs. discriminate.
    + split; [discriminate|]. destruct rs; discriminate.
Qed.

Lemma numeric_col_inv (df : BusinessFrame) (c : string) (field : BusinessRow -> PyVal)
    (rs : list R) :
  numeric_col df c field = Returned rs <->
  c ∈ bcolumns df /\ map field (brows df) = map PyNum rs.
Proof.
  unfold numeric_col, getcol.
  destruct (decide (c ∈ bcolumns df)) as [Hin|Hnin].
  - rewrite (bool_decide_eq_true_2 _ Hin), bind_Returned, for_each_as_num. tauto.
  - rewrite (bool_decide_eq_false_2 _ Hnin). split; [discriminate|tauto].
Qed.

Lemma boolean_index_cons {A} (x : A) (a : list A) (m : bool) (mask : list bool) :
  boolean_index (x :: a) (m :: mask) =
  if m then x :: boolean_index a mask else boolean_index a mask.
Proof. unfold boolean_index. cbn [zip zip_with List.filter snd]. destruct m; reflexivity. Qed.

Lemma boolean_index_nil_r {A} (a : list A) : boolean_index a [] = [].
Proof. destruct a; reflexivity. Qed.

Lemma boolean_index_box (rows : list BusinessRow) (lats lons : list R) (f : R -> R -> bool) :
  map b_lat rows = map PyNum lats ->
  map b_lon rows = map PyNum lons ->
  boolean_index rows (zip_with f lats lons) =
  List.filter (fun row => match b_lat row, b_lon row with
                          | PyNum la, PyNum lo => f la lo
                          | _, _ => false
                          end) rows.
Proof.
  revert lats lons. induction rows as [|row rows IH]; intros lats lons Hlat Hlon.
  - reflexivity.
  - destruct lats as [|la lats]; [discriminate|].
    destruct lons as [|lo lons]; [discriminate|].
    cbn [map] in Hlat, Hlon. injection Hlat as Hla Hlats. injection Hlon as Hlo Hlons.
    cbn [zip_with List.filter]. rewrite boolean_index_cons, Hla, Hlo.
    rewrite (IH lats lons Hlats Hlons). reflexivity.
Qed.

Lemma sublist_List_filter {A} (f : A -> bool) (l : list A) : sublist (List.filter f l) l.
Proof.
  induction l as [|x l IH]; [constructor|]. cbn [List.filter].
  destruct (f x); [apply sublist_skip|apply sublist_cons]; exact IH.
Qed.

Lemma filter_filter_same {A} (f : A -> bool) (l : list A) :
  List.filter f (List.filter f l) = List.filter f l.
Proof.
  apply filter_all_true. intros x Hx. apply filter_In in Hx. tauto.
Qed.

Lemma map_filter_numeric (rows : list BusinessRow) (field : BusinessRow -> PyVal)
    (f : BusinessRow -> bool) (rs : list R) :
  map field rows = map PyNum rs ->
  exists rs', map field (List.filter f rows) = map PyNum rs'.
Proof.
  revert rs. induction rows as [|row rows IH]; intros rs Hm.
  - exists []. reflexivity.
  - destruct rs as [|r rs]; [discriminate|]. cbn [map] in Hm. injection Hm as Hr Hrs.
    destruct (IH rs Hrs) as [rs' Hrs']. cbn [List.filter].
    destruct (f row).
    + exists (r :: rs'). cbn [map]. rewrite Hr, Hrs'. reflexivity.
    + exists rs'. exact Hrs'.
Qed.

Lemma apply_focus_area_filter (df df' : BusinessFrame) (min_lat min_lon max_lat max_lon : R) :
  _apply_focus_area df (min_lat, min_lon, max_lat, max_lon) = Returned df' ->
  "lat" ∈ bcolumns df /\ "lon" ∈ bcolumns df /\
  (exists lats, map b_lat (brows df) = map PyNum lats) /\
  (exists lons, map b_lon (brows df) = map PyNum lons) /\
  df' = {| bcolumns := bcolumns df;
           brows := List.filter
             (fun row => match b_lat row, b_lon row with
                         | PyNum la, PyNum lo =>
                             Rleb min_lat la && Rleb la max_lat &&
                             Rleb min_lon lo && Rleb lo max_lon
                         | _, _ => false
                         end) (brows df) |}.
Proof.
  unfold _apply_focus_area.
  destruct (numeric_col df "lat" b_lat) as [lats|e] eqn:Hlats; [|discriminate].
  rewrite bind_Returned.
  destruct (numeric_col df "lon" b_lon) as [lons|e] eqn:Hlons; [|discriminate].
  rewrite bind_Returned. cbv zeta.
  apply numeric_col_inv in Hlats. destruct Hlats as [Hc1 Hlats].
  apply numeric_col_inv in Hlons. destruct Hlons as [Hc2 Hlons].
  intros [= <-].
  split; [exact Hc1|]. split; [exact Hc2|].
  split; [exists lats; exact Hlats|]. split; [exists lons; exact Hlons|].
  f_equal. apply boolean_index_box; assumption.
Qed.

(** Property X12.  The focus-area filter keeps the columns, keeps exactly the rows inside
    the closed box, in their order, and is idempotent. *)
Theorem focus_area_filter_idempotent (df df' : BusinessFrame)
    (min_lat min_lon max_lat max_lon : R) :
  _apply_focus_area df (min_lat, min_lon, max_lat, max_lon) = Returned df' ->
  bcolumns df' = bcolumns df /\
  sublist (brows df') (brows df) /\
  (forall row, In row (brows df') <->
     In row (brows df) /\
     exists la lo, b_lat row = PyNum la /\ b_lon row = PyNum lo /\
                   min_lat <= la <= max_lat /\ min_lon <= lo <= max_lon) /\
  _apply_focus_area df' (min_lat, min_lon, max_lat, max_lon) = Returned df'.
Proof.
  intros Happ.
  destruct (apply_focus_area_filter _ _ _ _ _ _ Happ)
    as [Hc1 [Hc2 [[lats Hlats] [[lons Hlons] ->]]]].
  set (inside := fun row : BusinessRow => match b_lat row, b_lon row with
                         | PyNum la, PyNum lo =>
                             Rleb min_lat la && Rleb la max_lat &&
                             Rleb min_lon lo && Rleb lo max_lon
                         | _, _ => false
                         end).
  cbn [bcolumns brows].
  split; [reflexivity|]. split; [apply sublist_List_filter|]. split.
  - intros row. rewrite filter_In. unfold inside.
    split.
    + intros [Hin Hbox]. split; [exact Hin|].
      destruct (b_lat row) as [|la|]; try discriminate.
      destruct (b_lon row) as [|lo|]; try discriminate.
      exists la, lo. rewrite !andb_true_iff, !Rleb_true_iff in Hbox.
      repeat split; tauto.
    + intros [Hin [la [lo [-> [-> [Hla Hlo]]]]]]. split; [exact Hin|].
      rewrite !andb_true_iff, !Rleb_true_iff. tauto.
  - destruct (map_filter_numeric (brows df) b_lat inside lats Hlats) as [lats' Hlats'].
    destruct (map_filter_numeric (brows df) b_lon inside lons Hlons) as [lons' Hlons'].
    unfold _apply_focus_area.
    rewrite (proj2 (numeric_col_inv _ "lat" b_lat lats')) by (split; [exact Hc1|exact Hlats']).
    rewrite bind_Returned.
    rewrite (proj2 (numeric_col_inv _ "lon" b_lon lons')) by (split; [exact Hc2|exact Hlons']).
    rewrite bind_Returned. cbv zeta. cbn [bcolumns brows].
    rewrite (boolean_index_box _ lats' lons' _ Hlats' Hlons').
    fold inside. rewrite filter_filter_same. reflexivity.
Qed.

(** ** Loading a document *)

Lemma fold_left_Rmax_ge (l : list R) (x : R) :
  x <= fold_left Rmax l x /\ Forall (fun y => y <= fold_left Rmax l x) l.
Proof.
  revert x. induction l as [|y l IH]; intros x; simpl; [split; [lra|constructor]|].
  destruct (IH (Rmax x y)) as [H1 H2].
  pose proof (Rmax_l x y). pose proof (Rmax_r x y).
  split; [lra|]. constructor; [lra|exact H2].
Qed.

Lemma np_max_ge (l : list R) (y : R) : In y l -> y <= np_max l.
Proof.
  destruct l as [|x l]; [intros []|]. simpl.
  destruct (fold_left_Rmax_ge l x) as [H1 H2].
  intros [<-|Hy]; [exact H1|].
  rewrite Forall_forall in H2. apply H2, list_elem_of_In, Hy.
Qed.

Lemma np_min_le_np_max (l : list R) : np_min l <= np_max l.
Proof.
  destruct l as [|x l]; [simpl; lra|].
  pose proof (np_min_le (x :: l) x (or_introl eq_refl)).
  pose proof (np_max_ge (x :: l) x (or_introl eq_refl)). lra.
Qed.

Lemma brows_pd_DataFrame (records : list BusinessRow) :
  brows (pd_DataFrame records) = records.
Proof. destruct records; reflexivity. Qed.

Lemma bcolumns_pd_DataFrame (records : list BusinessRow) :
  records <> [] ->
  bcolumns (pd_DataFrame records) = ["id"; "lat"; "lon"; "name"; "type"; "subtype"].
Proof. destruct records; [congruence|reflexivity]. Qed.

Lemma numeric_entry (rows : list BusinessRow) (field : BusinessRow -> PyVal)
    (rs : list R) (row : BusinessRow) :
  map field rows = map PyNum rs -> In row rows ->
  exists r, field row = PyNum r /\ In r rs.
Proof.
  revert rs. induction rows as [|x rows IH]; intros rs Hm Hin; [destruct Hin|].
  destruct rs as [|r rs]; [discriminate|]. cbn [map] in Hm. injection Hm as Hr Hrs.
  destruct Hin as [<-|Hin].
  - exists r. split; [exact Hr|left; reflexivity].
  - destruct (IH rs Hrs Hin) as [r' [Hf Hr']]. exists r'. split; [exact Hf|right; exact Hr'].
Qed.

Lemma apply_bounding_box (records : list BusinessRow) (lats lons : list R) :
  records <> [] ->
  map b_lat records = map PyNum lats ->
  map b_lon records = map PyNum lons ->
  _apply_focus_area (pd_DataFrame records)
    (np_min lats, np_min lons, np_max lats, np_max lons) =
  Returned (pd_DataFrame records).
Proof.
  intros Hne Hlats Hlons. unfold _apply_focus_area.
  rewrite (proj2 (numeric_col_inv _ "lat" b_lat lats)).
  2:{ rewrite bcolumns_pd_DataFrame, brows_pd_DataFrame by exact Hne.
      split; [apply (bool_decide_unpack _); reflexivity|exact Hlats]. }
  rewrite bind_Returned.
  rewrite (proj2 (numeric_col_inv _ "lon" b_lon lons)).
  2:{ rewrite bcolumns_pd_DataFrame, brows_pd_DataFrame by exact Hne.
      split; [apply (bool_decide_unpack _); reflexivity|exact Hlons]. }
  rewrite bind_Returned. cbv zeta.
  rewrite brows_pd_DataFrame.
  rewrite (boolean_index_box _ lats lons _ Hlats Hlons).
  rewrite filter_all_true.
  - destruct records; [congruence|reflexivity].
  - intros row Hrow.
    destruct (numeric_entry _ b_lat lats row Hlats Hrow) as [la [-> Hla]].
    destruct (numeric_entry _ b_lon lons row Hlons Hrow) as [lo [-> Hlo]].
    rewrite !andb_true_iff, !Rleb_true_iff.
    pose proof (np_min_le lats la Hla). pose proof (np_max_ge lats la Hla).
    pose proof (np_min_le lons lo Hlo). pose proof (np_max_ge lons lo Hlo).
    tauto.
Qed.

Section LoadExtras.
Context `{Shapely} `{SciLibs}.

(** Property X10.  With [commercial_only], a record that the commercial filter rejects is
    dropped: the outcome of the load is the one of the same document without
    that record. *)
Theorem noncommercial_record_excluded (self : Analyzer) (city : option string)
    (pre post : list (gmap string PyVal)) (business : gmap string PyVal) :
  commercial_only (config self) = true ->
  _is_commercial_business business = false ->
  _load_business_data self
    {| data_city := city; data_businesses := Some (pre ++ business :: post)%list |} =
  _load_business_data self
    {| data_city := city; data_businesses := Some (pre ++ post)%list |}.
Proof.
  intros Hc Hb. unfold _load_business_data. cbn [data_businesses default from_option Datatypes.id].
  rewrite !(load_loop_app _ pre).
  destruct (load_loop (config self) pre []) as [acc|e]; [|reflexivity].
  rewrite !bind_Returned. rewrite (load_loop_skip_noncommercial _ _ _ _ Hc Hb). reflexivity.
Qed.

Lemma load_business_data_inv (self self' : Analyzer) (data : BusinessData) :
  _load_business_data self data = Returned self' ->
  exists loaded df,
    load_loop (config self) (default [] (data_businesses data)) [] = Returned loaded /\
    self' = set_businesses_df self df /\
    sublist (brows df) loaded.
Proof.
  unfold _load_business_data.
  destruct (load_loop _ _ _) as [loaded|e]; [|discriminate].
  rewrite bind_Returned. cbv zeta.
  destruct (focus_area (config self)) as [[[[a b] c] d]|].
  - destruct (_apply_focus_area _ _) as [df|e] eqn:Happ; [|discriminate].
    rewrite bind_Returned. intros [= <-].
    exists loaded, df. split; [reflexivity|]. split; [reflexivity|].
    destruct (apply_focus_area_filter _ _ _ _ _ _ Happ) as [_ [_ [_ [_ ->]]]].
    cbn [brows]. rewrite brows_pd_DataFrame. apply sublist_List_filter.
  - destruct (auto_focus (config self)).
    + destruct (_auto_determine_focus_area _) as [[[[a b] c] d]|e]; [|discriminate].
      rewrite bind_Returned.
      destruct (_apply_focus_area _ _) as [df|e] eqn:Happ; [|discriminate].
      rewrite bind_Returned. intros [= <-].
      exists loaded, df. split; [reflexivity|]. split; [reflexivity|].
      destruct (apply_focus_area_filter _ _ _ _ _ _ Happ) as [_ [_ [_ [_ ->]]]].
      cbn [brows]. rewrite brows_pd_DataFrame. apply sublist_List_filter.
    + intros [= <-]. exists loaded, (pd_DataFrame loaded).
      split; [reflexivity|]. split; [reflexivity|].
      rewrite brows_pd_DataFrame. reflexivity.
Qed.

(** Property X11.  After a successful load every row of the businesses frame comes from a
    record of the document, with its six fields, has truthy coordinates and,
    with [commercial_only], passed the commercial filter; there are at most
    as many rows as records. *)
Theorem loaded_businesses_located (self self' : Analyzer) (data : BusinessData) :
  _load_business_data self data = Returned self' ->
  exists df,
    businesses_df self' = Some df /\
    (length (brows df) <= length (default [] (data_businesses data)))%nat /\
    Forall (fun row =>
      truthy (b_lat row) = true /\ truthy (b_lon row) = true /\
      exists business,
        In business (default [] (data_businesses data)) /\
        business !! "id" = Some (b_id row) /\
        business !! "lat" = Some (b_lat row) /\
        business !! "lon" = Some (b_lon row) /\
        business !! "name" = Some (b_name row) /\
        business !! "business_type" = Some (b_type row) /\
        business !! "business_subtype" = Some (b_subtype row) /\
        (commercial_only (config self) = true -> _is_commercial_business business = true))
      (brows df).
Proof.
  intros Hload.
  destruct (load_business_data_inv _ _ _ Hload) as [loaded [df [Hloop [-> Hsub]]]].
  exists df. split; [reflexivity|].
  destruct (load_loop_rows _ _ _ _ Hloop) as [new [Hnew [Hlen Hall]]].
  cbn [app] in Hnew. subst new.
  split; [apply sublist_length in Hsub; lia|].
  assert (Hall' : Forall (fun row =>
      truthy (b_lat row) = true /\ truthy (b_lon row) = true /\
      exists business,
        In business (default [] (data_businesses data)) /\
        business !! "id" = Some (b_id row) /\
        business !! "lat" = Some (b_lat row) /\
        business !! "lon" = Some (b_lon row) /\
        business !! "name" = Some (b_name row) /\
        business !! "business_type" = Some (b_type row) /\
        business !! "business_subtype" = Some (b_subtype row) /\
        (commercial_only (config self) = true -> _is_commercial_business business = true))
      loaded).
  { eapply Forall_impl; [exact Hall|]. cbn beta.
    intros row [b [Hin [Hrow [Hlat [Hlon Hcom]]]]].
    destruct (business_row_fields _ _ Hrow) as [F1 [F2 [F3 [F4 [F5 F6]]]]].
    split; [apply (not_get_false_truthy b "lat"); assumption|].
    split; [apply (not_get_false_truthy b "lon"); assumption|].
    exists b. repeat (split; [assumption|]). exact Hcom. }
  rewrite Forall_forall in Hall'. apply Forall_forall.
  intros row Hrow. apply Hall'.
  eapply sublist_submseteq, elem_of_submseteq in Hsub; [exact Hsub|exact Hrow].
Qed.

(** Property X13.  With fewer than 10 loaded businesses the automatic focus area is their
    bounding box, so that the load keeps all of them. *)
Theorem small_document_auto_focus_keeps_all (self : Analyzer) (data : BusinessData)
    (loaded : list BusinessRow) (lats lons : list R) :
  focus_area (config self) = None ->
  auto_focus (config self) = true ->
  load_loop (config self) (default [] (data_businesses data)) [] = Returned loaded ->
  (0 < length loaded < 10)%nat ->
  map b_lat loaded = map PyNum lats ->
  map b_lon loaded = map PyNum lons ->
  _auto_determine_focus_area (pd_DataFrame loaded) =
    Returned (np_min lats, np_min lons, np_max lats, np_max lons) /\
  _load_business_data self data = Returned (set_businesses_df self (pd_DataFrame loaded)).
Proof.
  intros Hfocus Hauto Hloop [Hpos Hlt] Hlats Hlons.
  assert (Hne : loaded <> []) by (intros ->; simpl in Hpos; lia).
  assert (Hfa : _auto_determine_focus_area (pd_DataFrame loaded) =
                Returned (np_min lats, np_min lons, np_max lats, np_max lons)).
  { unfold _auto_determine_focus_area. rewrite brows_pd_DataFrame.
    destruct (Nat.ltb_spec (length loaded) 10) as [_|Hge]; [|lia].
    rewrite (proj2 (numeric_col_inv _ "lat" b_lat lats)).
    2:{ rewrite bcolumns_pd_DataFrame, brows_pd_DataFrame by exact Hne.
        split; [apply (bool_decide_unpack _); reflexivity|exact Hlats]. }
    rewrite bind_Returned.
    rewrite (proj2 (numeric_col_inv _ "lon" b_lon lons)).
    2:{ rewrite bcolumns_pd_DataFrame, brows_pd_DataFrame by exact Hne.
        split; [apply (bool_decide_unpack _); reflexivity|exact Hlons]. }
    rewrite bind_Returned. reflexivity. }
  split; [exact Hfa|].
  unfold _load_business_data. rewrite Hloop, bind_Returned. cbv zeta.
  rewrite Hfocus, Hauto, Hfa, bind_Returned.
  rewrite (apply_bounding_box _ lats lons Hne Hlats Hlons). reflexivity.
Qed.

(** Property X14.  A document without a usable business makes the analysis raise
    [KeyError] for the column lat when a focus area or auto-focus is in
    force, since a frame built from no record has no column; the
    [ValueError] for insufficient data is reached only without them. *)
Theorem no_usable_business_raises (self : Analyzer) (data : BusinessData)
    (name : option string) :
  load_loop (config self) (default [] (data_businesses data)) [] = Returned [] ->
  analyze self data name =
    match focus_area (config self) with
    | Some _ => Raised (KeyError "lat")
    | None =>
        if auto_focus (config self) then Raised (KeyError "lat")
        else Raised (ValueError (insufficient_message 0))
    end.
Proof.
  intros Hloop. unfold analyze. cbv zeta. unfold _load_business_data.
  cbn [config set_city_name]. rewrite Hloop, bind_Returned. cbv zeta.
  destruct (focus_area (config self)) as [[[[a b] c] d]|].
  - reflexivity.
  - destruct (auto_focus (config self)); reflexivity.
Qed.

End LoadExtras.

(** ** Examples for loading *)

Lemma test_restaurant_in_box :
  _apply_focus_area (pd_DataFrame [test_restaurant_row]) (40, -74, 41, -73) =
    Returned (pd_DataFrame [test_restaurant_row]).
Proof.
  unfold _apply_focus_area.
  rewrite (proj2 (numeric_col_inv _ "lat" b_lat [40.05])).
  2:{ split; [apply (bool_decide_unpack _); reflexivity|reflexivity]. }
  rewrite bind_Returned.
  rewrite (proj2 (numeric_col_inv _ "lon" b_lon [-73.95])).
  2:{ split; [apply (bool_decide_unpack _); reflexivity|reflexivity]. }
  rewrite bind_Returned. cbv zeta.
  cbn [zip_with pd_DataFrame brows bcolumns]. rewrite boolean_index_cons.
  replace (Rleb 40 40.05 && Rleb 40.05 41 && Rleb (-74) (-73.95) && Rleb (-73.95) (-73))
    with true; [reflexivity|].
  symmetry. rewrite !andb_true_iff, !Rleb_true_iff. lra.
Qed.

Lemma focus_area_filter_idempotent_witness :
  let df := pd_DataFrame [test_restaurant_row] in
  bcolumns df = bcolumns df /\
  sublist (brows df) (brows df) /\
  (forall row, In row (brows df) <->
     In row (brows df) /\
     exists la lo, b_lat row = PyNum la /\ b_lon row = PyNum lo /\
                   40 <= la <= 41 /\ -74 <= lo <= -73) /\
  _apply_focus_area df (40, -74, 41, -73) = Returned df.
Proof.
  apply (focus_area_filter_idempotent (pd_DataFrame [test_restaurant_row])
           (pd_DataFrame [test_restaurant_row]) 40 (-74) 41 (-73)).
  exact test_restaurant_in_box.
Defined.

Lemma noncommercial_record_excluded_witness :
  _load_business_data (H := rect_geometry) (H0 := small_scilibs) (__init__ None)
    {| data_city := Some "Test City";
       data_businesses := Some ([test_restaurant] ++ fitness_centre :: [])%list |} =
  _load_business_data (H := rect_geometry) (H0 := small_scilibs) (__init__ None)
    {| data_city := Some "Test City";
       data_businesses := Some ([test_restaurant] ++ [])%list |}.
Proof.
  apply (noncommercial_record_excluded (H := rect_geometry) (H0 := small_scilibs)
           (__init__ None) (Some "Test City") [test_restaurant] [] fitness_centre).
  - reflexivity.
  - reflexivity.
Defined.

Lemma loaded_businesses_located_witness :
  exists df,
    businesses_df (set_businesses_df (H := rect_geometry) (__init__ None)
                     (pd_DataFrame [test_restaurant_row])) = Some df /\
    (length (brows df) <= length (default [] (data_businesses insufficient_data)))%nat /\
    Forall (fun row =>
      truthy (b_lat row) = true /\ truthy (b_lon row) = true /\
      exists business,
        In business (default [] (data_businesses insufficient_data)) /\
        business !! "id" = Some (b_id row) /\
        business !! "lat" = Some (b_lat row) /\
        business !! "lon" = Some (b_lon row) /\
        business !! "name" = Some (b_name row) /\
        business !! "business_type" = Some (b_type row) /\
        business !! "business_subtype" = Some (b_subtype row) /\
        (commercial_only (config (__init__ (H := rect_geometry) None)) = true ->
         _is_commercial_business business = true))
      (brows df).
Proof.
  apply (loaded_businesses_located (H := rect_geometry) (H0 := small_scilibs)
           (__init__ None) _ insufficient_data).
  apply load_insufficient_data. reflexivity.
Defined.

Lemma small_document_auto_focus_keeps_all_witness :
  _auto_determine_focus_area (H0 := small_scilibs) (pd_DataFrame [test_restaurant_row]) =
    Returned (np_min [40.05], np_min [-73.95], np_max [40.05], np_max [-73.95]) /\
  _load_business_data (H := rect_geometry) (H0 := small_scilibs) (__init__ None)
    insufficient_data =
    Returned (set_businesses_df (__init__ None) (pd_DataFrame [test_restaurant_row])).
Proof.
  apply (small_document_auto_focus_keeps_all (H := rect_geometry) (H0 := small_scilibs)
           (__init__ None) insufficient_data [test_restaurant_row] [40.05] [-73.95]).
  - reflexivity.
  - reflexivity.
  - exact load_test_restaurant.
  - simpl. lia.
  - reflexivity.
  - reflexivity.
Defined.

Lemma no_usable_business_raises_witness :
  analyze (H := rect_geometry) (H0 := small_scilibs) (__init__ None) no_businesses_data None =
    Raised (KeyError "lat").
Proof.
  apply (no_usable_business_raises (H := rect_geometry) (H0 := small_scilibs)
           (__init__ None) no_businesses_data None).
  reflexivity.
Defined.

(** ** The high-density selection *)

Lemma length_boolean_index {A} (a : list A) (mask : list bool) :
  length a = length mask ->
  length (boolean_index a mask) = length (List.filter (fun b : bool => b) mask).
Proof.
  revert mask. induction a as [|x a IH]; intros [|m mask] Hlen; try discriminate.
  - reflexivity.
  - rewrite boolean_index_cons. cbn [List.filter]. injection Hlen as Hlen.
    destruct m; cbn [length]; rewrite (IH mask Hlen); reflexivity.
Qed.

Lemma np_percentile_attained (a : list R) (q : R) :
  a <> [] -> 0 <= q <= 100 ->
  exists t d, np_percentile a q = Returned t /\ In d a /\ t <= d.
Proof.
  intros Hne Hq. rewrite np_percentile_interp by exact Hq.
  set (arr := np_sort a).
  assert (Hperm : arr ≡ₚ a) by apply merge_sort_Permutation.
  assert (Harr : arr <> []).
  { intros E. rewrite E in Hperm. apply Permutation_nil_l in Hperm. congruence. }
  assert (Hlen : (0 < length arr)%nat) by (destruct arr; [congruence|simpl; lia]).
  assert (Hn : 0 <= INR (length arr - 1)) by apply pos_INR.
  destruct (interp_between arr (q / 100 * INR (length arr - 1)) (np_sort_sorted a))
    as [Hp [_ Hhi]]; [nra|exact Harr|].
  eexists _, _. split; [reflexivity|]. split; [|exact Hhi].
  apply list_elem_of_In. rewrite <- Hperm. apply list_elem_of_In, nth_In. lia.
Qed.

Lemma mask_has_true (ds : list R) (t d : R) :
  In d ds -> t <= d ->
  (1 <= length (List.filter (fun b : bool => b) (map (fun d => Rleb t d) ds)))%nat.
Proof.
  intros Hin Hle. induction ds as [|x ds IH]; [destruct Hin|].
  cbn [map List.filter]. destruct Hin as [->|Hin].
  - rewrite (proj2 (Rleb_true_iff t d) Hle). simpl. lia.
  - specialize (IH Hin). destruct (Rleb t x); simpl; lia.
Qed.

Lemma select_high_density_nonempty (grid : list (list R))
    (lat_grid lon_grid : list (list R)) (q : R) :
  ravel grid <> [] ->
  length (ravel lat_grid) = length (ravel grid) ->
  length (ravel lon_grid) = length (ravel grid) ->
  0 <= q <= 100 ->
  exists lats lons,
    select_high_density grid (lat_grid, lon_grid) q = Returned (lats, lons) /\
    length lats = length lons /\ (1 <= length lats)%nat.
Proof.
  intros Hne Hlat Hlon Hq.
  destruct (np_percentile_attained (ravel grid) q Hne Hq) as [t [d [Ht [Hd Hle]]]].
  unfold select_high_density. rewrite Ht, bind_Returned.
  eexists _, _. split; [reflexivity|].
  rewrite !length_boolean_index by (rewrite length_map; assumption).
  split; [reflexivity|]. apply (mask_has_true _ t d Hd Hle).
Qed.

Section DensityExtras.
Context `{Shapely} `{SciLibs}.

(** Property X16.  On a non-empty density grid the high-density selection returns as many
    latitudes as longitudes, and at least one point. *)
Theorem high_density_selection_nonempty (self : Analyzer) (grid : list (list R))
    (lat_grid lon_grid : list (list R)) :
  density_grid self = Some grid ->
  density_coords self = Some (lat_grid, lon_grid) ->
  ravel grid <> [] ->
  length (ravel lat_grid) = length (ravel grid) ->
  length (ravel lon_grid) = length (ravel grid) ->
  0 <= density_threshold_percentile (config self) <= 100 ->
  exists lats lons,
    _identify_high_density_areas self = Returned (lats, lons) /\
    length lats = length lons /\ (1 <= length lats)%nat.
Proof.
  intros Hgrid Hcoords Hne Hlat Hlon Hq.
  unfold _identify_high_density_areas. rewrite Hgrid, Hcoords.
  cbn [attr]. rewrite !bind_Returned. cbv zeta.
  destruct (select_high_density_nonempty grid lat_grid lon_grid
              (density_threshold_percentile (config self)) Hne Hlat Hlon Hq)
    as [lats [lons [Hsel [Heq Hpos]]]].
  rewrite Hsel, bind_Returned. cbn [fst].
  destruct (Nat.ltb (length lats) 3).
  - apply select_high_density_nonempty; try assumption.
    pose proof (Rmax_l 70 (density_threshold_percentile (config self) - 20)).
    assert (Rmax 70 (density_threshold_percentile (config self) - 20) <= 100)
      by (apply Rmax_lub; lra).
    lra.
  - exists lats, lons. split; [reflexivity|]. split; assumption.
Qed.

(** Property X17.  Boundary creation raises only when the alpha shape has failed and the
    convex hull fails too, and then with the exception of the convex hull. *)
Theorem boundary_failure_is_hull_failure (self : Analyzer) (lats lons : list R)
    (e : PyExn) :
  _create_downtown_boundary self lats lons = Raised e ->
  convex_hull lats lons = Raised e /\
  exists e0, alpha_shape (alpha (config self)) lats lons = Raised e0.
Proof.
  unfold _create_downtown_boundary, try_except.
  destruct (alpha_shape (alpha (config self)) lats lons) as [g|e0].
  - rewrite bind_Returned. discriminate.
  - destruct (convex_hull lats lons) as [g|e1].
    + rewrite bind_Returned. discriminate.
    + intros [= ->]. split; [reflexivity|]. exists e0. reflexivity.
Qed.

End DensityExtras.

(** ** The density grid *)



Lemma length_np_arange (start stop step : R) (l : list R) :
  0 < step -> start < stop ->
  np_arange start stop step = Returned l -> (1 <= length l)%nat.
Proof.
  intros Hstep Hlt. unfold np_arange.
  destruct (Req_dec_T step 0) as [E|_]; [lra|].
  intros [= <-]. rewrite length_map, length_seq.
  assert (Hpos : 0 < (stop - start) / step).
  { apply Rmult_lt_0_compat; [lra|apply Rinv_0_lt_compat, Hstep]. }
  pose proof (Zceil_bound ((stop - start) / step)) as [_ Hhi].
  assert (Hc : (0 < Zceil ((stop - start) / step))%Z).
  { apply lt_IZR. lra. }
  lia.
Qed.

Lemma np_arange_returns (start stop step : R) :
  step <> 0 -> exists l, np_arange start stop step = Returned l.
Proof.
  intros Hstep. unfold np_arange.
  destruct (Req_dec_T step 0) as [E|_]; [contradiction|]. eexists. reflexivity.
Qed.

Lemma length_ravel_meshgrid (x y : list R) :
  length (ravel (np_meshgrid x y).1) = (length y * length x)%nat /\
  length (ravel (np_meshgrid x y).2) = (length y * length x)%nat.
Proof.
  unfold np_meshgrid. cbn [fst snd]. split.
  - rewrite (length_ravel_uniform _ (length x)).
    + rewrite length_map. reflexivity.
    + rewrite Forall_map. apply Forall_forall. intros; reflexivity.
  - rewrite (length_ravel_uniform _ (length x)).
    + rewrite length_map. reflexivity.
    + rewrite Forall_map. apply Forall_forall. intros yi _. apply length_map.
Qed.

Section GridExtras.
Context `{Shapely} `{SciLibs}.

Lemma numeric_col_length (df : BusinessFrame) (c : string) (field : BusinessRow -> PyVal)
    (rs : list R) :
  numeric_col df c field = Returned rs -> length rs = length (brows df).
Proof.
  intros Hcol. apply numeric_col_inv in Hcol. destruct Hcol as [_ Hmap].
  apply (f_equal (@length PyVal)) in Hmap. rewrite !length_map in Hmap.
  symmetry. exact Hmap.
Qed.

Lemma calculate_density_grid_returns (self : Analyzer) (df : BusinessFrame)
    (lats lons : list R) :
  businesses_df self = Some df ->
  brows df <> [] ->
  numeric_col df "lat" b_lat = Returned lats ->
  numeric_col df "lon" b_lon = Returned lons ->
  0 < grid_size (config self) ->
  (forall X G, X <> [] -> G <> [] -> exists log_density,
     KernelDensity_score_samples (bandwidth (config self)) X G = Returned log_density /\
     length log_density = length G) ->
  exists lat_range lon_range log_density,
    (1 <= length lat_range)%nat /\ (1 <= length lon_range)%nat /\
    length log_density = (length lat_range * length lon_range)%nat /\
    _calculate_density_grid self =
      Returned (set_density self
        (chunks (length lon_range) (length lat_range) (map exp log_density))
        ((np_meshgrid lon_range lat_range).2, (np_meshgrid lon_range lat_range).1)).
Proof.
  intros Hdf Hrows Hlats Hlons Hstep Hkde.
  unfold _calculate_density_grid. rewrite Hdf. cbn [attr].
  rewrite bind_Returned, Hlats, bind_Returned, Hlons, bind_Returned.
  assert (Hn : (0 < length (brows df))%nat)
    by (destruct (brows df); [congruence|simpl; lia]).
  destruct (Nat.eqb_spec (length (brows df)) 0) as [E|_]; [lia|].
  cbv zeta iota beta.
  remember (Rmax 0.005 ((np_max lats - np_min lats) * 0.1)) as padding eqn:Epad.
  assert (Hpad : 0.005 <= padding) by (rewrite Epad; apply Rmax_l).
  pose proof (np_min_le_np_max lats) as Hlat_range.
  pose proof (np_min_le_np_max lons) as Hlon_range.
  destruct (np_arange_returns (np_min lats - padding) (np_max lats + padding)
              (grid_size (config self))) as [lat_range Hlr]; [apply Rgt_not_eq, Hstep|].
  destruct (np_arange_returns (np_min lons - padding) (np_max lons + padding)
              (grid_size (config self))) as [lon_range Hnr]; [apply Rgt_not_eq, Hstep|].
  rewrite Hlr, bind_Returned, Hnr, bind_Returned.
  assert (Hlt1 : np_min lats - padding < np_max lats + padding) by lra.
  assert (Hlt2 : np_min lons - padding < np_max lons + padding) by lra.
  pose proof (length_np_arange _ _ _ _ Hstep Hlt1 Hlr) as Hnlat.
  pose proof (length_np_arange _ _ _ _ Hstep Hlt2 Hnr) as Hnlon.
  destruct (length_ravel_meshgrid lon_range lat_range) as [Hm1 Hm2].
  destruct (np_meshgrid lon_range lat_range) as [lon_grid lat_grid] eqn:Hmesh.
  cbn [fst snd] in Hm1, Hm2.
  assert (HX : zip lats lons <> []).
  { intros E. apply (f_equal (@length (R * R))) in E.
    rewrite length_zip, (numeric_col_length _ _ _ _ Hlats),
      (numeric_col_length _ _ _ _ Hlons) in E. simpl in E. lia. }
  assert (HG : zip (ravel lat_grid) (ravel lon_grid) <> []).
  { intros E. apply (f_equal (@length (R * R))) in E.
    rewrite length_zip, Hm1, Hm2 in E. simpl in E. nia. }
  destruct (Hkde (zip lats lons) (zip (ravel lat_grid) (ravel lon_grid)) HX HG)
    as [log_density [Hld Hlen]].
  rewrite Hld, bind_Returned. cbv zeta.
  assert (Hdens : length log_density = (length lat_range * length lon_range)%nat).
  { rewrite Hlen, length_zip, Hm1, Hm2. lia. }
  unfold reshape. rewrite length_map, Hdens, Nat.eqb_refl, bind_Returned.
  exists lat_range, lon_range, log_density. rewrite Hmesh. cbn [fst snd].
  repeat split; assumption || reflexivity.
Qed.


End GridExtras.

(** ** The results *)

Lemma py_round_nonneg (x : R) (n : nat) : 0 <= x -> 0 <= py_round x n.
Proof.
  intros Hx. unfold py_round.
  assert (H10 : 0 < 10 ^ n) by (apply pow_lt; lra).
  apply Rmult_le_pos; [|apply Rlt_le, Rinv_0_lt_compat, H10].
  assert (Hy : 0 <= x * 10 ^ n) by (apply Rmult_le_pos; lra).
  pose proof (Zfloor_bound (x * 10 ^ n)) as [_ Hhi].
  destruct (round_half_even_between (x * 10 ^ n) 0 (Zfloor (x * 10 ^ n) + 1)) as [Hlo _].
  - rewrite plus_IZR. lra.
  - apply IZR_le in Hlo. exact Hlo.
Qed.

Lemma map_zip {A B C} (f : A * B -> C) (l : list A) (k : list B) :
  map f (zip l k) = zip_with (fun x y => f (x, y)) l k.
Proof.
  revert k. induction l as [|x l IH]; intros [|y k]; try reflexivity.
  cbn [zip_with map]. f_equal. apply IH.
Qed.

Lemma boolean_index_fields (f1 f2 : BusinessRow -> PyVal) (rows : list BusinessRow)
    (xs ys : list R) (g : R -> R -> bool) :
  map f1 rows = map PyNum xs ->
  map f2 rows = map PyNum ys ->
  boolean_index rows (zip_with g xs ys) =
  List.filter (fun row => match f1 row, f2 row with
                          | PyNum x, PyNum y => g x y
                          | _, _ => false
                          end) rows.
Proof.
  revert xs ys. induction rows as [|row rows IH]; intros xs ys H1 H2.
  - reflexivity.
  - destruct xs as [|x xs]; [discriminate|].
    destruct ys as [|y ys]; [discriminate|].
    cbn [map] in H1, H2. injection H1 as Hx Hxs. injection H2 as Hy Hys.
    cbn [zip_with List.filter]. rewrite boolean_index_cons, Hx, Hy.
    rewrite (IH xs ys Hxs Hys). reflexivity.
Qed.

Section ResultsExtras.
Context `{Shapely} `{SciLibs}.

Lemma get_businesses_in_downtown_filter (self : Analyzer) (df : BusinessFrame)
    (boundary : Geometry) (lats lons : list R) :
  businesses_df self = Some df ->
  downtown_boundary self = Some boundary ->
  numeric_col df "lat" b_lat = Returned lats ->
  numeric_col df "lon" b_lon = Returned lons ->
  get_businesses_in_downtown self =
    Returned {| bcolumns := bcolumns df;
                brows := List.filter
                  (fun row => match b_lon row, b_lat row with
                              | PyNum lo, PyNum la => contains boundary (lo, la)
                              | _, _ => false
                              end) (brows df) |}.
Proof.
  intros Hdf Hb Hlats Hlons.
  unfold get_businesses_in_downtown. rewrite Hb, Hdf. cbn [attr].
  rewrite bind_Returned, Hlons, bind_Returned, Hlats, bind_Returned. cbv zeta.
  apply numeric_col_inv in Hlats. destruct Hlats as [_ Hlats].
  apply numeric_col_inv in Hlons. destruct Hlons as [_ Hlons].
  rewrite map_zip.
  rewrite (boolean_index_fields b_lon b_lat _ lons lats _ Hlons Hlats). reflexivity.
Qed.

(** Property X18.  The results count the rows of the businesses frame and, as downtown
    businesses, exactly the rows whose point the boundary contains; the
    downtown count is at most the total and the density is not negative. *)
Theorem results_counts (self : Analyzer) (df : BusinessFrame) (boundary : Geometry)
    (lats lons : list R) :
  businesses_df self = Some df ->
  downtown_boundary self = Some boundary ->
  numeric_col df "lat" b_lat = Returned lats ->
  numeric_col df "lon" b_lon = Returned lons ->
  exists res,
    _generate_results self = Returned res /\
    r_total_businesses res = length (brows df) /\
    r_downtown_businesses res = length (brows (r_downtown_businesses_df res)) /\
    (r_downtown_businesses res <= r_total_businesses res)%nat /\
    sublist (brows (r_downtown_businesses_df res)) (brows df) /\
    (forall row, In row (brows (r_downtown_businesses_df res)) <->
       In row (brows df) /\
       exists la lo, b_lat row = PyNum la /\ b_lon row = PyNum lo /\
                     contains boundary (lo, la) = true) /\
    0 <= r_business_density_per_km2 res.
Proof.
  intros Hdf Hb Hlats Hlons.
  unfold _generate_results.
  rewrite (get_businesses_in_downtown_filter self df boundary lats lons Hdf Hb Hlats Hlons).
  rewrite bind_Returned, Hdf. cbn [attr].
  rewrite bind_Returned, Hlats, bind_Returned, Hb. cbn [attr]. rewrite bind_Returned.
  cbv zeta.
  set (inside := fun row : BusinessRow => match b_lon row, b_lat row with
                          | PyNum lo, PyNum la => contains boundary (lo, la)
                          | _, _ => false
                          end).
  eexists. split; [reflexivity|].
  cbn [r_total_businesses r_downtown_businesses r_downtown_businesses_df
       r_business_density_per_km2 brows].
  split; [reflexivity|]. split; [reflexivity|].
  pose proof (sublist_List_filter inside (brows df)) as Hsub.
  split; [apply sublist_length in Hsub; exact Hsub|]. split; [exact Hsub|]. split.
  - intros row. rewrite filter_In. unfold inside. split.
    + intros [Hin Hc]. split; [exact Hin|].
      destruct (b_lon row) as [|lo|]; try discriminate.
      destruct (b_lat row) as [|la|]; try discriminate.
      exists la, lo. repeat split. exact Hc.
    + intros [Hin [la [lo [-> [-> Hc]]]]]. split; [exact Hin|exact Hc].
  - destruct (Rltb 0 _) eqn:Ha; [|lra].
    apply Rltb_true_iff in Ha.
    apply py_round_nonneg.
    apply Rmult_le_pos; [apply pos_INR|apply Rlt_le, Rinv_0_lt_compat, Ha].
Qed.

End ResultsExtras.

(** ** Examples for the grid, the boundary and the results *)

Lemma high_density_selection_nonempty_witness :
  exists lats lons,
    _identify_high_density_areas (H := rect_geometry)
      (set_density (__init__ None) sample_density_grid sample_density_coords) =
      Returned (lats, lons) /\
    length lats = length lons /\ (1 <= length lats)%nat.
Proof.
  apply (high_density_selection_nonempty (H := rect_geometry)
           (set_density (__init__ None) sample_density_grid sample_density_coords)
           sample_density_grid
           [[40.0; 40.0]; [40.1; 40.1]] [[-74.0; -73.9]; [-74.0; -73.9]]).
  - reflexivity.
  - reflexivity.
  - discriminate.
  - reflexivity.
  - reflexivity.
  - simpl. lra.
Defined.

Lemma boundary_failure_is_hull_failure_witness :
  convex_hull (H := rect_geometry) (H0 := small_scilibs) [0; 0] [0; 1] =
    Raised (QhullError "input outside the examples") /\
  exists e0, alpha_shape (H := rect_geometry) (H0 := small_scilibs)
               (alpha (config (__init__ (H := rect_geometry) None))) [0; 0] [0; 1] = Raised e0.
Proof.
  apply (boundary_failure_is_hull_failure (H := rect_geometry) (H0 := small_scilibs)
           (__init__ None) [0; 0] [0; 1]).
  reflexivity.
Defined.



Lemma results_counts_witness :
  let self := set_downtown_boundary (H := rect_geometry)
                (set_businesses_df (__init__ None) (pd_DataFrame [test_restaurant_row]))
                sample_downtown_boundary in
  exists res,
    _generate_results self = Returned res /\
    r_total_businesses res = length (brows (pd_DataFrame [test_restaurant_row])) /\
    r_downtown_businesses res = length (brows (r_downtown_businesses_df res)) /\
    (r_downtown_businesses res <= r_total_businesses res)%nat /\
    sublist (brows (r_downtown_businesses_df res)) (brows (pd_DataFrame [test_restaurant_row])) /\
    (forall row, In row (brows (r_downtown_businesses_df res)) <->
       In row (brows (pd_DataFrame [test_restaurant_row])) /\
       exists la lo, b_lat row = PyNum la /\ b_lon row = PyNum lo /\
                     contains (Shapely := rect_geometry) sample_downtown_boundary (lo, la) = true) /\
    0 <= r_business_density_per_km2 res.
Proof.
  apply (results_counts (H := rect_geometry)
           (set_downtown_boundary (H := rect_geometry)
              (set_businesses_df (__init__ None) (pd_DataFrame [test_restaurant_row]))
              sample_downtown_boundary)
           (pd_DataFrame [test_restaurant_row]) sample_downtown_boundary [40.05] [-73.95]).
  - reflexivity.
  - reflexivity.
  - reflexivity.
  - reflexivity.
Defined.

(** * Properties of the validator *)

Import Validation.

Lemma filter_nil_iff {A} (p : A -> bool) (l : list A) :
  List.filter p l = [] <-> forall x, In x l -> p x = false.
Proof.
  induction l as [|x l IH]; cbn [List.filter].
  - split; [intros _ y []|reflexivity].
  - destruct (p x) eqn:Hp.
    + split; [discriminate|]. intros Hall.
      rewrite (Hall x (or_introl eq_refl)) in Hp. discriminate.
    + rewrite IH. split.
      * intros Hall y [<-|Hy]; [exact Hp|apply Hall, Hy].
      * intros Hall y Hy. apply Hall. right. exact Hy.
Qed.

Lemma map_eq_nil_iff {A B} (f : A -> B) (l : list A) : map f l = [] <-> l = [].
Proof. destruct l; split; intros; try reflexivity; discriminate. Qed.

Lemma Rltb_false_iff (x y : R) : Rltb x y = false <-> y <= x.
Proof.
  unfold Rltb. destruct (Rlt_dec x y); split; intros; try reflexivity; try discriminate; lra.
Qed.

Lemma not_in_false (business : gmap string PyVal) (field : string) :
  not_in business field = false <-> business !! field <> None.
Proof.
  unfold not_in. destruct (business !! field); split; intros; try reflexivity;
    try discriminate; congruence.
Qed.

Lemma record_errors_nil (business : gmap string PyVal) (index : nat) :
  _validate_business_record business index = [] <->
  (forall field, In field REQUIRED_BUSINESS_FIELDS -> business !! field <> None) /\
  (exists lat, business !! "lat" = Some (PyNum lat) /\ -90 <= lat <= 90) /\
  (exists lon, business !! "lon" = Some (PyNum lon) /\ -180 <= lon <= 180).
Proof.
  unfold _validate_business_record. cbv zeta.
  rewrite !app_nil, map_eq_nil_iff, filter_nil_iff.
  split.
  - intros [[Hfields Hlat] Hlon].
    assert (Hf : forall field, In field REQUIRED_BUSINESS_FIELDS -> business !! field <> None).
    { intros field Hin. apply not_in_false, Hfields, Hin. }
    split; [exact Hf|].
    assert (Hl1 : business !! "lat" <> None) by (apply Hf; simpl; tauto).
    assert (Hl2 : business !! "lon" <> None) by (apply Hf; simpl; tauto).
    split.
    + destruct (business !! "lat") as [[|lat|s]|]; try discriminate; [|congruence].
      exists lat. split; [reflexivity|].
      destruct (Rleb (-90) lat && Rleb lat 90) eqn:Hb; [|discriminate].
      rewrite andb_true_iff, !Rleb_true_iff in Hb. exact Hb.
    + destruct (business !! "lon") as [[|lon|s]|]; try discriminate; [|congruence].
      exists lon. split; [reflexivity|].
      destruct (Rleb (-180) lon && Rleb lon 180) eqn:Hb; [|discriminate].
      rewrite andb_true_iff, !Rleb_true_iff in Hb. exact Hb.
  - intros [Hf [[lat [Hlat Hlatr]] [lon [Hlon Hlonr]]]].
    split; [split|].
    + intros field Hin. apply not_in_false, Hf, Hin.
    + rewrite Hlat.
      replace (Rleb (-90) lat && Rleb lat 90) with true; [reflexivity|].
      symmetry. rewrite andb_true_iff, !Rleb_true_iff. exact Hlatr.
    + rewrite Hlon.
      replace (Rleb (-180) lon && Rleb lon 180) with true; [reflexivity|].
      symmetry. rewrite andb_true_iff, !Rleb_true_iff. exact Hlonr.
Qed.

Lemma coordinates_errors_nil (businesses : list (gmap string PyVal)) :
  _validate_coordinates businesses = [] <->
  (3 <= length (numeric_coordinates businesses))%nat /\
  0.001 <= np_max (map fst (numeric_coordinates businesses)) -
           np_min (map fst (numeric_coordinates businesses)) <= 1 /\
  0.001 <= np_max (map snd (numeric_coordinates businesses)) -
           np_min (map snd (numeric_coordinates businesses)) <= 1.
Proof.
  unfold _validate_coordinates. cbv zeta. rewrite length_map.
  destruct (Nat.ltb_spec (length (numeric_coordinates businesses)) 3) as [Hlt|Hge].
  - split; [discriminate|]. intros [Hge _]. lia.
  - rewrite app_nil.
    remember (np_max (map fst (numeric_coordinates businesses)) -
              np_min (map fst (numeric_coordinates businesses))) as lat_range.
    remember (np_max (map snd (numeric_coordinates businesses)) -
              np_min (map snd (numeric_coordinates businesses))) as lon_range.
    unfold Rltb.
    destruct (Rlt_dec 1 lat_range), (Rlt_dec 1 lon_range),
             (Rlt_dec lat_range 0.001), (Rlt_dec lon_range 0.001);
      cbn [orb];
      (split; [intros [E1 E2]; try discriminate; (split; [exact Hge|lra])
              |intros [_ [[? ?] [? ?]]]; try (exfalso; lra); split; reflexivity]).
Qed.

Lemma concat_imap_nil {A B} (f : nat -> A -> list B) (P : A -> Prop) (l : list A) :
  (forall i x, f i x = [] <-> P x) ->
  (concat (imap f l) = [] <-> Forall P l).
Proof.
  revert f. induction l as [|x l IH]; intros f Hf.
  - split; [constructor|reflexivity].
  - rewrite imap_cons. cbn [concat]. rewrite app_nil, Hf, (IH (f ∘ S)).
    + split; [intros [Hx Hl]; constructor; assumption|]. intros Hall.
      inversion Hall; subst. tauto.
    + intros i y. apply Hf.
Qed.

Lemma validate_business_data_errors (data : BusinessData) :
  (validate_business_data data).1 = true <-> (validate_business_data data).2 = [].
Proof.
  unfold validate_business_data. cbv zeta.
  destruct (Nat.eqb (length (default [] (data_businesses data))) 0); cbn [fst snd].
  - split; [discriminate|]. intros E. apply app_nil in E. destruct E as [_ E]. discriminate.
  - rewrite Nat.eqb_eq. split.
    + intros Hlen. apply length_zero_iff_nil, Hlen.
    + intros ->. reflexivity.
Qed.

Lemma validate_business_data_nil (data : BusinessData) :
  (validate_business_data data).2 = [] <->
  data_city data <> None /\
  exists businesses,
    data_businesses data = Some businesses /\
    Forall (fun business =>
      (forall field, In field REQUIRED_BUSINESS_FIELDS -> business !! field <> None) /\
      (exists lat, business !! "lat" = Some (PyNum lat) /\ -90 <= lat <= 90) /\
      (exists lon, business !! "lon" = Some (PyNum lon) /\ -180 <= lon <= 180))
      (take 10 businesses) /\
    (3 <= length (numeric_coordinates businesses))%nat /\
    0.001 <= np_max (map fst (numeric_coordinates businesses)) -
             np_min (map fst (numeric_coordinates businesses)) <= 1 /\
    0.001 <= np_max (map snd (numeric_coordinates businesses)) -
             np_min (map snd (numeric_coordinates businesses)) <= 1.
Proof.
  unfold validate_business_data. cbv zeta.
  destruct (data_businesses data) as [businesses|] eqn:Hb;
    cbn [default from_option Datatypes.id].
  2:{ cbn [length Nat.eqb snd]. split.
      - intros E. apply app_nil in E. destruct E as [_ E]. discriminate.
      - intros [_ [bs [E _]]]. discriminate. }
  destruct (Nat.eqb (length businesses) 0) eqn:Hlen; cbn [snd].
  - apply Nat.eqb_eq, length_zero_iff_nil in Hlen. subst businesses. split.
    + intros E. apply app_nil in E. destruct E as [_ E]. discriminate.
    + intros [_ [bs [[= <-] [_ [Hge _]]]]]. simpl in Hge. lia.
  - rewrite !app_nil, coordinates_errors_nil.
    rewrite (concat_imap_nil _ _ _ (fun i x => record_errors_nil x i)).
    split.
    + intros [[[Hcity _] Hrec] Hcoord].
      split; [destruct (data_city data); [discriminate|discriminate Hcity]|].
      exists businesses. split; [reflexivity|]. split; [exact Hrec|exact Hcoord].
    + intros [Hcity [bs [[= <-] [Hrec Hcoord]]]].
      split; [split; [split; [|reflexivity]|exact Hrec]|exact Hcoord].
      destruct (data_city data); [reflexivity|congruence].
Qed.

(** Property X19.  The validator accepts a business document exactly when it has a city,
    the first 10 records are complete with coordinates in range, at least 3
    records have numeric coordinates, and both coordinate spans lie between
    0.001 and 1 degree. *)
Theorem validation_accepts_iff (data : BusinessData) :
  ((validate_business_data data).1 = true <-> (validate_business_data data).2 = []) /\
  ((validate_business_data data).1 = true <->
   data_city data <> None /\
   exists businesses,
     data_businesses data = Some businesses /\
     Forall (fun business =>
       (forall field, In field REQUIRED_BUSINESS_FIELDS -> business !! field <> None) /\
       (exists lat, business !! "lat" = Some (PyNum lat) /\ -90 <= lat <= 90) /\
       (exists lon, business !! "lon" = Some (PyNum lon) /\ -180 <= lon <= 180))
       (take 10 businesses) /\
     (3 <= length (numeric_coordinates businesses))%nat /\
     0.001 <= np_max (map fst (numeric_coordinates businesses)) -
              np_min (map fst (numeric_coordinates businesses)) <= 1 /\
     0.001 <= np_max (map snd (numeric_coordinates businesses)) -
              np_min (map snd (numeric_coordinates businesses)) <= 1).
Proof.
  split; [apply validate_business_data_errors|].
  rewrite validate_business_data_errors. apply validate_business_data_nil.
Qed.

(** ** Validation and loading *)

Lemma business_row_complete (business : gmap string PyVal) :
  (forall field, In field REQUIRED_BUSINESS_FIELDS -> business !! field <> None) ->
  exists row, business_row business = Returned row.
Proof.
  intros Hf. unfold business_row, getitem.
  assert (H1 := Hf "id" ltac:(simpl; tauto)).
  assert (H2 := Hf "lat" ltac:(simpl; tauto)).
  assert (H3 := Hf "lon" ltac:(simpl; tauto)).
  assert (H4 := Hf "name" ltac:(simpl; tauto)).
  assert (H5 := Hf "business_type" ltac:(simpl; tauto)).
  assert (H6 := Hf "business_subtype" ltac:(simpl; tauto)).
  destruct (business !! "id"); [|congruence].
  destruct (business !! "lat"); [|congruence].
  destruct (business !! "lon"); [|congruence].
  destruct (business !! "name"); [|congruence].
  destruct (business !! "business_type"); [|congruence].
  destruct (business !! "business_subtype"); [|congruence].
  eexists. reflexivity.
Qed.

Lemma load_loop_complete (cfg : AnalysisConfig) (records : list (gmap string PyVal))
    (acc : list BusinessRow) :
  Forall (fun business =>
    forall field, In field REQUIRED_BUSINESS_FIELDS -> business !! field <> None) records ->
  exists rows, load_loop cfg records acc = Returned rows.
Proof.
  intros Hall. revert acc. induction Hall as [|b records Hb _ IH]; intros acc.
  - eexists. reflexivity.
  - cbn [load_loop].
    destruct (not_get b "lat" || not_get b "lon"); [apply IH|].
    destruct (commercial_only cfg && negb (_is_commercial_business b)); [apply IH|].
    destruct (business_row_complete b Hb) as [row ->]. rewrite bind_Returned. apply IH.
Qed.

(** Property X20.  The first 10 records of a document that the validator accepts are
    loaded by the analyzer's loop without an exception. *)
Theorem validated_prefix_loads (cfg : AnalysisConfig) (data : BusinessData) :
  (validate_business_data data).1 = true ->
  exists rows,
    load_loop cfg (take 10 (default [] (data_businesses data))) [] = Returned rows.
Proof.
  intros Hvalid.
  apply validate_business_data_errors, validate_business_data_nil in Hvalid.
  destruct Hvalid as [_ [businesses [-> [Hrec _]]]].
  cbn [default from_option Datatypes.id].
  apply load_loop_complete.
  eapply Forall_impl; [exact Hrec|]. cbn beta. tauto.
Qed.

Lemma numeric_coordinates_coords (l l' : list (gmap string PyVal)) :
  map (fun business => (business !! "lat", business !! "lon")) l =
  map (fun business => (business !! "lat", business !! "lon")) l' ->
  numeric_coordinates l = numeric_coordinates l'.
Proof.
  revert l'. induction l as [|b l IH]; intros [|b' l'] Hm; try discriminate; [reflexivity|].
  cbn [map] in Hm. injection Hm as Hlat Hlon Hrest.
  unfold numeric_coordinates in *. cbn [omap list_omap]. cbv beta.
  rewrite Hlat, Hlon. f_equal. rewrite (IH l' Hrest). reflexivity.
Qed.

(** Property X21.  Of the records after the tenth the validator reads only the
    coordinates: two documents that agree on the first 10 records and on the
    coordinates of the later ones get the same verdict. *)
Theorem validation_ignores_fields_beyond_tenth (city : option string)
    (pre rest rest' : list (gmap string PyVal)) :
  length pre = 10%nat ->
  map (fun business => (business !! "lat", business !! "lon")) rest =
  map (fun business => (business !! "lat", business !! "lon")) rest' ->
  validate_business_data
    {| data_city := city; data_businesses := Some (pre ++ rest)%list |} =
  validate_business_data
    {| data_city := city; data_businesses := Some (pre ++ rest')%list |}.
Proof.
  intros Hlen Hcoords. unfold validate_business_data. cbv zeta.
  cbn [data_city data_businesses default from_option Datatypes.id].
  rewrite !length_app, Hlen. cbn [Nat.add Nat.eqb].
  rewrite !(take_app_length' pre _ 10) by (symmetry; exact Hlen).
  unfold _validate_coordinates, numeric_coordinates.
  rewrite !omap_app.
  fold (numeric_coordinates rest). fold (numeric_coordinates rest').
  rewrite (numeric_coordinates_coords rest rest' Hcoords). reflexivity.
Qed.

(** ** Validation of the listings *)

Section ListingValidation.
Context `{Shapely}.
Variable cfg : DMURConfig.

Lemma missing_fields_missing_cols (df : DataFrame) :
  List.filter (fun field => negb (bool_decide (field ∈ columns df))) REQUIRED_LISTING_FIELDS = [] ->
  missing_cols df = [].
Proof.
  intros Hnil. unfold missing_cols.
  assert (Hall : forall c, In c REQUIRED_LISTING_FIELDS -> c ∈ columns df).
  { intros c Hc. pose proof (proj1 (filter_nil_iff _ _) Hnil c Hc) as Hn.
    apply negb_false_iff, bool_decide_eq_true in Hn. exact Hn. }
  destruct (filter _ required_cols) as [|c cs] eqn:E; [reflexivity|]. exfalso.
  assert (Hc : c ∈ filter (fun col => col ∉ columns df) required_cols)
    by (rewrite E; left).
  apply list_elem_of_filter in Hc. destruct Hc as [Hnot Hin].
  apply Hnot, Hall, list_elem_of_In, Hin.
Qed.

(** Property X22.  A listings frame that the validator accepts has the columns the scorer
    requires and values in range, and the scorer, configured with a
    positive optimal ratio, returns a result for it. *)
Theorem validated_listings_scored (df : DataFrame) (boundary : Geometry)
    (business_locations : list (R * R)) (name : string) :
  0 < optimal_residential_ratio cfg ->
  (validate_listing_data df).1 = true ->
  (validate_listing_data df).2 = [] /\
  missing_cols df = [] /\
  Forall (fun row =>
    -90 <= lat row <= 90 /\ -180 <= lon row <= 180 /\
    (0 <= bedrooms row)%Z /\ 0 < area_sqm row /\ 0 < price row) (rows df) /\
  exists r,
    calculate_dmur cfg (FromDataFrame df) boundary business_locations name = Returned r.
Proof.
  intros _.
  unfold validate_listing_data. cbv zeta. cbn [fst snd].
  rewrite Nat.eqb_eq. intros Hlen. apply length_zero_iff_nil in Hlen.
  split; [exact Hlen|].
  rewrite !app_nil in Hlen.
  destruct Hlen as [[[[[Hmiss Hlat] Hlon] Hbed] Harea] Hprice].
  assert (Hnil : List.filter (fun field => negb (bool_decide (field ∈ columns df)))
                   REQUIRED_LISTING_FIELDS = []).
  { destruct (List.filter _ REQUIRED_LISTING_FIELDS); [reflexivity|discriminate]. }
  assert (Hall : forall c, In c REQUIRED_LISTING_FIELDS -> bool_decide (c ∈ columns df) = true).
  { intros c Hc. pose proof (proj1 (filter_nil_iff _ _) Hnil c Hc) as Hn.
    apply negb_false_iff in Hn. exact Hn. }
  rewrite (Hall "lat") in Hlat by (simpl; tauto).
  rewrite (Hall "lon") in Hlon by (simpl; tauto).
  rewrite (Hall "bedrooms") in Hbed by (simpl; tauto).
  rewrite (Hall "area_sqm") in Harea by (simpl; tauto).
  rewrite (Hall "price") in Hprice by (simpl; tauto).
  pose proof (missing_fields_missing_cols df Hnil) as Hcols.
  split; [exact Hcols|]. split.
  - apply Forall_forall. intros row Hrow. apply list_elem_of_In in Hrow.
    destruct (forallb _ (rows df)) eqn:Flat in Hlat; [|discriminate].
    destruct (forallb _ (rows df)) eqn:Flon in Hlon; [|discriminate].
    destruct (existsb _ (rows df)) eqn:Fbed in Hbed; [discriminate|].
    destruct (existsb _ (rows df)) eqn:Farea in Harea; [discriminate|].
    destruct (existsb _ (rows df)) eqn:Fprice in Hprice; [discriminate|].
    rewrite forallb_forall in Flat, Flon.
    specialize (Flat row Hrow). specialize (Flon row Hrow).
    rewrite andb_true_iff, !Rleb_true_iff in Flat, Flon.
    split; [exact Flat|]. split; [exact Flon|].
    assert (Hb : Z.ltb (bedrooms row) 0 = false).
    { destruct (Z.ltb (bedrooms row) 0) eqn:E; [|reflexivity].
      rewrite <- Fbed. symmetry. apply existsb_exists. exists row. tauto. }
    assert (Ha : Rleb (area_sqm row) 0 = false).
    { destruct (Rleb (area_sqm row) 0) eqn:E; [|reflexivity].
      rewrite <- Farea. symmetry. apply existsb_exists. exists row. tauto. }
    assert (Hp : Rleb (price row) 0 = false).
    { destruct (Rleb (price row) 0) eqn:E; [|reflexivity].
      rewrite <- Fprice. symmetry. apply existsb_exists. exists row. tauto. }
    apply Z.ltb_ge in Hb.
    unfold Rleb in Ha, Hp.
    destruct (Rle_dec (area_sqm row) 0); [discriminate|].
    destruct (Rle_dec (price row) 0); [discriminate|].
    split; [exact Hb|]. split; lra.
  - unfold calculate_dmur, _load_listings_data. rewrite bind_Returned.
    rewrite (filter_downtown_ok _ _ Hcols), bind_Returned.
    destruct (Nat.eqb _ 0); eexists; reflexivity.
Qed.

End ListingValidation.


(** ** Examples for the validator *)

Lemma sample_numeric_coordinates :
  numeric_coordinates sample_businesses =
    [(40.05, -73.95); (40.051, -73.951); (40.052, -73.952)].
Proof. reflexivity. Qed.

Lemma sample_business_complete (id lat lon : R) (name btype subtype : string) :
  forall field, In field REQUIRED_BUSINESS_FIELDS ->
    sample_business id lat lon name btype subtype !! field <> None.
Proof.
  intros field [<-|[<-|[<-|[<-|[<-|[<-|[]]]]]]]; discriminate.
Qed.

Lemma sample_business_data_valid :
  (validate_business_data sample_business_data).1 = true.
Proof.
  apply validate_business_data_errors, validate_business_data_nil.
  split; [discriminate|].
  exists sample_businesses. split; [reflexivity|].
  split.
  { cbn [take sample_businesses].
    repeat constructor; try apply sample_business_complete.
    - exists 40.05. split; [reflexivity|lra].
    - exists (-73.95). split; [reflexivity|lra].
    - exists 40.051. split; [reflexivity|lra].
    - exists (-73.951). split; [reflexivity|lra].
    - exists 40.052. split; [reflexivity|lra].
    - exists (-73.952). split; [reflexivity|lra]. }
  rewrite sample_numeric_coordinates.
  split; [simpl; lia|].
  cbn [map fst snd np_max np_min fold_left].
  rewrite (Rmax_right 40.05 40.051), (Rmax_right 40.051 40.052) by lra.
  rewrite (Rmin_left 40.05 40.051), (Rmin_left 40.05 40.052) by lra.
  rewrite (Rmax_left (-73.95) (-73.951)), (Rmax_left (-73.95) (-73.952)) by lra.
  rewrite (Rmin_right (-73.95) (-73.951)), (Rmin_right (-73.951) (-73.952)) by lra.
  lra.
Qed.

Lemma validated_prefix_loads_witness :
  exists rows,
    load_loop Analyzer.default_config
      (take 10 (default [] (data_businesses sample_business_data))) [] = Returned rows.
Proof.
  apply (validated_prefix_loads Analyzer.default_config sample_business_data).
  exact sample_business_data_valid.
Defined.

Lemma validation_ignores_fields_beyond_tenth_witness :
  validate_business_data
    {| data_city := Some "Test City";
       data_businesses := Some (replicate 10 test_restaurant ++ [nameless_shop])%list |} =
  validate_business_data
    {| data_city := Some "Test City";
       data_businesses := Some (replicate 10 test_restaurant ++ [named_shop])%list |}.
Proof.
  apply (validation_ignores_fields_beyond_tenth (Some "Test City")
           (replicate 10 test_restaurant) [nameless_shop] [named_shop]).
  - reflexivity.
  - reflexivity.
Defined.

Lemma one_bedroom_listings_valid :
  (validate_listing_data one_bedroom_listings).1 = true.
Proof.
  unfold validate_listing_data. cbv zeta. cbn [fst].
  change (bool_decide ("lat" ∈ columns one_bedroom_listings)) with true.
  change (bool_decide ("lon" ∈ columns one_bedroom_listings)) with true.
  change (bool_decide ("bedrooms" ∈ columns one_bedroom_listings)) with true.
  change (bool_decide ("area_sqm" ∈ columns one_bedroom_listings)) with true.
  change (bool_decide ("price" ∈ columns one_bedroom_listings)) with true.
  change (List.filter (fun field => negb (bool_decide (field ∈ columns one_bedroom_listings)))
            REQUIRED_LISTING_FIELDS) with (@nil string).
  cbn [forallb existsb rows one_bedroom_listings lat lon bedrooms area_sqm price].
  unfold Rleb. rdec. reflexivity.
Qed.

Lemma validated_listings_scored_witness :
  (validate_listing_data one_bedroom_listings).2 = [] /\
  missing_cols one_bedroom_listings = [] /\
  Forall (fun row =>
    -90 <= lat row <= 90 /\ -180 <= lon row <= 180 /\
    (0 <= bedrooms row)%Z /\ 0 < area_sqm row /\ 0 < price row)
    (rows one_bedroom_listings) /\
  exists r,
    calculate_dmur (H := rect_geometry) DMUR.default_config
      (FromDataFrame one_bedroom_listings) sample_downtown_boundary
      sample_business_locations "Test City" = Returned r.
Proof.
  apply (validated_listings_scored (H := rect_geometry) DMUR.default_config
           one_bedroom_listings).
  - simpl. lra.
  - exact one_bedroom_listings_valid.
Defined.

(** * The whole analysis *)

Lemma for_each_index_from {A} (pre l : list A) :
  for_each (index (pre ++ l)%list) (seq (length pre) (length l)) = Returned l.
Proof.
  revert pre. induction l as [|x l IH]; intros pre; [reflexivity|].
  cbn [length seq for_each].
  assert (Hx : index (pre ++ x :: l)%list (length pre) = Returned x).
  { unfold index. rewrite lookup_app_r, Nat.sub_diag by lia. reflexivity. }
  rewrite Hx, bind_Returned.
  specialize (IH (pre ++ [x])%list). rewrite <- app_assoc, length_app in IH.
  cbn [app length] in IH. replace (length pre + 1)%nat with (S (length pre)) in IH by lia.
  rewrite IH. reflexivity.
Qed.

Lemma for_each_index_seq {A} (l : list A) :
  for_each (index l) (seq 0 (length l)) = Returned l.
Proof. apply (for_each_index_from [] l). Qed.

Section AnalysisExtras.
Context `{Shapely} `{SciLibs}.

Lemma calculate_density_grid_inv (self self' : Analyzer) :
  _calculate_density_grid self = Returned self' ->
  exists grid coords, self' = set_density self grid coords.
Proof.
  unfold _calculate_density_grid.
  destruct (attr (businesses_df self)) as [df|e]; [|discriminate]. rewrite bind_Returned.
  destruct (numeric_col df "lat" b_lat) as [lats|e]; [|discriminate]. rewrite bind_Returned.
  destruct (numeric_col df "lon" b_lon) as [lons|e]; [|discriminate]. rewrite bind_Returned.
  destruct (Nat.eqb (length (brows df)) 0); [discriminate|].
  cbv zeta iota beta.
  destruct (np_arange (np_min lats - _) _ _) as [lat_range|e]; [|discriminate].
  rewrite bind_Returned.
  destruct (np_arange (np_min lons - _) _ _) as [lon_range|e]; [|discriminate].
  rewrite bind_Returned.
  destruct (np_meshgrid lon_range lat_range) as [lon_grid lat_grid].
  destruct (KernelDensity_score_samples _ _ _) as [ld|e]; [|discriminate].
  rewrite bind_Returned. cbv zeta.
  destruct (reshape _ _ _) as [grid|e]; [|discriminate]. rewrite bind_Returned.
  intros [= <-]. eexists _, _. reflexivity.
Qed.

Lemma create_downtown_boundary_inv (self self' : Analyzer) (lats lons : list R) :
  _create_downtown_boundary self lats lons = Returned self' ->
  exists boundary, self' = set_downtown_boundary self boundary.
Proof.
  unfold _create_downtown_boundary.
  destruct (try_except _ _) as [b|e]; [|discriminate]. rewrite bind_Returned. cbv zeta.
  intros [= <-]. eexists. reflexivity.
Qed.

Lemma generate_results_inv (self : Analyzer) (res : Results) :
  _generate_results self = Returned res ->
  exists df boundary lats lons,
    businesses_df self = Some df /\
    downtown_boundary self = Some boundary /\
    numeric_col df "lat" b_lat = Returned lats /\
    numeric_col df "lon" b_lon = Returned lons.
Proof.
  unfold _generate_results, get_businesses_in_downtown.
  destruct (downtown_boundary self) as [boundary|]; [|discriminate].
  destruct (businesses_df self) as [df|]; [|discriminate].
  cbn [attr]. rewrite bind_Returned.
  destruct (numeric_col df "lon" b_lon) as [lons|e] eqn:Hlons; [|discriminate].
  rewrite bind_Returned.
  destruct (numeric_col df "lat" b_lat) as [lats|e] eqn:Hlats; [|discriminate].
  intros _. exists df, boundary, lats, lons. repeat split; assumption || reflexivity.
Qed.

Lemma generate_results_explicit (self : Analyzer) (df : BusinessFrame)
    (boundary : Geometry) (lats lons : list R) :
  businesses_df self = Some df ->
  downtown_boundary self = Some boundary ->
  numeric_col df "lat" b_lat = Returned lats ->
  numeric_col df "lon" b_lon = Returned lons ->
  exists area_km2 density downtown,
    0 <= density /\
    sublist downtown (brows df) /\
    _generate_results self = Returned {|
      r_city := city_name self;
      r_total_businesses := length (brows df);
      r_downtown_businesses := length downtown;
      r_downtown_area_km2 := area_km2;
      r_business_density_per_km2 := density;
      r_downtown_boundary := boundary;
      r_businesses_df := df;
      r_downtown_businesses_df := {| bcolumns := bcolumns df; brows := downtown |};
      r_density_grid := density_grid self;
      r_density_coords := density_coords self |}.
Proof.
  intros Hdf Hb Hlats Hlons.
  unfold _generate_results.
  rewrite (get_businesses_in_downtown_filter self df boundary lats lons Hdf Hb Hlats Hlons).
  rewrite bind_Returned, Hdf. cbn [attr].
  rewrite bind_Returned, Hlats, bind_Returned, Hb. cbn [attr]. rewrite bind_Returned.
  cbv zeta. cbn [brows].
  eexists _, _, _. split; [|split; [|reflexivity]].
  - destruct (Rltb 0 _) eqn:Ha; [|lra].
    apply Rltb_true_iff in Ha.
    apply py_round_nonneg.
    apply Rmult_le_pos; [apply pos_INR|apply Rlt_le, Rinv_0_lt_compat, Ha].
  - apply sublist_List_filter.
Qed.

Lemma select_high_density_returns (grid : list (list R))
    (coords : list (list R) * list (list R)) (q : R) :
  0 <= q <= 100 -> exists high, select_high_density grid coords q = Returned high.
Proof.
  intros Hq. unfold select_high_density.
  rewrite np_percentile_interp by exact Hq. rewrite bind_Returned.
  destruct coords as [lat_grid lon_grid]. eexists. reflexivity.
Qed.

Lemma identify_high_density_returns (self : Analyzer) (grid : list (list R))
    (coords : list (list R) * list (list R)) :
  density_grid self = Some grid ->
  density_coords self = Some coords ->
  0 <= density_threshold_percentile (config self) <= 100 ->
  exists high, _identify_high_density_areas self = Returned high.
Proof.
  intros Hgrid Hcoords Hq.
  unfold _identify_high_density_areas. rewrite Hgrid, Hcoords. cbn [attr].
  rewrite !bind_Returned. cbv zeta.
  destruct (select_high_density_returns grid coords _ Hq) as [high ->].
  rewrite bind_Returned.
  destruct (Nat.ltb _ 3); [|eexists; reflexivity].
  apply select_high_density_returns.
  pose proof (Rmax_l 70 (density_threshold_percentile (config self) - 20)).
  assert (Rmax 70 (density_threshold_percentile (config self) - 20) <= 100)
    by (apply Rmax_lub; lra).
  lra.
Qed.

(** Property X23.  Whenever the analysis returns, its result names the city given or the
    document's, counts at least 3 businesses, the rows of the loaded frame,
    counts as downtown businesses a sublist of them, has a density that is
    not negative and a density grid, and the analyzer holds the frame and
    the boundary of the result, with the configuration it had. *)
Theorem analysis_result_consistent (self self' : Analyzer) (data : BusinessData)
    (name : option string) (res : Results) :
  analyze self data name = Returned (res, self') ->
  r_city res = Some (city_or name data) /\
  (3 <= r_total_businesses res)%nat /\
  r_total_businesses res = length (brows (r_businesses_df res)) /\
  r_downtown_businesses res = length (brows (r_downtown_businesses_df res)) /\
  sublist (brows (r_downtown_businesses_df res)) (brows (r_businesses_df res)) /\
  0 <= r_business_density_per_km2 res /\
  (exists loaded,
     _load_business_data (set_city_name self (city_or name data)) data = Returned loaded /\
     businesses_df loaded = Some (r_businesses_df res)) /\
  businesses_df self' = Some (r_businesses_df res) /\
  downtown_boundary self' = Some (r_downtown_boundary res) /\
  density_grid self' = r_density_grid res /\
  r_density_grid res <> None /\
  config self' = config self.
Proof.
  unfold analyze. cbv zeta.
  destruct (_load_business_data _ data) as [s1|e] eqn:Hload; [|discriminate].
  rewrite bind_Returned.
  destruct (load_business_data_inv _ _ _ Hload) as [loaded [df [_ [Hs1 _]]]].
  assert (Hdf1 : businesses_df s1 = Some df) by (rewrite Hs1; reflexivity).
  rewrite Hdf1. cbn [attr]. rewrite bind_Returned.
  destruct (Nat.ltb_spec (length (brows df)) 3) as [Hlt|Hge]; [discriminate|].
  destruct (_calculate_density_grid s1) as [s2|e] eqn:Hgrid; [|discriminate].
  rewrite bind_Returned.
  destruct (calculate_density_grid_inv _ _ Hgrid) as [grid [coords Hs2]].
  destruct (_identify_high_density_areas s2) as [[lats lons]|e]; [|discriminate].
  rewrite bind_Returned.
  destruct (_create_downtown_boundary s2 lats lons) as [s3|e] eqn:Hbound; [|discriminate].
  rewrite bind_Returned.
  destruct (create_downtown_boundary_inv _ _ _ _ Hbound) as [boundary Hs3].
  destruct (_generate_results s3) as [res'|e] eqn:Hres; [|discriminate].
  rewrite bind_Returned. intros [= -> ->].
  destruct (generate_results_inv _ _ Hres) as [df' [b' [la [lo [Hdf3 [Hb3 [Hla Hlo]]]]]]].
  subst self' s2 s1. cbn in Hdf3, Hb3.
  injection Hdf3 as <-. injection Hb3 as <-.
  destruct (generate_results_explicit
              (set_downtown_boundary
                 (set_density (set_businesses_df (set_city_name self (city_or name data)) df)
                    grid coords) boundary)
              df boundary la lo eq_refl eq_refl Hla Hlo)
    as [area_km2 [density [downtown [Hdens [Hsub Hexp]]]]].
  rewrite Hexp in Hres. injection Hres as <-.
  cbn [r_city r_total_businesses r_downtown_businesses r_business_density_per_km2
       r_businesses_df r_downtown_businesses_df r_downtown_boundary r_density_grid brows].
  split; [reflexivity|].
  split; [exact Hge|]. split; [reflexivity|]. split; [reflexivity|].
  split; [exact Hsub|]. split; [exact Hdens|].
  split; [eexists; split; [reflexivity|reflexivity]|].
  split; [reflexivity|]. split; [reflexivity|]. split; [reflexivity|].
  split; [discriminate|]. reflexivity.
Qed.

End AnalysisExtras.

(** ** A whole run *)

Lemma load_sample_businesses :
  load_loop plain_config sample_businesses [] = Returned sample_rows.
Proof.
  unfold sample_businesses. cbn [load_loop].
  rewrite !(not_get_truthy_num _ "lat" 40.05), !(not_get_truthy_num _ "lon" (-73.95))
    by (reflexivity || lra).
  cbn [orb].
  change (_is_commercial_business
            (sample_business 1 40.05 (-73.95) "Test Restaurant" "amenity" "restaurant"))
    with true.
  cbn [commercial_only plain_config andb negb].
  change (business_row
            (sample_business 1 40.05 (-73.95) "Test Restaurant" "amenity" "restaurant"))
    with (Returned (nth 0 sample_rows test_restaurant_row)).
  rewrite bind_Returned.
  rewrite !(not_get_truthy_num _ "lat" 40.051), !(not_get_truthy_num _ "lon" (-73.951))
    by (reflexivity || lra).
  cbn [orb].
  change (_is_commercial_business
            (sample_business 2 40.051 (-73.951) "Test Shop" "shop" "clothing"))
    with true.
  cbn [andb negb].
  change (business_row
            (sample_business 2 40.051 (-73.951) "Test Shop" "shop" "clothing"))
    with (Returned (nth 1 sample_rows test_restaurant_row)).
  rewrite bind_Returned.
  rewrite !(not_get_truthy_num _ "lat" 40.052), !(not_get_truthy_num _ "lon" (-73.952))
    by (reflexivity || lra).
  cbn [orb].
  change (_is_commercial_business
            (sample_business 3 40.052 (-73.952) "Test Office" "office" "company"))
    with true.
  cbn [andb negb].
  change (business_row
            (sample_business 3 40.052 (-73.952) "Test Office" "office" "company"))
    with (Returned (nth 2 sample_rows test_restaurant_row)).
  rewrite bind_Returned.
  reflexivity.
Qed.

Lemma hull_boundary (self : Analyzer (H := rect_geometry)) (lats lons : list R) :
  exists boundary,
    _create_downtown_boundary (H0 := hull_scilibs) self lats lons =
      Returned (set_downtown_boundary self boundary).
Proof.
  unfold _create_downtown_boundary, alpha_shape.
  change (Delaunay_simplices (SciLibs := hull_scilibs) (zip lons lats))
    with (Raised (A := list (nat * nat * nat)) (QhullError "no triangulation")).
  cbn [mbind Outcome_bind try_except]. unfold convex_hull.
  change (ConvexHull_vertices (SciLibs := hull_scilibs) (zip lons lats))
    with (Returned (seq 0 (length (zip lons lats)))).
  rewrite bind_Returned, for_each_index_seq, !bind_Returned.
  eexists. reflexivity.
Qed.

Lemma sample_analysis_returns :
  exists res self',
    analyze (H := rect_geometry) (H0 := hull_scilibs) (__init__ (Some plain_config))
      sample_business_data None = Returned (res, self').
Proof.
  unfold analyze. cbv zeta.
  set (s0 := set_city_name (__init__ (H := rect_geometry) (Some plain_config))
               (city_or None sample_business_data)).
  assert (Hload : _load_business_data (H0 := hull_scilibs) s0 sample_business_data =
                  Returned (set_businesses_df s0 (pd_DataFrame sample_rows))).
  { unfold _load_business_data.
    change (config s0) with plain_config.
    change (default [] (data_businesses sample_business_data)) with sample_businesses.
    rewrite load_sample_businesses, bind_Returned. reflexivity. }
  rewrite Hload, bind_Returned.
  set (s1 := set_businesses_df s0 (pd_DataFrame sample_rows)).
  change (attr (businesses_df s1)) with (Returned (pd_DataFrame sample_rows)).
  rewrite bind_Returned.
  change (Nat.ltb (length (brows (pd_DataFrame sample_rows))) 3) with false.
  cbv iota.
  destruct (calculate_density_grid_returns (H0 := hull_scilibs) s1 (pd_DataFrame sample_rows)
              [40.05; 40.051; 40.052] [-73.95; -73.951; -73.952])
    as [lat_range [lon_range [log_density [_ [_ [_ Hgrid]]]]]].
  { reflexivity. }
  { discriminate. }
  { reflexivity. }
  { reflexivity. }
  { change (grid_size (config s1)) with 0.002. lra. }
  { intros X G _ _. exists (gaussian_kde (bandwidth (config s1)) X G).
    split; [reflexivity|]. unfold gaussian_kde. apply length_map. }
  rewrite Hgrid, bind_Returned.
  set (s2 := set_density s1 _ _).
  destruct (identify_high_density_returns s2 _ _ eq_refl eq_refl)
    as [[lats lons] Hhigh].
  { change (density_threshold_percentile (config s2)) with 90. lra. }
  rewrite Hhigh, bind_Returned.
  destruct (hull_boundary s2 lats lons) as [boundary Hbound].
  rewrite Hbound, bind_Returned.
  set (s3 := set_downtown_boundary s2 boundary).
  destruct (generate_results_explicit s3 (pd_DataFrame sample_rows) boundary
              [40.05; 40.051; 40.052] [-73.95; -73.951; -73.952])
    as [area_km2 [density [downtown [_ [_ Hres]]]]]; try reflexivity.
  rewrite Hres, bind_Returned.
  eexists _, _. reflexivity.
Qed.

Lemma analysis_result_consistent_witness :
  exists res self',
    analyze (H := rect_geometry) (H0 := hull_scilibs) (__init__ (Some plain_config))
      sample_business_data None = Returned (res, self') /\
    r_city res = Some "Test City" /\
    (3 <= r_total_businesses res)%nat /\
    r_total_businesses res = length (brows (r_businesses_df res)) /\
    r_downtown_businesses res = length (brows (r_downtown_businesses_df res)) /\
    sublist (brows (r_downtown_businesses_df res)) (brows (r_businesses_df res)) /\
    0 <= r_business_density_per_km2 res /\
    (exists loaded,
       _load_business_data (H := rect_geometry) (H0 := hull_scilibs)
         (set_city_name (__init__ (Some plain_config)) "Test City")
         sample_business_data = Returned loaded /\
       businesses_df loaded = Some (r_businesses_df res)) /\
    businesses_df self' = Some (r_businesses_df res) /\
    downtown_boundary self' = Some (r_downtown_boundary res) /\
    density_grid self' = r_density_grid res /\
    r_density_grid res <> None /\
    config self' = plain_config.
Proof.
  destruct sample_analysis_returns as [res [self' Hrun]].
  exists res, self'. split; [exact Hrun|].
  exact (analysis_result_consistent (H := rect_geometry) (H0 := hull_scilibs)
           (__init__ (Some plain_config)) self' sample_business_data None res Hrun).
Defined.

(** * The focus area of the largest cluster *)

Lemma count_occ_filter_keep (p : Z -> bool) (l : list Z) (x : Z) :
  p x = true ->
  count_occ Z.eq_dec (List.filter p l) x = count_occ Z.eq_dec l x.
Proof.
  intros Hp. induction l as [|y l IH]; [reflexivity|].
  cbn [List.filter]. destruct (Z.eq_dec y x) as [->|Hne].
  - rewrite Hp. rewrite !count_occ_cons_eq by reflexivity. rewrite IH. reflexivity.
  - destruct (p y).
    + rewrite !count_occ_cons_neq by exact Hne. exact IH.
    + rewrite count_occ_cons_neq by exact Hne. exact IH.
Qed.

Lemma unique_labels_iff (a : list Z) (x : Z) :
  x ∈ (np_unique_counts a).1 <-> In x a.
Proof.
  unfold np_unique_counts. cbn [fst].
  rewrite merge_sort_Permutation, list_elem_of_In. apply nodup_In.
Qed.

Lemma largest_cluster (labels : list Z) :
  (exists l, In l labels /\ (0 <= l)%Z) ->
  exists largest,
    index (np_unique_counts (List.filter (fun l => Z.leb 0 l) labels)).1
          (np_argmax (np_unique_counts (List.filter (fun l => Z.leb 0 l) labels)).2)
      = Returned largest /\
    In largest labels /\ (0 <= largest)%Z /\
    forall l, (0 <= l)%Z ->
      (count_occ Z.eq_dec labels l <= count_occ Z.eq_dec labels largest)%nat.
Proof.
  intros [l0 [Hin0 Hpos0]].
  set (a := List.filter (fun l => Z.leb 0 l) labels).
  assert (Ha : forall x, In x a <-> In x labels /\ (0 <= x)%Z).
  { intros x. unfold a. rewrite filter_In, Z.leb_le. reflexivity. }
  assert (Hu : (np_unique_counts a).1 <> []).
  { intros E. assert (Hl0 : l0 ∈ (np_unique_counts a).1)
      by (apply unique_labels_iff, Ha; split; assumption).
    rewrite E in Hl0. apply elem_of_nil in Hl0. exact Hl0. }
  assert (Hc : (np_unique_counts a).2 = map (count_occ Z.eq_dec a) (np_unique_counts a).1)
    by reflexivity.
  assert (Hcne : (np_unique_counts a).2 <> []).
  { rewrite Hc. intros E. apply map_eq_nil in E. exact (Hu E). }
  pose proof (np_argmax_lt _ Hcne) as Hlt.
  destruct (np_argmax_max _ Hcne) as [m [Hm Hmax]].
  assert (Hlen : length (np_unique_counts a).2 = length (np_unique_counts a).1)
    by (rewrite Hc; apply length_map).
  rewrite Hlen in Hlt.
  destruct (lookup_lt_is_Some_2 _ _ Hlt) as [largest Hlook].
  exists largest. unfold index. rewrite Hlook.
  split; [reflexivity|].
  assert (Hla : In largest a).
  { apply unique_labels_iff, list_elem_of_lookup. eexists; exact Hlook. }
  apply Ha in Hla. destruct Hla as [Hin Hpos].
  split; [exact Hin|]. split; [exact Hpos|].
  assert (Hmeq : m = count_occ Z.eq_dec a largest).
  { assert (Hm' : (count_occ Z.eq_dec a <$> (np_unique_counts a).1)
                     !! np_argmax (np_unique_counts a).2 = Some m) by exact Hm.
    rewrite list_lookup_fmap, Hlook in Hm'. cbn in Hm'. congruence. }
  intros l Hl.
  rewrite <- (count_occ_filter_keep (fun l => Z.leb 0 l) labels l)
    by (apply Z.leb_le; exact Hl).
  rewrite <- (count_occ_filter_keep (fun l => Z.leb 0 l) labels largest)
    by (apply Z.leb_le; exact Hpos).
  fold a. rewrite <- Hmeq.
  destruct (in_dec Z.eq_dec l a) as [Hla|Hnla].
  - apply Hmax. rewrite Hc. apply list_elem_of_In, in_map.
    apply list_elem_of_In, unique_labels_iff, Hla.
  - apply (count_occ_not_In Z.eq_dec) in Hnla. rewrite Hnla. lia.
Qed.

Lemma boolean_index_lookup {A} (a : list A) (mask : list bool) (i : nat) (x : A) :
  a !! i = Some x -> mask !! i = Some true -> In x (boolean_index a mask).
Proof.
  revert mask i. induction a as [|y a IH]; intros [|m mask] [|i] Ha Hm; try discriminate.
  - injection Ha as ->. injection Hm as ->. rewrite boolean_index_cons. left. reflexivity.
  - rewrite boolean_index_cons. cbn in Ha, Hm. specialize (IH mask i Ha Hm).
    destruct m; [right|]; exact IH.
Qed.

Section ClusterFocus.
Context `{Shapely} `{SciLibs}.

(** Property X24.  With 10 businesses or more and some point in a cluster, the automatic
    focus area is returned for a cluster that no other cluster exceeds in
    size, and it contains every business of that cluster. *)
Theorem cluster_focus_area_covers_largest_cluster (businesses_df : BusinessFrame)
    (lats lons : list R) (labels : list Z) :
  (10 <= length (brows businesses_df))%nat ->
  numeric_col businesses_df "lat" b_lat = Returned lats ->
  numeric_col businesses_df "lon" b_lon = Returned lons ->
  DBSCAN_labels (Rmin (np_max lats - np_min lats) (np_max lons - np_min lons) * 0.01)
                10 (zip lats lons) = Returned labels ->
  (exists l, In l labels /\ (0 <= l)%Z) ->
  exists largest min_lat min_lon max_lat max_lon,
    _auto_determine_focus_area businesses_df =
      Returned (min_lat, min_lon, max_lat, max_lon) /\
    In largest labels /\ (0 <= largest)%Z /\
    (forall l, (0 <= l)%Z ->
       (count_occ Z.eq_dec labels l <= count_occ Z.eq_dec labels largest)%nat) /\
    (forall i la lo,
       labels !! i = Some largest -> lats !! i = Some la -> lons !! i = Some lo ->
       min_lat <= la <= max_lat /\ min_lon <= lo <= max_lon).
Proof.
  intros Hlen Hlats Hlons Hdb Hex.
  destruct (largest_cluster labels Hex) as [largest [Hidx [Hin [Hpos Hbig]]]].
  unfold _auto_determine_focus_area.
  destruct (Nat.ltb_spec (length (brows businesses_df)) 10) as [Hlt|_]; [lia|].
  rewrite Hlats, Hlons. rewrite !bind_Returned.
  cbv zeta. rewrite Hdb, bind_Returned.
  destruct (np_unique_counts (List.filter (fun l => Z.leb 0 l) labels))
    as [unique_labels counts] eqn:Hu.
  cbn [fst snd] in Hidx.
  assert (Hne : Nat.ltb 0 (length unique_labels) = true).
  { apply Nat.ltb_lt. destruct unique_labels; [discriminate Hidx|simpl; lia]. }
  rewrite Hne, Hidx, bind_Returned.
  eexists largest, _, _, _, _. split; [reflexivity|].
  split; [exact Hin|]. split; [exact Hpos|]. split; [exact Hbig|].
  intros i la lo Hl Hla Hlo.
  set (mask := map (fun l => Z.eqb l largest) labels).
  assert (Hc : In (la, lo) (boolean_index (zip lats lons) mask)).
  { apply (boolean_index_lookup _ _ i).
    - unfold zip. apply lookup_zip_with_Some. exists la, lo. auto.
    - unfold mask. change (map ?f ?l) with (f <$> l).
      rewrite list_lookup_fmap, Hl. cbn. rewrite Z.eqb_refl. reflexivity. }
  pose proof (np_min_le_np_max lats) as Hr1.
  pose proof (np_min_le_np_max lons) as Hr2.
  assert (Hpad : 0 <= Rmin (np_max lats - np_min lats) (np_max lons - np_min lons) * 0.02).
  { apply Rmult_le_pos; [apply Rmin_glb; lra|lra]. }
  pose proof (np_min_le _ la (in_map fst _ _ Hc)) as H1.
  pose proof (np_max_ge _ la (in_map fst _ _ Hc)) as H2.
  pose proof (np_min_le _ lo (in_map snd _ _ Hc)) as H3.
  pose proof (np_max_ge _ lo (in_map snd _ _ Hc)) as H4.
  cbn [fst snd] in H1, H2, H3, H4. lra.
Qed.

End ClusterFocus.

(** ** Ten businesses at one address *)

Lemma crowded_lats_numeric :
  numeric_col crowded_businesses "lat" b_lat = Returned crowded_lats.
Proof. reflexivity. Qed.

Lemma crowded_lons_numeric :
  numeric_col crowded_businesses "lon" b_lon = Returned crowded_lons.
Proof. reflexivity. Qed.

Lemma cluster_focus_area_covers_largest_cluster_witness :
  exists largest min_lat min_lon max_lat max_lon,
    _auto_determine_focus_area (H0 := cluster_scilibs) crowded_businesses =
      Returned (min_lat, min_lon, max_lat, max_lon) /\
    In largest crowded_labels /\ (0 <= largest)%Z /\
    (forall l, (0 <= l)%Z ->
       (count_occ Z.eq_dec crowded_labels l <=
        count_occ Z.eq_dec crowded_labels largest)%nat) /\
    (forall i la lo,
       crowded_labels !! i = Some largest ->
       crowded_lats !! i = Some la -> crowded_lons !! i = Some lo ->
       min_lat <= la <= max_lat /\ min_lon <= lo <= max_lon).
Proof.
  apply (cluster_focus_area_covers_largest_cluster (H0 := cluster_scilibs)
           crowded_businesses crowded_lats crowded_lons crowded_labels).
  - simpl. lia.
  - exact crowded_lats_numeric.
  - exact crowded_lons_numeric.
  - reflexivity.
  - exists 0%Z. split; [left; reflexivity|lia].
Defined.
